(** * OneEarthForm: waste nutrient analysis and plant recommendations

    A shallow embedding of [utils.py], [plant_database.py] and the data
    pipeline of [app.py].  Python floats (and numpy's float64) are IEEE
    binary64 numbers: they are embedded as Rocq's primitive floats, whose
    operations are specified by the standard library's [SpecFloat]. *)

From Stdlib Require Import ZArith Bool List Lia Ascii String.
From Stdlib Require Import Floats.
From stdpp Require Import base option list strings gmap.

Set Warnings "-inexact-float".
Local Open Scope Z_scope.

(** ** Binary64 numbers *)
Module F64.

Definition is_nan (x : float) : bool := PrimFloat.is_nan x.

(** A finite binary64 number: neither NaN nor an infinity. *)
Definition is_finite (x : float) : bool := PrimFloat.is_finite x.

Definition nan : float := PrimFloat.nan.

(** The conversion of a Python [int] (or an int64 entry) to a float:
    rounding to the nearest binary64 number. *)
Definition of_Z (z : Z) : float := SF2Prim (binary_normalize prec emax z 0 false).

End F64.

(** ** Python results

    A Python call either returns or raises; the exceptions the modelled code
    can raise are a failed dictionary or column lookup and an arithmetic
    operation applied to a string. *)
Inductive PyError : Type :=
  | KeyError (key : string)
  | TypeError (msg : string)
  | ValueError (msg : string).

Inductive PyResult (A : Type) : Type :=
  | Ok (a : A)
  | Raise (e : PyError).
Arguments Ok {A} a.
Arguments Raise {A} e.

Definition py_bind {A B : Type} (m : PyResult A) (k : A -> PyResult B) : PyResult B :=
  match m with
  | Ok a => k a
  | Raise e => Raise e
  end.

Notation "x <-? m ;; k" := (py_bind m (fun x => k))
  (at level 100, m at next level, right associativity).

(** A [for] loop whose body may raise: the first exception ends the loop. *)
Fixpoint py_for {A S : Type} (body : S -> A -> PyResult S) (xs : list A) (s : S)
  : PyResult S :=
  match xs with
  | [] => Ok s
  | x :: xs' => s' <-? body s x ;; py_for body xs' s'
  end.

(** Insertion-ordered dictionaries with string keys ([dict] keeps the order
    in which keys were first assigned). *)
Section Dict.
Context {V : Type}.

Fixpoint dict_get (d : list (string * V)) (k : string) : option V :=
  match d with
  | [] => None
  | (k', v) :: d' => if String.eqb k' k then Some v else dict_get d' k
  end.

Fixpoint dict_set (d : list (string * V)) (k : string) (v : V) : list (string * V) :=
  match d with
  | [] => [(k, v)]
  | (k', v') :: d' =>
      if String.eqb k' k then (k, v) :: d' else (k', v') :: dict_set d' k v
  end.

Definition dict_mem (d : list (string * V)) (k : string) : bool :=
  match dict_get d k with Some _ => true | None => false end.

End Dict.

(** ** pandas tables

    A column read from a CSV file is an int64 column, a float64 column (a
    missing entry is NaN) or an [object] column whose entries are strings,
    with NaN for an empty cell. *)
Module Pandas.

Inductive Obj : Type :=
  | OStr (s : string)
  | OInt (z : Z)
  | OFloat (f : float).

Inductive Series : Type :=
  | SObject (vs : list Obj)
  | SInt64 (vs : list Z)
  | SFloat64 (vs : list float).

(** A frame: the length of its index and its columns in order. *)
Record DataFrame : Type := mkDataFrame {
  nrows : nat;
  columns : list (string * Series)
}.

Definition series_len (s : Series) : nat :=
  match s with
  | SObject vs => length vs
  | SInt64 vs => length vs
  | SFloat64 vs => length vs
  end.

(** [col in data.columns] *)
Definition has_column (data : DataFrame) (col : string) : bool :=
  dict_mem (columns data) col.

(** [data[col]], which raises [KeyError] for an absent column. *)
Definition get_column (data : DataFrame) (col : string) : PyResult Series :=
  match dict_get (columns data) col with
  | Some s => Ok s
  | None => Raise (KeyError col)
  end.

(** [data[col] = series]: a present column is replaced in place, a new one
    is added after the last column. *)
Definition set_column (data : DataFrame) (col : string) (s : Series) : DataFrame :=
  mkDataFrame (nrows data) (dict_set (columns data) col s).

(** [data[col] = scalar]: the scalar in every row. *)
Definition broadcast (n : nat) (v : Obj) : Series :=
  match v with
  | OStr s => SObject (repeat (OStr s) n)
  | OInt z => SInt64 (repeat z n)
  | OFloat f => SFloat64 (repeat f n)
  end.

(** [series.dtype == 'object'] *)
Definition is_object (s : Series) : bool :=
  match s with SObject _ => true | _ => false end.

(** The values a label dictionary maps to: all floats, or all ints (the
    [Age_Days] mapping). *)
Inductive Mapping : Type :=
  | MFloat (m : list (string * float))
  | MInt (m : list (string * Z)).

Definition mapping_has (m : Mapping) (k : string) : bool :=
  match m with
  | MFloat d => dict_mem d k
  | MInt d => dict_mem d k
  end.

(** [series.isin(mapping.keys())]: only a string can equal a key. *)
Definition isin_keys (m : Mapping) (v : Obj) : bool :=
  match v with
  | OStr s => mapping_has m s
  | _ => false
  end.

Definition lookup_label {V : Type} (d : list (string * V)) (v : Obj) : option V :=
  match v with
  | OStr s => dict_get d s
  | _ => None
  end.

(** [series.map(mapping)] with a dictionary: an entry that is no key of the
    dictionary becomes NaN.  An int-valued dictionary gives an int64 column
    when every entry is a key and a float64 column otherwise. *)
Definition series_map (m : Mapping) (vs : list Obj) : Series :=
  match m with
  | MFloat d => SFloat64 (map (fun v => default F64.nan (lookup_label d v)) vs)
  | MInt d =>
      let r := map (lookup_label d) vs in
      if forallb (fun o : option Z => match o with Some _ => true | None => false end) r
      then SInt64 (map (default 0) r)
      else SFloat64 (map (fun o : option Z => match o with
                                   | Some z => F64.of_Z z
                                   | None => F64.nan
                                   end) r)
  end.

(** A parsed number: [int] or [float]. *)
Inductive Number : Type :=
  | NInt (z : Z)
  | NFloat (f : float).

Definition number_to_float (n : Number) : float :=
  match n with
  | NInt z => F64.of_Z z
  | NFloat f => f
  end.

(** [series.isna().any()] *)
Definition any_isna (s : Series) : bool :=
  match s with
  | SObject vs => existsb (fun v => match v with OFloat f => F64.is_nan f | _ => false end) vs
  | SInt64 _ => false
  | SFloat64 vs => existsb F64.is_nan vs
  end.

(** [series.fillna(value)] *)
Definition fillna (s : Series) (value : float) : Series :=
  match s with
  | SFloat64 vs => SFloat64 (map (fun v => if F64.is_nan v then value else v) vs)
  | SObject vs => SObject (map (fun v => match v with
                                       | OFloat f => if F64.is_nan f then OFloat value else v
                                       | _ => v
                                       end) vs)
  | SInt64 vs => SInt64 vs
  end.

(** What the code takes from pandas and numpy without spelling it out: how
    a string is read as a number, and the mean of the non-missing entries of
    a float column (the summation order is the library's own). *)
Class Numeric : Type := {
  str_to_number : string -> option Number;
  nanmean : list float -> float
}.

Section WithNumeric.
Context {num : Numeric}.

Definition coerce (v : Obj) : Number :=
  match v with
  | OStr s => default (NFloat F64.nan) (str_to_number s)
  | OInt z => NInt z
  | OFloat f => NFloat f
  end.

Definition is_int (n : Number) : bool :=
  match n with NInt _ => true | NFloat _ => false end.

Definition int_of (n : Number) : Z :=
  match n with NInt z => z | NFloat _ => 0 end.

(** [pd.to_numeric(series, errors='coerce')]: a numeric column is returned
    as it is; in an [object] column an entry that does not parse becomes
    NaN.  On the entries a CSV file gives, the call does not raise. *)
Definition to_numeric (s : Series) : PyResult Series :=
  match s with
  | SObject vs =>
      let r := map coerce vs in
      if forallb is_int r then Ok (SInt64 (map int_of r))
      else Ok (SFloat64 (map number_to_float r))
  | _ => Ok s
  end.

(** [series.mean()] *)
Definition mean (s : Series) : float :=
  match s with
  | SFloat64 vs => nanmean vs
  | SInt64 vs => nanmean (map F64.of_Z vs)
  | SObject vs => nanmean (map (fun v => number_to_float (coerce v)) vs)
  end.

End WithNumeric.

(** [series == label], entry by entry. *)
Definition eq_label (s : Series) (label : string) : list bool :=
  match s with
  | SObject vs => map (fun v => match v with OStr x => String.eqb x label | _ => false end) vs
  | SInt64 vs => map (fun _ => false) vs
  | SFloat64 vs => map (fun _ => false) vs
  end.

(** The entries of a column as floats for arithmetic; a string entry makes
    the arithmetic raise [TypeError]. *)
Fixpoint obj_floats (vs : list Obj) : PyResult (list float) :=
  match vs with
  | [] => Ok []
  | OStr _ :: _ => Raise (TypeError "can't multiply sequence by non-int of type 'float'")
  | OInt z :: vs' => r <-? obj_floats vs' ;; Ok (F64.of_Z z :: r)
  | OFloat f :: vs' => r <-? obj_floats vs' ;; Ok (f :: r)
  end.

Definition as_floats (s : Series) : PyResult (list float) :=
  match s with
  | SFloat64 vs => Ok vs
  | SInt64 vs => Ok (map F64.of_Z vs)
  | SObject vs => obj_floats vs
  end.

(** [series.clip(lower, upper)] on one entry: a NaN stays, an entry below
    [lower] becomes [lower], an entry above [upper] becomes [upper]. *)
Definition clip (lower upper x : float) : float :=
  let r := if F64.is_nan x || (lower <=? x)%float then x else lower in
  if F64.is_nan x || (x <=? upper)%float then r else upper.

(** *** A reference instance

    Plain decimal literals ([12], [-3], [7.25]) read as Python reads them,
    and a mean that adds the present entries from left to right.  It is
    what the concrete runs below evaluate with. *)
Definition digit_of (c : Ascii.ascii) : option Z :=
  let n := Z.of_N (Ascii.N_of_ascii c) in
  if (48 <=? n) && (n <=? 57) then Some (n - 48) else None.

(** The value of a string of digits, after the digits [acc] read so far. *)
Fixpoint digits (s : string) (acc : Z) : option Z :=
  match s with
  | EmptyString => Some acc
  | String c s' =>
      match digit_of c with
      | Some d => digits s' (10 * acc + d)
      | None => None
      end
  end.

(** The text before the first ['.'] and, if there is one, the text after it. *)
Fixpoint split_point (s : string) : string * option string :=
  match s with
  | EmptyString => (EmptyString, None)
  | String c s' =>
      if Ascii.eqb c "."%char then (EmptyString, Some s')
      else let '(a, b) := split_point s' in (String c a, b)
  end.

Definition unsigned_literal (s : string) : option Number :=
  match split_point s with
  | (EmptyString, _) => None
  | (whole, None) => z ← digits whole 0; Some (NInt z)
  | (whole, Some EmptyString) => z ← digits whole 0; Some (NFloat (F64.of_Z z))
  | (whole, Some frac) =>
      z ← digits (whole +:+ frac) 0;
      Some (NFloat (F64.of_Z z / F64.of_Z (10 ^ Z.of_nat (String.length frac)))%float)
  end.

Definition decimal_literal (s : string) : option Number :=
  match s with
  | String "-"%char s' =>
      match unsigned_literal s' with
      | Some (NInt z) => Some (NInt (- z))
      | Some (NFloat f) => Some (NFloat (- f)%float)
      | None => None
      end
  | _ => unsigned_literal s
  end.

Definition left_sum (vs : list float) : float :=
  fold_left (fun a v => (a + v)%float) vs 0%float.

Definition left_nanmean (vs : list float) : float :=
  let present := List.filter (fun v => negb (F64.is_nan v)) vs in
  (left_sum present / F64.of_Z (Z.of_nat (length present)))%float.

Definition reference_numeric : Numeric :=
  {| str_to_number := decimal_literal; nanmean := left_nanmean |}.

End Pandas.

(** ** plant_database.py *)
Module PlantDatabase.

(** One [{'min': _, 'max': _, 'optimal': _}] triple. *)
Record Req : Type := mkReq {
  req_min : float;
  req_max : float;
  req_optimal : float
}.

(** The value of one plant type: the triples by nutrient name and the text
    stored under ['description']. *)
Record PlantInfo : Type := mkPlantInfo {
  nutrients : gmap string Req;
  description : string
}.

Definition plant_of (n p k : Req) (descr : string) : PlantInfo :=
  mkPlantInfo (<["Nitrogen" := n]> (<["Phosphorus" := p]> (<["Potassium" := k]> ∅))) descr.

Definition Tomatoes : PlantInfo :=
  plant_of (mkReq 1.5 3.5 2.5) (mkReq 0.3 0.8 0.5) (mkReq 1.2 2.5 1.8)
    "Heavy feeders that need high nitrogen during vegetative growth and more phosphorus during fruiting.".

Definition Leafy_Greens : PlantInfo :=
  plant_of (mkReq 2.0 4.0 3.0) (mkReq 0.2 0.5 0.3) (mkReq 1.0 2.0 1.5)
    "Need high nitrogen for leaf development. Great for nitrogen-rich waste materials.".

Definition Root_Vegetables : PlantInfo :=
  plant_of (mkReq 1.0 2.0 1.5) (mkReq 0.4 0.9 0.6) (mkReq 1.5 3.0 2.0)
    "Require balanced nutrients with higher potassium for root development.".

Definition Fruit_Trees : PlantInfo :=
  plant_of (mkReq 1.2 2.5 1.8) (mkReq 0.3 0.7 0.5) (mkReq 1.4 2.8 2.0)
    "Need balanced nutrition throughout the year with emphasis on phosphorus and potassium for fruit production.".

Definition Grains : PlantInfo :=
  plant_of (mkReq 1.0 2.2 1.6) (mkReq 0.2 0.5 0.3) (mkReq 1.0 2.0 1.5)
    "Require moderate nutrients with consistent nitrogen availability throughout growth.".

Definition plant_requirements : list (string * PlantInfo) :=
  [ ("Tomatoes", Tomatoes); ("Leafy Greens", Leafy_Greens);
    ("Root Vegetables", Root_Vegetables); ("Fruit Trees", Fruit_Trees);
    ("Grains", Grains) ].

End PlantDatabase.

(** ** utils.py: the suitability analyzer *)
Module Utils.
Import PlantDatabase.

Inductive Status : Type := Low | High | Optimal.

(** One value of the [suitability] dictionary. *)
Record Verdict : Type := mkVerdict {
  status : Status;
  current : float;
  optimal : float;
  action : string
}.

Definition NUTRIENTS : list string := ["Nitrogen"; "Phosphorus"; "Potassium"].

(** [f'{nutrient}_pct'] *)
Definition pct (nutrient : string) : string := nutrient +:+ "_pct".

(** The [if]/[elif]/[else] on [value], [req['min']] and [req['max']]. *)
Definition classify (nutrient : string) (value : float) (req : Req) : Status * string :=
  if (value <? req_min req)%float then (Low, "Increase " +:+ nutrient)
  else if (req_max req <? value)%float then (High, "Reduce " +:+ nutrient)
  else (Optimal, "Maintain levels").

Definition low_text (nutrient : string) : string :=
  "- " +:+ nutrient +:+ " is low. Consider supplementing with " +:+ nutrient +:+ "-rich materials.".

Definition high_text (nutrient : string) : string :=
  "- " +:+ nutrient +:+ " is high. Consider mixing with lower " +:+ nutrient +:+ " materials.".

(** What the body appends to [recommendations] for a status. *)
Definition recommend (nutrient : string) (s : Status) : list string :=
  match s with
  | Optimal => []
  | Low => [low_text nutrient]
  | High => [high_text nutrient]
  end.

Definition AnalysisState : Type := list (string * Verdict) * list string.

(** One iteration of [for nutrient in ['Nitrogen', 'Phosphorus', 'Potassium']]. *)
Definition analyze_step (predictions : gmap string float) (plant_info : PlantInfo)
    (st : AnalysisState) (nutrient : string) : PyResult AnalysisState :=
  let '(suitability, recommendations) := st in
  match predictions !! pct nutrient with
  | None => Ok st
  | Some value =>
      match nutrients plant_info !! nutrient with
      | None => Raise (KeyError nutrient)
      | Some req =>
          let '(st_, action_) := classify nutrient value req in
          Ok (dict_set suitability nutrient
                (mkVerdict st_ value (req_optimal req) action_),
              recommendations ++ recommend nutrient st_)
      end
  end.

Definition analyze_nutrient_suitability (predictions : gmap string float)
    (plant_info : PlantInfo) : PyResult AnalysisState :=
  py_for (analyze_step predictions plant_info) NUTRIENTS ([], []).

(** A requirement entry as the data model has it: the three nutrients are
    there and each triple has [min <= max]. *)
Definition plant_info_ok (plant_info : PlantInfo) : bool :=
  forallb (fun n => match nutrients plant_info !! n with
                    | Some r => (req_min r <=? req_max r)%float
                    | None => false
                    end) NUTRIENTS.

Definition prediction (n p k : float) : gmap string float :=
  <["Nitrogen_pct" := n]> (<["Phosphorus_pct" := p]> (<["Potassium_pct" := k]> ∅)).

(** *** Synthetic targets *)
Import Pandas.

(** The arrays the four [np.random.uniform(low, high, len(data))] calls
    return, in the order of the calls. *)
Record Draws : Type := mkDraws {
  nitrogen_food : list float;      (* uniform(1.5, 4.0) *)
  nitrogen_garden : list float;    (* uniform(0.5, 2.0) *)
  phosphorus_food : list float;    (* uniform(0.3, 1.2) *)
  potassium_food : list float      (* uniform(1.0, 2.5) *)
}.

(** [bool * float]: [True] counts as 1.0 and [False] as 0.0. *)
Definition indicator (b : bool) (u : float) : float :=
  ((if b then 1 else 0) * u)%float.

(** Arithmetic between columns works entry by entry. *)
Definition times_array (bs : list bool) (us : list float) : list float :=
  zip_with indicator bs us.

Definition plus (xs ys : list float) : list float :=
  zip_with (fun x y => (x + y)%float) xs ys.

Definition minus (xs ys : list float) : list float :=
  zip_with (fun x y => (x - y)%float) xs ys.

Definition scaled (xs : list float) (c : float) : list float :=
  map (fun x => (x * c)%float) xs.

Definition nitrogen_column (draws : Draws) (waste : Series) (moisture ph : list float)
  : list float :=
  map (clip 0.05 5.0)
    (minus (plus (plus (times_array (eq_label waste "Food") (nitrogen_food draws))
                       (times_array (eq_label waste "Garden") (nitrogen_garden draws)))
                 (scaled moisture 0.01))
           (scaled ph 0.1)).

Definition phosphorus_column (draws : Draws) (waste : Series) (carbon : list float)
  : list float :=
  map (clip 0.01 2.0)
    (plus (times_array (eq_label waste "Food") (phosphorus_food draws))
          (scaled carbon 0.005)).

Definition potassium_column (draws : Draws) (waste : Series) (moisture : list float)
  : list float :=
  map (clip 0.05 3.0)
    (plus (times_array (eq_label waste "Food") (potassium_food draws))
          (scaled moisture 0.008)).

(** The three assignments of [generate_synthetic_targets], in order; each
    one reads its columns from the frame the previous one left. *)
Definition generate_synthetic_targets (draws : Draws) (data : DataFrame)
  : PyResult DataFrame :=
  waste <-? get_column data "Waste_Type" ;;
  moisture <-? (m <-? get_column data "Moisture_Content" ;; as_floats m) ;;
  ph <-? (c <-? get_column data "pH_Level" ;; as_floats c) ;;
  let data1 := set_column data "Nitrogen_pct"
                 (SFloat64 (nitrogen_column draws waste moisture ph)) in
  waste1 <-? get_column data1 "Waste_Type" ;;
  carbon <-? (c <-? get_column data1 "Carbon_Content" ;; as_floats c) ;;
  let data2 := set_column data1 "Phosphorus_pct"
                 (SFloat64 (phosphorus_column draws waste1 carbon)) in
  waste2 <-? get_column data2 "Waste_Type" ;;
  moisture2 <-? (m <-? get_column data2 "Moisture_Content" ;; as_floats m) ;;
  Ok (set_column data2 "Potassium_pct"
        (SFloat64 (potassium_column draws waste2 moisture2))).

End Utils.



(** ** app.py: normalisation, training and the C/N check

    The calls that only write to the page ([st.info], [st.write], the
    charts) do not touch [data] and are left out, except for the notices
    that the training handler and the C/N check end in. *)
Module App.
Import Pandas PlantDatabase Utils.

Definition DEFAULT_VALUES : list (string * Obj) :=
  [ ("Waste_Type", OStr "Mixed");
    ("Moisture_Content", OFloat 50.0);
    ("pH_Level", OFloat 6.5);
    ("Carbon_Content", OFloat 35.0);
    ("Particle_Size_mm", OFloat 10.0);
    ("Age_Days", OInt 30);
    ("Degradation_Rate", OFloat 1.0) ].

Definition CATEGORICAL_MAPPINGS : list (string * Mapping) :=
  [ ("Moisture_Content", MFloat [("Low", 30.0); ("Medium", 50.0); ("High", 70.0)]%float);
    ("pH_Level", MFloat [("Low", 4.5); ("Medium", 6.5); ("High", 8.5)]%float);
    ("Carbon_Content", MFloat [("Low", 25.0); ("Medium", 35.0); ("High", 45.0)]%float);
    ("Particle_Size_mm", MFloat [("Small", 2.0); ("Medium", 10.0); ("Large", 25.0)]%float);
    ("Age_Days", MInt [("Young", 15); ("Medium", 30); ("Old", 60)]);
    ("Degradation_Rate", MFloat [("Slow", 0.5); ("Medium", 1.0); ("Fast", 2.0)]%float) ].

(** One iteration of [for col, mapping in CATEGORICAL_MAPPINGS.items()]. *)
Definition convert_step (data : DataFrame) (entry : string * Mapping) : DataFrame :=
  let '(col, mapping) := entry in
  match dict_get (columns data) col with
  | Some (SObject vs) =>
      if existsb (isin_keys mapping) vs
      then set_column data col (series_map mapping vs)
      else data
  | _ => data
  end.

Definition convert_categorical_to_numeric (data : DataFrame) : DataFrame :=
  fold_left convert_step CATEGORICAL_MAPPINGS data.

Definition numeric_columns : list string :=
  [ "Moisture_Content"; "pH_Level"; "Carbon_Content";
    "Particle_Size_mm"; "Age_Days"; "Degradation_Rate" ].

(** [DEFAULT_VALUES[col]], for a column of the table. *)
Definition default_value (col : string) : Obj :=
  default (OStr "") (dict_get DEFAULT_VALUES col).

(** One iteration of the first loop of [handle_missing_data]. *)
Definition add_missing_column (data : DataFrame) (entry : string * Obj) : DataFrame :=
  let '(col, default_value) := entry in
  if has_column data col then data
  else set_column data col (broadcast (nrows data) default_value).

Section WithNumeric.
Context {num : Numeric}.

(** The body of the [try] of the second loop. *)
Definition coerce_column (data : DataFrame) (col : string) : PyResult DataFrame :=
  s <-? get_column data col ;;
  s' <-? to_numeric s ;;
  let data' := set_column data col s' in
  if any_isna s'
  then Ok (set_column data' col (fillna s' (mean s')))
  else Ok data'.

(** One iteration of [for col in numeric_columns], with its [except]. *)
Definition coerce_step (data : DataFrame) (col : string) : DataFrame :=
  if has_column data col then
    match coerce_column data col with
    | Ok data' => data'
    | Raise _ => set_column data col (broadcast (nrows data) (default_value col))
    end
  else data.

Definition handle_missing_data (data : DataFrame) : DataFrame :=
  let data1 := fold_left add_missing_column DEFAULT_VALUES data in
  fold_left coerce_step numeric_columns data1.

(** What the page does with an uploaded table before anything else. *)
Definition normalize (data : DataFrame) : DataFrame :=
  handle_missing_data (convert_categorical_to_numeric data).

End WithNumeric.

(** *** Training *)

Definition target_variables : list string :=
  ["Nitrogen_pct"; "Phosphorus_pct"; "Potassium_pct"].

(** What the handler takes from scikit-learn: the split of the rows and the
    fit of the pipeline (scaler, one-hot encoder and random forest), either
    of which may raise. *)
Class Sklearn : Type := {
  Model : Type;
  train_test_split : DataFrame -> Series -> float ->
                     PyResult (DataFrame * DataFrame * Series * Series);
  fit : DataFrame -> Series -> PyResult Model
}.

Inductive Notice : Type :=
  | Warning (text : string)
  | Success (text : string)
  | Error (text : string).

(** [str(e)] *)
Definition str (e : PyError) : string :=
  match e with
  | KeyError k => "'" +:+ k +:+ "'"
  | TypeError m => m
  | ValueError m => m
  end.

(** [data[list(DEFAULT_VALUES.keys())]] *)
Definition select_columns (data : DataFrame) (cols : list string) : PyResult DataFrame :=
  cs <-? py_for (fun acc col => s <-? get_column data col ;; Ok (acc ++ [(col, s)]))
           cols [] ;;
  Ok (mkDataFrame (nrows data) cs).

(** [all(target in data.columns for target in target_variables)] *)
Definition has_all_targets (data : DataFrame) : bool :=
  forallb (has_column data) target_variables.

(** Lines 157-160: the synthetic targets are made when some target column
    is not in the table. *)
Definition ensure_targets (draws : Draws) (data : DataFrame) : PyResult DataFrame :=
  if negb (has_all_targets data) then generate_synthetic_targets draws data
  else Ok data.

Section WithSklearn.
Context {sk : Sklearn}.

(** One iteration of [for target in target_variables]. *)
Definition train_target (X data : DataFrame) (test_size : float)
    (models : list (string * Model)) (target : string)
  : PyResult (list (string * Model)) :=
  y <-? get_column data target ;;
  parts <-? train_test_split X y test_size ;;
  let '(X_train, _, y_train, _) := parts in
  model <-? fit X_train y_train ;;
  Ok (dict_set models target model).

(** The body of [if st.button("Train Model")]. *)
Definition train_models (draws : Draws) (data : DataFrame) (test_size : float)
  : PyResult (DataFrame * list (string * Model)) :=
  X <-? select_columns data (map fst DEFAULT_VALUES) ;;
  data' <-? ensure_targets draws data ;;
  models <-? py_for (train_target X data' test_size) target_variables [] ;;
  Ok (data', models).

(** The handler inside the page's [try]/[except Exception]: the notices it
    shows and the models it leaves in the session, if any. *)
Definition train_handler (draws : Draws) (data : DataFrame) (test_size : float)
  : list Notice * option (list (string * Model)) :=
  match select_columns data (map fst DEFAULT_VALUES) with
  | Raise e => ([Error ("Error processing the file: " +:+ str e)], None)
  | Ok _ =>
      let synthetic :=
        if negb (has_all_targets data)
        then [Warning "Target variables not found in dataset. Creating synthetic targets for demonstration."]
        else [] in
      match train_models draws data test_size with
      | Ok (_, models) => (synthetic ++ [Success "Models trained successfully!"], Some models)
      | Raise e => (synthetic ++ [Error ("Error processing the file: " +:+ str e)], None)
      end
  end.

End WithSklearn.

(** *** The carbon to nitrogen check (lines 289-296) *)

(** [carbon_content / predictions['Nitrogen_pct']]: the prediction is a
    numpy float64, so the quotient is the IEEE one (a zero divisor gives an
    infinity or NaN, not an exception). *)
Definition c_n_ratio (carbon_content : float) (predictions : gmap string float)
  : PyResult float :=
  match predictions !! "Nitrogen_pct" with
  | Some nitrogen => Ok (carbon_content / nitrogen)%float
  | None => Raise (KeyError "Nitrogen_pct")
  end.

(** The notice of each branch, with the ratio it prints. *)
Inductive CNVerdict : Type :=
  | CN_high (ratio : float)     (* st.warning: ratio is high, add nitrogen-rich materials *)
  | CN_low (ratio : float)      (* st.warning: ratio is low, add carbon-rich materials *)
  | CN_optimal (ratio : float). (* st.success: ratio is optimal *)

Definition c_n_verdict (ratio : float) : CNVerdict :=
  if (30 <? ratio)%float then CN_high ratio
  else if (ratio <? 15)%float then CN_low ratio
  else CN_optimal ratio.

Definition general_recommendations (carbon_content : float)
    (predictions : gmap string float) : PyResult CNVerdict :=
  ratio <-? c_n_ratio carbon_content predictions ;;
  Ok (c_n_verdict ratio).

End App.

(** * Properties *)

(** ** The order of binary64 numbers

    [<?] and [<=?] on floats are IEEE comparisons: every comparison with a
    NaN is false.  The facts below are what the branch structure of the
    Python code relies on. *)
Module FloatOrder.
Import F64.

Lemma SFcompare_refl (x : spec_float) :
  SFcompare x x = Some Eq \/ SFcompare x x = None.
Proof.
  destruct x as [s|s| |s m e]; simpl; auto; destruct s; auto.
  - rewrite Z.compare_refl, Pos.compare_cont_refl. auto.
  - rewrite Z.compare_refl, Pos.compare_cont_refl. auto.
Qed.

Lemma SFcompare_antisym (x y : spec_float) (c : comparison) :
  SFcompare x y = Some c -> SFcompare y x = Some (CompOpp c).
Proof.
  destruct x as [s1|s1| |s1 m1 e1], y as [s2|s2| |s2 m2 e2]; simpl;
    try discriminate; intros [= <-]; try (destruct s1; reflexivity);
    try (destruct s2; reflexivity); try (destruct s1, s2; reflexivity).
  destruct s1, s2; try reflexivity.
  - rewrite (Z.compare_antisym e1 e2).
    destruct (e1 ?= e2)%Z; simpl; try reflexivity.
    change (Pos.compare_cont Eq m2 m1) with (m2 ?= m1)%positive.
    change (Pos.compare_cont Eq m1 m2) with (m1 ?= m2)%positive.
    rewrite (Pos.compare_antisym m1 m2).
    destruct (m1 ?= m2)%positive; reflexivity.
  - rewrite (Z.compare_antisym e1 e2).
    destruct (e1 ?= e2)%Z; simpl; try reflexivity.
    change (Pos.compare_cont Eq m2 m1) with (m2 ?= m1)%positive.
    change (Pos.compare_cont Eq m1 m2) with (m1 ?= m2)%positive.
    rewrite (Pos.compare_antisym m1 m2).
    destruct (m1 ?= m2)%positive; reflexivity.
Qed.

Ltac split_compares :=
  repeat match goal with
  | H : context [(?a ?= ?b)%Z] |- _ => destruct (Z.compare_spec a b)
  | |- context [(?a ?= ?b)%Z] => destruct (Z.compare_spec a b)
  | H : context [(?a ?= ?b)%positive] |- _ => destruct (Pos.compare_spec a b)
  | |- context [(?a ?= ?b)%positive] => destruct (Pos.compare_spec a b)
  end.

Lemma SFcompare_Lt_trans (x y z : spec_float) :
  SFcompare x y = Some Lt -> SFcompare y z = Some Lt -> SFcompare x z = Some Lt.
Proof.
  destruct x as [[]|[]| |[] m1 e1], y as [[]|[]| |[] m2 e2],
           z as [[]|[]| |[] m3 e3]; simpl; try discriminate; try reflexivity;
    change (Pos.compare_cont Eq) with Pos.compare; intros H1 H2;
    split_compares; simpl in *; try discriminate; try reflexivity;
    subst; lia.
Qed.

Lemma SFcompare_Eq_l (x y z : spec_float) (c : comparison) :
  SFcompare x y = Some Eq -> SFcompare y z = Some c -> SFcompare x z = Some c.
Proof.
  destruct x as [[]|[]| |[] m1 e1], y as [[]|[]| |[] m2 e2],
           z as [[]|[]| |[] m3 e3]; simpl; try discriminate; try (intros _ H; exact H);
    change (Pos.compare_cont Eq) with Pos.compare; intros H1 H2;
    split_compares; simpl in *; try discriminate; try assumption;
    subst; lia.
Qed.

Lemma SFcompare_Eq_r (x y z : spec_float) (c : comparison) :
  SFcompare x y = Some c -> SFcompare y z = Some Eq -> SFcompare x z = Some c.
Proof.
  destruct x as [[]|[]| |[] m1 e1], y as [[]|[]| |[] m2 e2],
           z as [[]|[]| |[] m3 e3]; simpl; try discriminate; try (intros H _; exact H);
    change (Pos.compare_cont Eq) with Pos.compare; intros H1 H2;
    split_compares; simpl in *; try discriminate; try assumption;
    subst; lia.
Qed.

Lemma SFcompare_None (x y : spec_float) :
  SFcompare x y = None <-> x = S754_nan \/ y = S754_nan.
Proof.
  destruct x as [[]|[]| |[] m1 e1], y as [[]|[]| |[] m2 e2]; simpl;
    split; intros H; try discriminate; auto; destruct H; discriminate.
Qed.

Lemma is_nan_spec (x : float) : is_nan x = true <-> Prim2SF x = S754_nan.
Proof.
  unfold is_nan, PrimFloat.is_nan. rewrite FloatAxioms.eqb_spec. unfold SFeqb.
  destruct (SFcompare_refl (Prim2SF x)) as [H|H]; rewrite H; simpl.
  - split; [discriminate|]. intros E. rewrite E in H. discriminate.
  - apply SFcompare_None in H. split; [tauto | reflexivity].
Qed.

Lemma is_nan_false (x : float) : is_nan x = false <-> Prim2SF x <> S754_nan.
Proof.
  rewrite <- is_nan_spec. destruct (is_nan x); split; congruence.
Qed.

(** A comparison that holds rules out a NaN on either side. *)
Lemma ltb_not_nan (x y : float) :
  (x <? y)%float = true -> is_nan x = false /\ is_nan y = false.
Proof.
  rewrite ltb_spec. unfold SFltb.
  destruct (SFcompare (Prim2SF x) (Prim2SF y)) eqn:E; [|discriminate].
  intros _. split; apply is_nan_false; intros N; rewrite N in E;
    [|destruct (Prim2SF x) as [[]|[]| |[]]]; discriminate.
Qed.

Lemma leb_not_nan (x y : float) :
  (x <=? y)%float = true -> is_nan x = false /\ is_nan y = false.
Proof.
  rewrite leb_spec. unfold SFleb.
  destruct (SFcompare (Prim2SF x) (Prim2SF y)) eqn:E; [|discriminate].
  intros _. split; apply is_nan_false; intros N; rewrite N in E;
    [|destruct (Prim2SF x) as [[]|[]| |[]]]; discriminate.
Qed.

Lemma ltb_irrefl (x : float) : (x <? x)%float = false.
Proof.
  rewrite ltb_spec. unfold SFltb.
  destruct (SFcompare_refl (Prim2SF x)) as [H|H]; rewrite H; reflexivity.
Qed.

Lemma leb_refl (x : float) : is_nan x = false -> (x <=? x)%float = true.
Proof.
  intros N%is_nan_false. rewrite leb_spec. unfold SFleb.
  destruct (SFcompare_refl (Prim2SF x)) as [H|H]; rewrite H; [reflexivity|].
  apply SFcompare_None in H. tauto.
Qed.

Lemma ltb_trans (x y z : float) :
  (x <? y)%float = true -> (y <? z)%float = true -> (x <? z)%float = true.
Proof.
  rewrite !ltb_spec. unfold SFltb.
  destruct (SFcompare (Prim2SF x) (Prim2SF y)) as [[]|] eqn:E1; try discriminate.
  destruct (SFcompare (Prim2SF y) (Prim2SF z)) as [[]|] eqn:E2; try discriminate.
  now rewrite (SFcompare_Lt_trans _ _ _ E1 E2).
Qed.

Lemma leb_ltb_trans (x y z : float) :
  (x <=? y)%float = true -> (y <? z)%float = true -> (x <? z)%float = true.
Proof.
  rewrite leb_spec, !ltb_spec. unfold SFleb, SFltb.
  destruct (SFcompare (Prim2SF x) (Prim2SF y)) as [[]|] eqn:E1; try discriminate;
  destruct (SFcompare (Prim2SF y) (Prim2SF z)) as [[]|] eqn:E2; try discriminate.
  - now rewrite (SFcompare_Eq_l _ _ _ _ E1 E2).
  - now rewrite (SFcompare_Lt_trans _ _ _ E1 E2).
Qed.

Lemma ltb_leb_trans (x y z : float) :
  (x <? y)%float = true -> (y <=? z)%float = true -> (x <? z)%float = true.
Proof.
  rewrite leb_spec, !ltb_spec. unfold SFleb, SFltb.
  destruct (SFcompare (Prim2SF x) (Prim2SF y)) as [[]|] eqn:E1; try discriminate;
  destruct (SFcompare (Prim2SF y) (Prim2SF z)) as [[]|] eqn:E2; try discriminate.
  - now rewrite (SFcompare_Eq_r _ _ _ _ E1 E2).
  - now rewrite (SFcompare_Lt_trans _ _ _ E1 E2).
Qed.

(** [x < y] and [y < x] exclude each other. *)
Lemma ltb_asym (x y : float) : (x <? y)%float = true -> (y <? x)%float = false.
Proof.
  intros H. destruct (y <? x)%float eqn:E; [|reflexivity].
  pose proof (ltb_trans _ _ _ H E) as C. now rewrite ltb_irrefl in C.
Qed.

(** On numbers (no NaN involved) the order is total. *)
Lemma ltb_false_leb (x y : float) :
  is_nan x = false -> is_nan y = false ->
  (x <? y)%float = false -> (y <=? x)%float = true.
Proof.
  intros Nx%is_nan_false Ny%is_nan_false. rewrite ltb_spec, leb_spec.
  unfold SFltb, SFleb.
  destruct (SFcompare (Prim2SF x) (Prim2SF y)) as [c|] eqn:E.
  - rewrite (SFcompare_antisym _ _ _ E). destruct c; simpl; congruence.
  - apply SFcompare_None in E. tauto.
Qed.

Lemma leb_ltb_false (x y : float) :
  (x <=? y)%float = true -> (y <? x)%float = false.
Proof.
  intros H. destruct (y <? x)%float eqn:E; [|reflexivity].
  pose proof (leb_ltb_trans _ _ _ H E) as C. now rewrite ltb_irrefl in C.
Qed.

Lemma ltb_leb (x y : float) : (x <? y)%float = true -> (x <=? y)%float = true.
Proof.
  rewrite ltb_spec, leb_spec. unfold SFltb, SFleb.
  destruct (SFcompare (Prim2SF x) (Prim2SF y)) as [[]|]; congruence.
Qed.

Lemma leb_false_ltb (x y : float) :
  is_nan x = false -> is_nan y = false ->
  (x <=? y)%float = false -> (y <? x)%float = true.
Proof.
  intros Nx%is_nan_false Ny%is_nan_false. rewrite ltb_spec, leb_spec.
  unfold SFltb, SFleb.
  destruct (SFcompare (Prim2SF x) (Prim2SF y)) as [c|] eqn:E.
  - rewrite (SFcompare_antisym _ _ _ E). destruct c; simpl; congruence.
  - apply SFcompare_None in E. tauto.
Qed.

Lemma leb_trans (x y z : float) :
  (x <=? y)%float = true -> (y <=? z)%float = true -> (x <=? z)%float = true.
Proof.
  rewrite !leb_spec. unfold SFleb.
  destruct (SFcompare (Prim2SF x) (Prim2SF y)) as [[]|] eqn:E1; try discriminate;
  destruct (SFcompare (Prim2SF y) (Prim2SF z)) as [[]|] eqn:E2; try discriminate;
  intros _ _.
  - now rewrite (SFcompare_Eq_l _ _ _ _ E1 E2).
  - now rewrite (SFcompare_Eq_l _ _ _ _ E1 E2).
  - now rewrite (SFcompare_Eq_r _ _ _ _ E1 E2).
  - now rewrite (SFcompare_Lt_trans _ _ _ E1 E2).
Qed.

End FloatOrder.

(** ** Dictionaries *)
Section DictFacts.
Context {V : Type}.

Lemma dict_get_set_eq (d : list (string * V)) (k : string) (v : V) :
  dict_get (dict_set d k v) k = Some v.
Proof.
  induction d as [|[k' v'] d IH]; simpl.
  - now rewrite String.eqb_refl.
  - destruct (String.eqb k' k) eqn:E; simpl.
    + now rewrite String.eqb_refl.
    + now rewrite E.
Qed.

Lemma dict_get_set_ne (d : list (string * V)) (k k0 : string) (v : V) :
  k <> k0 -> dict_get (dict_set d k v) k0 = dict_get d k0.
Proof.
  intros N. induction d as [|[k' v'] d IH]; simpl.
  - destruct (String.eqb k k0) eqn:E; [|reflexivity].
    apply String.eqb_eq in E. contradiction.
  - destruct (String.eqb k' k) eqn:E; simpl.
    + apply String.eqb_eq in E. subst k'.
      destruct (String.eqb k k0) eqn:E'; [|reflexivity].
      apply String.eqb_eq in E'. contradiction.
    + now rewrite IH.
Qed.

Lemma dict_set_get_same (d : list (string * V)) (k : string) (v : V) :
  dict_get d k = Some v -> dict_set d k v = d.
Proof.
  induction d as [|[k' v'] d IH]; simpl; [discriminate|].
  destruct (String.eqb k' k) eqn:E.
  - apply String.eqb_eq in E. now intros [= ->]; subst.
  - intros H. now rewrite IH.
Qed.

Lemma dict_set_keys (d : list (string * V)) (k : string) (v : V) :
  dict_mem d k = true -> map fst (dict_set d k v) = map fst d.
Proof.
  unfold dict_mem. induction d as [|[k' v'] d IH]; simpl; [discriminate|].
  destruct (String.eqb k' k) eqn:E; simpl.
  - apply String.eqb_eq in E. now subst.
  - intros H. now rewrite IH.
Qed.

End DictFacts.

(** ** The suitability analyzer *)
Module UtilsFacts.
Import Pandas PlantDatabase Utils.

(** The [suitability] value of a nutrient whose percentage is [value]. *)
Definition verdict_of (nutrient : string) (value : float) (req : Req) : Verdict :=
  mkVerdict (fst (classify nutrient value req)) value (req_optimal req)
            (snd (classify nutrient value req)).

(** The item a nutrient contributes to [suitability]: none when the
    prediction has no key for it. *)
Definition entry (predictions : gmap string float) (plant_info : PlantInfo)
    (nutrient : string) : list (string * Verdict) :=
  match predictions !! pct nutrient, nutrients plant_info !! nutrient with
  | Some value, Some req => [(nutrient, verdict_of nutrient value req)]
  | _, _ => []
  end.

(** The plant entry has a triple for each nutrient the prediction has. *)
Definition covers (plant_info : PlantInfo) (predictions : gmap string float) : bool :=
  forallb (fun n => match predictions !! pct n, nutrients plant_info !! n with
                    | Some _, None => false
                    | _, _ => true
                    end) NUTRIENTS.

Definition advice (item : string * Verdict) : list string :=
  recommend (fst item) (status (snd item)).

Definition not_optimal (item : string * Verdict) : bool :=
  match status (snd item) with Optimal => false | _ => true end.

Lemma analyze_step_present predictions plant_info suit recs n value req :
  predictions !! pct n = Some value ->
  nutrients plant_info !! n = Some req ->
  analyze_step predictions plant_info (suit, recs) n
  = Ok (dict_set suit n (verdict_of n value req),
        recs ++ recommend n (status (verdict_of n value req))).
Proof.
  intros Hp Hr. unfold analyze_step, verdict_of. rewrite Hp, Hr.
  destruct (classify n value req) as [s a]. reflexivity.
Qed.

Lemma analyze_step_absent predictions plant_info st n :
  predictions !! pct n = None ->
  analyze_step predictions plant_info st n = Ok st.
Proof.
  intros Hp. unfold analyze_step. destruct st. now rewrite Hp.
Qed.

Lemma analyze_step_keyerror predictions plant_info st n value :
  predictions !! pct n = Some value ->
  nutrients plant_info !! n = None ->
  analyze_step predictions plant_info st n = Raise (KeyError n).
Proof.
  intros Hp Hr. unfold analyze_step. destruct st. now rewrite Hp, Hr.
Qed.

(** The result of the loop, written out. *)
Lemma analyze_closed_form predictions plant_info :
  covers plant_info predictions = true ->
  let suit := entry predictions plant_info "Nitrogen"
              ++ entry predictions plant_info "Phosphorus"
              ++ entry predictions plant_info "Potassium" in
  analyze_nutrient_suitability predictions plant_info
  = Ok (suit, flat_map advice suit).
Proof.
  unfold covers, analyze_nutrient_suitability, NUTRIENTS, entry.
  cbn [forallb py_for].
  destruct (predictions !! pct "Nitrogen") as [vn|] eqn:Pn;
  destruct (predictions !! pct "Phosphorus") as [vp|] eqn:Pp;
  destruct (predictions !! pct "Potassium") as [vk|] eqn:Pk;
  destruct (nutrients plant_info !! "Nitrogen") as [rn|] eqn:Rn;
  destruct (nutrients plant_info !! "Phosphorus") as [rp|] eqn:Rp;
  destruct (nutrients plant_info !! "Potassium") as [rk|] eqn:Rk;
  try discriminate; intros _;
  repeat (first
    [ erewrite analyze_step_present by eassumption
    | rewrite analyze_step_absent by assumption ]; cbn [py_bind]);
  unfold advice; cbn -[verdict_of recommend];
  rewrite ?app_nil_r, <- ?app_assoc; reflexivity.
Qed.

Lemma plant_info_ok_lookup plant_info n :
  plant_info_ok plant_info = true -> In n NUTRIENTS ->
  exists req, nutrients plant_info !! n = Some req
              /\ (req_min req <=? req_max req)%float = true.
Proof.
  unfold plant_info_ok. rewrite forallb_forall. intros H Hn.
  specialize (H n Hn). destruct (nutrients plant_info !! n) as [r|]; [|discriminate].
  eauto.
Qed.

Lemma plant_info_ok_covers plant_info predictions :
  plant_info_ok plant_info = true -> covers plant_info predictions = true.
Proof.
  intros H. unfold covers. apply forallb_forall. intros n Hn.
  destruct (plant_info_ok_lookup _ _ H Hn) as (r & -> & _).
  now destruct (predictions !! pct n).
Qed.

Lemma suit_lookup predictions plant_info n value req :
  In n NUTRIENTS ->
  predictions !! pct n = Some value ->
  nutrients plant_info !! n = Some req ->
  dict_get (entry predictions plant_info "Nitrogen"
            ++ entry predictions plant_info "Phosphorus"
            ++ entry predictions plant_info "Potassium") n
  = Some (verdict_of n value req).
Proof.
  intros [<-|[<-|[<-|[]]]] Hp Hr; unfold entry; rewrite ?Hp, ?Hr;
    repeat match goal with
    | |- context [match ?m !! ?k with _ => _ end] => destruct (m !! k)
    end; reflexivity.
Qed.

(** The keys of [suitability] are the nutrients the prediction has. *)
Lemma suit_keys predictions plant_info n :
  covers plant_info predictions = true ->
  dict_mem (entry predictions plant_info "Nitrogen"
            ++ entry predictions plant_info "Phosphorus"
            ++ entry predictions plant_info "Potassium") n = true
  <-> In n NUTRIENTS /\ predictions !! pct n <> None.
Proof.
  unfold covers, NUTRIENTS, entry, dict_mem. cbn [forallb].
  destruct (predictions !! pct "Nitrogen") as [vn|] eqn:Pn;
  destruct (predictions !! pct "Phosphorus") as [vp|] eqn:Pp;
  destruct (predictions !! pct "Potassium") as [vk|] eqn:Pk;
  destruct (nutrients plant_info !! "Nitrogen") as [rn|];
  destruct (nutrients plant_info !! "Phosphorus") as [rp|];
  destruct (nutrients plant_info !! "Potassium") as [rk|];
  try discriminate; intros _; cbn [app dict_get];
  repeat match goal with
  | |- context [String.eqb ?a ?b] => destruct (String.eqb_spec a b)
  end;
  try (exfalso; congruence); try subst n; cbn [dict_get];
  (split;
   [ intros H; first [discriminate | split; [simpl; tauto | congruence]]
   | intros [Hin H]; first [reflexivity | simpl in Hin;
     destruct Hin as [E|[E|[E|[]]]]; congruence] ]).
Qed.

Lemma verdict_of_spec n value req :
  (req_min req <=? req_max req)%float = true ->
  let v := verdict_of n value req in
  current v = value /\ optimal v = req_optimal req /\
  ((value <? req_min req)%float = true ->
     status v = Low /\ action v = "Increase " +:+ n) /\
  ((req_max req <? value)%float = true ->
     status v = High /\ action v = "Reduce " +:+ n) /\
  ((value <? req_min req)%float = false -> (req_max req <? value)%float = false ->
     status v = Optimal /\ action v = "Maintain levels") /\
  (value = req_min req \/ value = req_max req -> status v = Optimal).
Proof.
  intros Hle. unfold verdict_of, classify. cbn zeta.
  destruct (value <? req_min req)%float eqn:E1;
  destruct (req_max req <? value)%float eqn:E2; cbn [fst snd status action current optimal].
  - pose proof (FloatOrder.ltb_leb_trans _ _ _ E1 Hle) as C.
    apply FloatOrder.ltb_asym in C. congruence.
  - repeat split; try discriminate; auto.
    intros [->| ->].
    + now rewrite FloatOrder.ltb_irrefl in E1.
    + now rewrite (FloatOrder.leb_ltb_false _ _ Hle) in E1.
  - repeat split; try discriminate; auto.
    intros [->| ->].
    + now rewrite (FloatOrder.leb_ltb_false _ _ Hle) in E2.
    + now rewrite FloatOrder.ltb_irrefl in E2.
  - repeat split; try discriminate; auto.
Qed.

Lemma advice_length (suit : list (string * Verdict)) :
  length (flat_map advice suit) = length (List.filter not_optimal suit).
Proof.
  induction suit as [|[n v] suit IH]; [reflexivity|].
  cbn [flat_map List.filter]. rewrite length_app, IH.
  unfold advice, not_optimal. cbn [fst snd].
  destruct (status v); reflexivity.
Qed.

Lemma advice_all_optimal (suit : list (string * Verdict)) :
  Forall (fun item => status (snd item) = Optimal) suit ->
  flat_map advice suit = [].
Proof.
  induction 1 as [|[n v] suit Hv _ IH]; [reflexivity|].
  cbn [flat_map]. rewrite IH. unfold advice. cbn [fst snd] in *.
  now rewrite Hv.
Qed.

End UtilsFacts.

(** C1.  For a plant entry with [min <= max] for each nutrient, the
    analyzer returns, and for each nutrient the prediction has: the verdict
    is Low with the action to increase when the value is strictly below
    [min], High with the action to reduce when it is strictly above [max],
    and Optimal with the action to maintain otherwise, the two bounds
    included.  The recommendations are one string for each verdict that is
    not Optimal, in order, and none when every verdict is Optimal.  On the
    prediction 1.0 / 0.5 / 1.8 against Tomatoes: Nitrogen is Low,
    Phosphorus and Potassium are Optimal, and the single recommendation is
    the one for Nitrogen. *)
Theorem C1_suitability_classification :
  (forall (predictions : gmap string float) (plant_info : PlantDatabase.PlantInfo),
     Utils.plant_info_ok plant_info = true ->
     exists suitability recommendations,
       Utils.analyze_nutrient_suitability predictions plant_info
       = Ok (suitability, recommendations)
       /\ (forall nutrient value,
             In nutrient Utils.NUTRIENTS ->
             predictions !! Utils.pct nutrient = Some value ->
             exists req v,
               PlantDatabase.nutrients plant_info !! nutrient = Some req
               /\ dict_get suitability nutrient = Some v
               /\ Utils.current v = value
               /\ Utils.optimal v = PlantDatabase.req_optimal req
               /\ ((value <? PlantDatabase.req_min req)%float = true ->
                     Utils.status v = Utils.Low
                     /\ Utils.action v = "Increase " +:+ nutrient)
               /\ ((PlantDatabase.req_max req <? value)%float = true ->
                     Utils.status v = Utils.High
                     /\ Utils.action v = "Reduce " +:+ nutrient)
               /\ ((value <? PlantDatabase.req_min req)%float = false ->
                   (PlantDatabase.req_max req <? value)%float = false ->
                     Utils.status v = Utils.Optimal
                     /\ Utils.action v = "Maintain levels")
               /\ (value = PlantDatabase.req_min req \/ value = PlantDatabase.req_max req ->
                     Utils.status v = Utils.Optimal))
       /\ recommendations = flat_map UtilsFacts.advice suitability
       /\ length recommendations
          = length (List.filter UtilsFacts.not_optimal suitability)
       /\ (Forall (fun item => Utils.status (snd item) = Utils.Optimal) suitability ->
           recommendations = []))
  /\ Utils.analyze_nutrient_suitability (Utils.prediction 1.0 0.5 1.8) PlantDatabase.Tomatoes
     = Ok ([ ("Nitrogen", Utils.mkVerdict Utils.Low 1.0 2.5 "Increase Nitrogen");
             ("Phosphorus", Utils.mkVerdict Utils.Optimal 0.5 0.5 "Maintain levels");
             ("Potassium", Utils.mkVerdict Utils.Optimal 1.8 1.8 "Maintain levels") ],
           [ "- Nitrogen is low. Consider supplementing with Nitrogen-rich materials." ]).
Proof.
  split; [|vm_compute; reflexivity].
  intros predictions plant_info Hok.
  eexists _, _. split.
  { apply UtilsFacts.analyze_closed_form. now apply UtilsFacts.plant_info_ok_covers. }
  split; [|split; [reflexivity|split]].
  - intros nutrient value Hn Hp.
    destruct (UtilsFacts.plant_info_ok_lookup _ _ Hok Hn) as (req & Hr & Hle).
    exists req, (UtilsFacts.verdict_of nutrient value req).
    split; [exact Hr|]. split.
    { now apply UtilsFacts.suit_lookup. }
    exact (UtilsFacts.verdict_of_spec nutrient value req Hle).
  - apply UtilsFacts.advice_length.
  - apply UtilsFacts.advice_all_optimal.
Qed.

Lemma C1_suitability_classification_witness :
  exists suitability recommendations,
    Utils.analyze_nutrient_suitability (Utils.prediction 4.0 0.3 0.1) PlantDatabase.Grains
    = Ok (suitability, recommendations)
    /\ length recommendations
       = length (List.filter UtilsFacts.not_optimal suitability).
Proof.
  destruct (proj1 C1_suitability_classification
              (Utils.prediction 4.0 0.3 0.1) PlantDatabase.Grains)
    as (suit & recs & Hrun & _ & _ & Hlen & _).
  - vm_compute. reflexivity.
  - exists suit, recs. split; [exact Hrun | exact Hlen].
Defined.

(** C10.  A prediction may lack any of the three keys: the analyzer then
    returns without raising, [suitability] has an item exactly for the
    nutrients whose key the prediction has, and the recommendations are
    those of these items.  An empty prediction gives an empty result. *)
Theorem C10_absent_nutrients_skipped :
  (forall (predictions : gmap string float) (plant_info : PlantDatabase.PlantInfo),
     UtilsFacts.covers plant_info predictions = true ->
     exists suitability recommendations,
       Utils.analyze_nutrient_suitability predictions plant_info
       = Ok (suitability, recommendations)
       /\ (forall nutrient,
             dict_mem suitability nutrient = true
             <-> In nutrient Utils.NUTRIENTS
                 /\ predictions !! Utils.pct nutrient <> None)
       /\ recommendations = flat_map UtilsFacts.advice suitability)
  /\ Utils.analyze_nutrient_suitability ∅ PlantDatabase.Tomatoes = Ok ([], [])
  /\ Utils.analyze_nutrient_suitability {[ "Phosphorus_pct" := 0.9%float ]}
       PlantDatabase.Tomatoes
     = Ok ([ ("Phosphorus", Utils.mkVerdict Utils.High 0.9 0.5 "Reduce Phosphorus") ],
           [ "- Phosphorus is high. Consider mixing with lower Phosphorus materials." ]).
Proof.
  split; [|split; vm_compute; reflexivity].
  intros predictions plant_info Hc.
  eexists _, _. split; [now apply UtilsFacts.analyze_closed_form|].
  split; [|reflexivity].
  intros nutrient. now apply UtilsFacts.suit_keys.
Qed.

Lemma C10_absent_nutrients_skipped_witness :
  exists suitability recommendations,
    Utils.analyze_nutrient_suitability {[ "Potassium_pct" := 0.2%float ]}
      PlantDatabase.Leafy_Greens
    = Ok (suitability, recommendations)
    /\ (dict_mem suitability "Nitrogen" = true
        <-> In "Nitrogen" Utils.NUTRIENTS
            /\ ({[ "Potassium_pct" := 0.2%float ]} : gmap string float)
                 !! Utils.pct "Nitrogen" <> None).
Proof.
  destruct (proj1 C10_absent_nutrients_skipped
              {[ "Potassium_pct" := 0.2%float ]} PlantDatabase.Leafy_Greens)
    as (suit & recs & Hrun & Hkeys & _).
  - vm_compute. reflexivity.
  - exists suit, recs. split; [exact Hrun | exact (Hkeys "Nitrogen")].
Defined.

(** ** The carbon to nitrogen check *)
Module CNFacts.
Import App.

Lemma verdict_cases (ratio : float) :
  (c_n_verdict ratio = CN_high ratio <-> (30 <? ratio)%float = true)
  /\ (c_n_verdict ratio = CN_low ratio <-> (ratio <? 15)%float = true)
  /\ (c_n_verdict ratio = CN_optimal ratio
      <-> (30 <? ratio)%float = false /\ (ratio <? 15)%float = false).
Proof.
  unfold c_n_verdict.
  destruct (30 <? ratio)%float eqn:E1; destruct (ratio <? 15)%float eqn:E2.
  - pose proof (FloatOrder.ltb_trans _ _ _ E1 E2) as C. vm_compute in C. discriminate.
  - repeat split; intros; try discriminate; try tauto. destruct H; discriminate.
  - repeat split; intros; try discriminate; try tauto. destruct H; discriminate.
  - repeat split; intros; try discriminate; tauto.
Qed.

Lemma Prim2SF_zero : Prim2SF 0 = S754_zero false.
Proof. vm_compute. reflexivity. Qed.

Lemma Prim2SF_infinity : Prim2SF infinity = S754_infinity false.
Proof. vm_compute. reflexivity. Qed.

(** A positive dividend over zero is plus infinity. *)
Lemma div_positive_zero (x : float) :
  (0 <? x)%float = true -> (x / 0)%float = infinity.
Proof.
  rewrite ltb_spec, Prim2SF_zero. intros H.
  apply Prim2SF_inj. rewrite div_spec, Prim2SF_zero, Prim2SF_infinity.
  destruct (Prim2SF x) as [[]|[]| |[] m e]; try discriminate; reflexivity.
Qed.

Lemma div_positive_neg_zero (x : float) :
  (0 <? x)%float = true -> (x / neg_zero)%float = neg_infinity.
Proof.
  rewrite ltb_spec, Prim2SF_zero. intros H.
  apply Prim2SF_inj. rewrite div_spec.
  replace (Prim2SF neg_zero) with (S754_zero true) by (vm_compute; reflexivity).
  replace (Prim2SF neg_infinity) with (S754_infinity true) by (vm_compute; reflexivity).
  destruct (Prim2SF x) as [[]|[]| |[] m e]; try discriminate; reflexivity.
Qed.

End CNFacts.

(** C2.  The ratio is [Carbon_Content / Nitrogen_pct]; the notice is the
    one for a high ratio exactly when the ratio is above 30, the one for a
    low ratio exactly when it is below 15, and the one for an optimal ratio
    otherwise.  Carbon 40 with nitrogen 1.0 gives 40.0 and the high branch,
    with nitrogen 4.0 it gives 10.0 and the low branch. *)
Theorem C2_carbon_nitrogen_verdict :
  (forall (carbon_content nitrogen : float) (predictions : gmap string float),
     predictions !! "Nitrogen_pct" = Some nitrogen ->
     let ratio := (carbon_content / nitrogen)%float in
     App.c_n_ratio carbon_content predictions = Ok ratio
     /\ exists verdict,
          App.general_recommendations carbon_content predictions = Ok verdict
          /\ (verdict = App.CN_high ratio <-> (30 <? ratio)%float = true)
          /\ (verdict = App.CN_low ratio <-> (ratio <? 15)%float = true)
          /\ (verdict = App.CN_optimal ratio
              <-> (30 <? ratio)%float = false /\ (ratio <? 15)%float = false))
  /\ App.general_recommendations 40 (Utils.prediction 1.0 0.5 1.8) = Ok (App.CN_high 40.0)
  /\ App.general_recommendations 40 (Utils.prediction 4.0 0.5 1.8) = Ok (App.CN_low 10.0).
Proof.
  split; [|split; vm_compute; reflexivity].
  intros carbon_content nitrogen predictions Hn ratio.
  unfold App.general_recommendations, App.c_n_ratio. rewrite Hn. cbn [py_bind].
  split; [reflexivity|].
  exists (App.c_n_verdict ratio). split; [reflexivity|].
  apply CNFacts.verdict_cases.
Qed.

Lemma C2_carbon_nitrogen_verdict_witness :
  App.c_n_ratio 20 (Utils.prediction 1.0 0.5 1.8) = Ok (20 / 1.0)%float.
Proof.
  refine (proj1 (proj1 C2_carbon_nitrogen_verdict 20%float 1.0%float
                   (Utils.prediction 1.0 0.5 1.8) _)).
  vm_compute. reflexivity.
Defined.

(** C3, as stated, does not hold: with a predicted [Nitrogen_pct] of 0 the
    quotient is computed all the same; it is plus infinity, and the notice
    for a high ratio is shown for it. *)
Lemma C3_division_unguarded_counterexample :
  App.c_n_ratio 40 (Utils.prediction 0 0.5 1.8) = Ok infinity
  /\ App.general_recommendations 40 (Utils.prediction 0 0.5 1.8)
     = Ok (App.CN_high (40 / 0)%float)
  /\ F64.is_finite (40 / 0)%float = false.
Proof. repeat split; vm_compute; reflexivity. Qed.

(** C3, amended.  Nothing guards the division: whatever the predicted
    [Nitrogen_pct], the ratio is the IEEE quotient and no exception is
    raised.  For a positive carbon content, a nitrogen of 0.0 gives plus
    infinity and the notice for a high ratio, and a nitrogen of -0.0 gives
    minus infinity and the notice for a low ratio. *)
Theorem C3_division_unguarded :
  forall (carbon_content nitrogen : float) (predictions : gmap string float),
    predictions !! "Nitrogen_pct" = Some nitrogen ->
    App.c_n_ratio carbon_content predictions = Ok (carbon_content / nitrogen)%float
    /\ App.general_recommendations carbon_content predictions
       = Ok (App.c_n_verdict (carbon_content / nitrogen)%float)
    /\ ((0 <? carbon_content)%float = true -> nitrogen = 0%float ->
        App.general_recommendations carbon_content predictions
        = Ok (App.CN_high infinity))
    /\ ((0 <? carbon_content)%float = true -> nitrogen = neg_zero ->
        App.general_recommendations carbon_content predictions
        = Ok (App.CN_low neg_infinity)).
Proof.
  intros carbon_content nitrogen predictions Hn.
  unfold App.general_recommendations, App.c_n_ratio. rewrite Hn. cbn [py_bind].
  repeat split.
  - intros Hc ->. now rewrite (CNFacts.div_positive_zero _ Hc).
  - intros Hc ->. now rewrite (CNFacts.div_positive_neg_zero _ Hc).
Qed.

Lemma C3_division_unguarded_witness :
  App.general_recommendations 35 (Utils.prediction 0 0.4 1.1) = Ok (App.CN_high infinity).
Proof.
  refine (proj1 (proj2 (proj2 (C3_division_unguarded 35%float 0%float
                                 (Utils.prediction 0 0.4 1.1) _))) _ _).
  - vm_compute. reflexivity.
  - vm_compute. reflexivity.
  - reflexivity.
Defined.

(** ** Normalisation *)
Module AppFacts.
Import Pandas App.

(** Loops that visit column names and change at most the visited column. *)
Section ColumnLoop.
Context {K : Type}.
Variable key : K -> string.
Variable step : DataFrame -> K -> DataFrame.
Variable update : K -> nat -> option Series -> option Series.
Hypothesis step_get : forall data k col,
  dict_get (columns (step data k)) col
  = if String.eqb (key k) col
    then update k (nrows data) (dict_get (columns data) col)
    else dict_get (columns data) col.
Hypothesis step_nrows : forall data k, nrows (step data k) = nrows data.

Lemma loop_nrows (l : list K) (data : DataFrame) :
  nrows (fold_left step l data) = nrows data.
Proof.
  revert data. induction l as [|k l IH]; intros data; [reflexivity|].
  cbn [fold_left]. now rewrite IH, step_nrows.
Qed.

Lemma loop_get_other (l : list K) (data : DataFrame) (col : string) :
  ~ In col (map key l) ->
  dict_get (columns (fold_left step l data)) col = dict_get (columns data) col.
Proof.
  revert data. induction l as [|k l IH]; intros data Hn; [reflexivity|].
  cbn [fold_left]. rewrite IH by (intros H; apply Hn; now right).
  rewrite step_get. destruct (String.eqb_spec (key k) col) as [E|E]; [|reflexivity].
  exfalso. apply Hn. now left.
Qed.

Lemma loop_get (l : list K) (data : DataFrame) (k : K) :
  List.NoDup (map key l) -> In k l ->
  (forall k', In k' l -> key k' = key k -> k' = k) ->
  dict_get (columns (fold_left step l data)) (key k)
  = update k (nrows data) (dict_get (columns data) (key k)).
Proof.
  revert data. induction l as [|k0 l IH]; intros data Hnd Hin Huniq; [destruct Hin|].
  cbn [fold_left]. cbn [map] in Hnd. apply List.NoDup_cons_iff in Hnd as [Hk0 Hnd].
  destruct (String.eqb_spec (key k0) (key k)) as [E|E].
  - assert (k0 = k) as -> by (apply Huniq; [now left | exact E]).
    rewrite loop_get_other by exact Hk0.
    rewrite step_get, String.eqb_refl. reflexivity.
  - destruct Hin as [->|Hin]; [contradiction|].
    rewrite IH; [|assumption|assumption|intros; apply Huniq; [now right|assumption]].
    rewrite step_nrows, step_get.
    destruct (String.eqb_spec (key k0) (key k)); [contradiction|reflexivity].
Qed.

End ColumnLoop.

Lemma fold_left_fixed {A S : Type} (step : S -> A -> S) (l : list A) (s : S) :
  (forall a, In a l -> step s a = s) -> fold_left step l s = s.
Proof.
  induction l as [|a l IH]; intros H; [reflexivity|].
  cbn [fold_left]. rewrite (H a) by now left.
  apply IH. intros; apply H; now right.
Qed.

Lemma set_column_same (data : DataFrame) (col : string) (s : Series) :
  dict_get (columns data) col = Some s -> set_column data col s = data.
Proof.
  intros H. unfold set_column. rewrite (dict_set_get_same _ _ _ H).
  now destruct data.
Qed.

(** *** Categorical conversion *)

(** What one iteration makes of the visited column. *)
Definition converted (mapping : Mapping) (s : option Series) : option Series :=
  match s with
  | Some (SObject vs) =>
      if existsb (isin_keys mapping) vs then Some (series_map mapping vs) else s
  | _ => s
  end.

(** The number a label dictionary gives for an entry: NaN for an entry that
    is no key. *)
Definition mapped_value (mapping : Mapping) (v : Obj) : float :=
  match mapping with
  | MFloat d => default F64.nan (lookup_label d v)
  | MInt d => match lookup_label d v with
              | Some z => F64.of_Z z
              | None => F64.nan
              end
  end.

Lemma convert_step_get data entry col :
  dict_get (columns (convert_step data entry)) col
  = if String.eqb (fst entry) col
    then converted (snd entry) (dict_get (columns data) col)
    else dict_get (columns data) col.
Proof.
  destruct entry as [c m]. unfold convert_step, converted. cbn [fst snd].
  destruct (String.eqb_spec c col) as [->|N].
  - destruct (dict_get (columns data) col) as [[vs|vs|vs]|] eqn:E; rewrite ?E; try reflexivity.
    destruct (existsb (isin_keys m) vs); [|exact E].
    cbn [set_column columns]. apply dict_get_set_eq.
  - destruct (dict_get (columns data) c) as [[vs|vs|vs]|]; try reflexivity.
    destruct (existsb (isin_keys m) vs); [|reflexivity].
    cbn [set_column columns]. now apply dict_get_set_ne.
Qed.

Lemma convert_step_nrows data entry :
  nrows (convert_step data entry) = nrows data.
Proof.
  destruct entry as [c m]. unfold convert_step.
  destruct (dict_get (columns data) c) as [[vs|vs|vs]|]; try reflexivity.
  now destruct (existsb (isin_keys m) vs).
Qed.

Lemma mappings_lookup col mapping :
  In (col, mapping) CATEGORICAL_MAPPINGS ->
  forall entry, In entry CATEGORICAL_MAPPINGS -> fst entry = col -> entry = (col, mapping).
Proof.
  unfold CATEGORICAL_MAPPINGS. cbn [In].
  intros H entry He Hf.
  repeat match goal with
  | H : _ \/ _ |- _ => destruct H as [H|H]
  | H : False |- _ => destruct H
  end; inversion H; subst; cbn [fst] in *; first [reflexivity | congruence].
Qed.

Lemma mappings_nodup : List.NoDup (map fst CATEGORICAL_MAPPINGS).
Proof.
  unfold CATEGORICAL_MAPPINGS. cbn [map fst].
  repeat (apply List.NoDup_cons; [cbn [In]; intros H;
    repeat (destruct H as [H|H]; [discriminate|]); destruct H|]).
  apply List.NoDup_nil.
Qed.

Lemma convert_get col mapping data :
  In (col, mapping) CATEGORICAL_MAPPINGS ->
  dict_get (columns (convert_categorical_to_numeric data)) col
  = converted mapping (dict_get (columns data) col).
Proof.
  intros Hin. unfold convert_categorical_to_numeric.
  apply (loop_get fst convert_step (fun e _ s => converted (snd e) s)
           convert_step_get convert_step_nrows CATEGORICAL_MAPPINGS data (col, mapping)
           mappings_nodup Hin).
  intros k' Hk' Hf. now apply (mappings_lookup col mapping).
Qed.

Lemma convert_get_other col data :
  ~ In col (map fst CATEGORICAL_MAPPINGS) ->
  dict_get (columns (convert_categorical_to_numeric data)) col
  = dict_get (columns data) col.
Proof.
  apply (loop_get_other fst convert_step (fun e _ s => converted (snd e) s)
           convert_step_get).
Qed.

Lemma series_map_floats mapping vs :
  as_floats (series_map mapping vs) = Ok (map (mapped_value mapping) vs).
Proof.
  destruct mapping as [d|d]; cbn [series_map mapped_value]; [reflexivity|].
  destruct (forallb _ (map (lookup_label d) vs)) eqn:E; cbn [as_floats].
  - f_equal. rewrite !map_map. apply map_ext_in. intros v Hv.
    rewrite forallb_forall in E. specialize (E (lookup_label d v)).
    cbn [mapped_value]. destruct (lookup_label d v) eqn:L; [reflexivity|].
    discriminate E. apply in_map_iff. eauto.
  - now rewrite map_map.
Qed.

End AppFacts.

(** C4, as stated, does not hold: in a column of labels where one entry
    is a key of the mapping, the entries that are no key are not passed
    through.  Beside ["High"], the numeric text ["7.2"] and the unknown label
    ["Neutral"] both come out as NaN. *)
Lemma C4_categorical_conversion_counterexample :
  App.convert_categorical_to_numeric
    (Pandas.mkDataFrame 3
       [("pH_Level", Pandas.SObject
                       [Pandas.OStr "High"; Pandas.OStr "7.2"; Pandas.OStr "Neutral"])])
  = Pandas.mkDataFrame 3 [("pH_Level", Pandas.SFloat64 [8.5%float; F64.nan; F64.nan])].
Proof. vm_compute. reflexivity. Qed.

(** C4, amended.  For each column of the mapping table: when the column
    holds labels ([object] entries) and at least one entry is a key of its
    mapping, every entry that is a key is replaced by the number the mapping
    gives (pH_Level ["High"] becomes 8.5) and every other entry becomes NaN;
    when no entry is a key, or the column is already numeric, the column is
    left as it is.  Columns outside the mapping table and the number of rows
    do not change. *)
Theorem C4_categorical_conversion :
  (forall (data : Pandas.DataFrame) (col : string) (mapping : Pandas.Mapping),
     In (col, mapping) App.CATEGORICAL_MAPPINGS ->
     let out := App.convert_categorical_to_numeric data in
     Pandas.nrows out = Pandas.nrows data
     /\ (forall vs,
           dict_get (Pandas.columns data) col = Some (Pandas.SObject vs) ->
           existsb (Pandas.isin_keys mapping) vs = true ->
           dict_get (Pandas.columns out) col = Some (Pandas.series_map mapping vs)
           /\ Pandas.as_floats (Pandas.series_map mapping vs)
              = Ok (map (AppFacts.mapped_value mapping) vs))
     /\ (forall vs,
           dict_get (Pandas.columns data) col = Some (Pandas.SObject vs) ->
           existsb (Pandas.isin_keys mapping) vs = false ->
           dict_get (Pandas.columns out) col = Some (Pandas.SObject vs))
     /\ (forall s,
           dict_get (Pandas.columns data) col = Some s ->
           Pandas.is_object s = false ->
           dict_get (Pandas.columns out) col = Some s)
     /\ (forall other,
           ~ In other (map fst App.CATEGORICAL_MAPPINGS) ->
           dict_get (Pandas.columns out) other = dict_get (Pandas.columns data) other))
  /\ App.convert_categorical_to_numeric
       (Pandas.mkDataFrame 3
          [("pH_Level", Pandas.SObject
                          [Pandas.OStr "High"; Pandas.OStr "Low"; Pandas.OStr "Medium"])])
     = Pandas.mkDataFrame 3 [("pH_Level", Pandas.SFloat64 [8.5; 4.5; 6.5]%float)].
Proof.
  split; [|vm_compute; reflexivity].
  intros data col mapping Hin out. subst out.
  split; [apply (AppFacts.loop_nrows App.convert_step AppFacts.convert_step_nrows)|].
  repeat split.
  - rewrite (AppFacts.convert_get _ _ _ Hin), H. cbn [AppFacts.converted].
    now rewrite H0.
  - apply AppFacts.series_map_floats.
  - intros vs H H0. rewrite (AppFacts.convert_get _ _ _ Hin), H.
    cbn [AppFacts.converted]. now rewrite H0.
  - intros s H H0. rewrite (AppFacts.convert_get _ _ _ Hin), H.
    destruct s; [discriminate|reflexivity|reflexivity].
  - intros other H. now apply AppFacts.convert_get_other.
Qed.

Lemma C4_categorical_conversion_witness :
  dict_get
    (Pandas.columns
       (App.convert_categorical_to_numeric
          (Pandas.mkDataFrame 2
             [("Age_Days", Pandas.SObject [Pandas.OStr "Old"; Pandas.OStr "12"])])))
    "Age_Days"
  = Some (Pandas.series_map (Pandas.MInt [("Young", 15); ("Medium", 30); ("Old", 60)])
            [Pandas.OStr "Old"; Pandas.OStr "12"]).
Proof.
  refine (proj1 (proj1 (proj2 (proj1 C4_categorical_conversion
    (Pandas.mkDataFrame 2
       [("Age_Days", Pandas.SObject [Pandas.OStr "Old"; Pandas.OStr "12"])])
    "Age_Days" (Pandas.MInt [("Young", 15); ("Medium", 30); ("Old", 60)]) _))
    [Pandas.OStr "Old"; Pandas.OStr "12"] _ _)).
  - cbn. tauto.
  - reflexivity.
  - reflexivity.
Defined.

(** *** Missing data *)
Module NormalizeFacts.
Import Pandas App.

Lemma dict_get_In {V : Type} (d : list (string * V)) (k : string) (v : V) :
  dict_get d k = Some v -> In (k, v) d.
Proof.
  induction d as [|[k' v'] d IH]; cbn [dict_get]; [discriminate|].
  destruct (String.eqb_spec k' k) as [->|N].
  - intros [= ->]. now left.
  - intros H. right. now apply IH.
Qed.

Lemma dict_get_None {V : Type} (d : list (string * V)) (k : string) :
  dict_get d k = None -> ~ In k (map fst d).
Proof.
  induction d as [|[k' v'] d IH]; cbn [dict_get map fst In]; [tauto|].
  destruct (String.eqb_spec k' k) as [->|N]; [discriminate|].
  intros H [E|E]; [contradiction|]. now apply IH.
Qed.

Lemma dict_get_unique {V : Type} (d : list (string * V)) (k : string) (v : V) :
  dict_get d k = Some v ->
  List.NoDup (map fst d) ->
  forall e, In e d -> fst e = k -> e = (k, v).
Proof.
  induction d as [|[k' v'] d IH]; cbn [dict_get map fst]; [discriminate|].
  intros Hg Hnd e He Hf. apply List.NoDup_cons_iff in Hnd as [Hk Hnd].
  destruct (String.eqb_spec k' k) as [->|N].
  - injection Hg as ->. destruct He as [<-|He]; [reflexivity|].
    exfalso. apply Hk. rewrite <- Hf. now apply in_map.
  - destruct He as [<-|He]; [cbn in Hf; contradiction|]. now apply IH.
Qed.

Lemma defaults_nodup : List.NoDup (map fst DEFAULT_VALUES).
Proof.
  unfold DEFAULT_VALUES. cbn [map fst].
  repeat (apply List.NoDup_cons; [cbn [In]; intros H;
    repeat (destruct H as [H|H]; [discriminate|]); destruct H|]).
  apply List.NoDup_nil.
Qed.

Lemma numeric_columns_nodup : List.NoDup numeric_columns.
Proof.
  unfold numeric_columns.
  repeat (apply List.NoDup_cons; [cbn [In]; intros H;
    repeat (destruct H as [H|H]; [discriminate|]); destruct H|]).
  apply List.NoDup_nil.
Qed.

Lemma defaults_get col d :
  In (col, d) DEFAULT_VALUES -> dict_get DEFAULT_VALUES col = Some d.
Proof.
  unfold DEFAULT_VALUES. cbn [In].
  intros H. repeat (destruct H as [H|H]; [injection H as <- <-; reflexivity|]).
  destruct H.
Qed.

(** What the first loop makes of a column of the default table. *)
Definition filled (d : Obj) (n : nat) (s : option Series) : option Series :=
  match s with
  | Some s => Some s
  | None => Some (broadcast n d)
  end.

Lemma add_missing_get data entry col :
  dict_get (columns (add_missing_column data entry)) col
  = if String.eqb (fst entry) col
    then filled (snd entry) (nrows data) (dict_get (columns data) col)
    else dict_get (columns data) col.
Proof.
  destruct entry as [c d]. unfold add_missing_column, has_column, dict_mem, filled.
  cbn [fst snd]. destruct (String.eqb_spec c col) as [->|N].
  - destruct (dict_get (columns data) col) eqn:E; [exact E|].
    cbn [set_column columns]. apply dict_get_set_eq.
  - destruct (dict_get (columns data) c); [reflexivity|].
    cbn [set_column columns]. now apply dict_get_set_ne.
Qed.

Lemma add_missing_nrows data entry :
  nrows (add_missing_column data entry) = nrows data.
Proof.
  destruct entry as [c d]. unfold add_missing_column.
  now destruct (has_column data c).
Qed.

Lemma first_loop_get data col :
  dict_get (columns (fold_left add_missing_column DEFAULT_VALUES data)) col
  = match dict_get DEFAULT_VALUES col with
    | Some d => filled d (nrows data) (dict_get (columns data) col)
    | None => dict_get (columns data) col
    end.
Proof.
  destruct (dict_get DEFAULT_VALUES col) as [d|] eqn:E.
  - apply (AppFacts.loop_get fst add_missing_column (fun e n s => filled (snd e) n s)
             add_missing_get add_missing_nrows DEFAULT_VALUES data (col, d)
             defaults_nodup (dict_get_In _ _ _ E)).
    intros e He Hf. exact (dict_get_unique _ _ _ E defaults_nodup e He Hf).
  - apply (AppFacts.loop_get_other fst add_missing_column
             (fun e n s => filled (snd e) n s) add_missing_get).
    now apply dict_get_None.
Qed.

Section WithNumeric.
Context {num : Numeric}.

(** What [to_numeric] returns. *)
Definition numeric_of (s : Series) : Series :=
  match s with
  | SObject vs =>
      if forallb is_int (map coerce vs) then SInt64 (map int_of (map coerce vs))
      else SFloat64 (map number_to_float (map coerce vs))
  | _ => s
  end.

(** What the second loop makes of a present numeric column: the numbers of
    the column, with the missing ones replaced by the mean. *)
Definition coerced (s : Series) : Series :=
  let s' := numeric_of s in
  if any_isna s' then fillna s' (mean s') else s'.

Lemma to_numeric_ok (s : Series) : to_numeric s = Ok (numeric_of s).
Proof.
  destruct s as [vs|vs|vs]; cbn [to_numeric numeric_of]; try reflexivity.
  now destruct (forallb is_int (map coerce vs)).
Qed.

Lemma coerced_numeric (s : Series) :
  is_object s = false -> any_isna s = false -> coerced s = s.
Proof.
  intros Ho Hn. unfold coerced.
  destruct s as [vs|vs|vs]; [discriminate| |]; cbn [numeric_of]; now rewrite Hn.
Qed.

Lemma coerce_step_get data c col :
  dict_get (columns (coerce_step data c)) col
  = if String.eqb c col
    then option_map coerced (dict_get (columns data) col)
    else dict_get (columns data) col.
Proof.
  unfold coerce_step, has_column, dict_mem, coerce_column, get_column.
  destruct (dict_get (columns data) c) as [s|] eqn:E.
  - cbn [py_bind]. rewrite to_numeric_ok. cbn [py_bind].
    destruct (String.eqb_spec c col) as [->|N].
    + rewrite E. cbn [option_map]. unfold coerced.
      destruct (any_isna (numeric_of s)); cbn [set_column columns];
        now rewrite ?dict_get_set_eq.
    + destruct (any_isna (numeric_of s)); cbn [set_column columns];
        now rewrite ?dict_get_set_ne by assumption.
  - destruct (String.eqb_spec c col) as [->|N]; [now rewrite E|reflexivity].
Qed.

Lemma coerce_step_nrows data c : nrows (coerce_step data c) = nrows data.
Proof.
  unfold coerce_step, coerce_column, get_column, has_column, dict_mem.
  destruct (dict_get (columns data) c) as [s|]; [|reflexivity].
  cbn [py_bind]. rewrite to_numeric_ok. cbn [py_bind].
  now destruct (any_isna (numeric_of s)).
Qed.

Lemma second_loop_get data col :
  dict_get (columns (fold_left coerce_step numeric_columns data)) col
  = if existsb (String.eqb col) numeric_columns
    then option_map coerced (dict_get (columns data) col)
    else dict_get (columns data) col.
Proof.
  destruct (existsb (String.eqb col) numeric_columns) eqn:E.
  - apply existsb_exists in E as (c & Hc & Heq). apply String.eqb_eq in Heq. subst c.
    apply (AppFacts.loop_get (fun c : string => c) coerce_step
             (fun _ _ s => option_map coerced s)
             coerce_step_get coerce_step_nrows numeric_columns data col).
    + rewrite map_id. exact numeric_columns_nodup.
    + exact Hc.
    + now intros.
  - apply (AppFacts.loop_get_other (fun c : string => c) coerce_step
             (fun _ _ s => option_map coerced s) coerce_step_get).
    rewrite map_id. intros Hin.
    assert (existsb (String.eqb col) numeric_columns = true) as C; [|congruence].
    apply existsb_exists. exists col. split; [exact Hin | apply String.eqb_refl].
Qed.

Lemma handle_missing_nrows data : nrows (handle_missing_data data) = nrows data.
Proof.
  unfold handle_missing_data.
  rewrite (AppFacts.loop_nrows coerce_step coerce_step_nrows).
  apply (AppFacts.loop_nrows add_missing_column add_missing_nrows).
Qed.

(** Every column after [handle_missing_data], from the column before. *)
Lemma handle_missing_get data col :
  dict_get (columns (handle_missing_data data)) col
  = let s1 := match dict_get DEFAULT_VALUES col with
              | Some d => filled d (nrows data) (dict_get (columns data) col)
              | None => dict_get (columns data) col
              end in
    if existsb (String.eqb col) numeric_columns then option_map coerced s1 else s1.
Proof.
  unfold handle_missing_data. cbn zeta. rewrite second_loop_get, first_loop_get.
  reflexivity.
Qed.

(** A default of the table, laid out in every row, is a column that the
    second loop leaves as it is. *)
Lemma coerced_default col d n :
  In (col, d) DEFAULT_VALUES ->
  existsb (String.eqb col) numeric_columns = true ->
  coerced (broadcast n d) = broadcast n d.
Proof.
  unfold DEFAULT_VALUES. cbn [In]. intros H Hn.
  repeat (destruct H as [H|H];
    [injection H as <- <-; first [discriminate Hn | apply coerced_numeric; [reflexivity|]]|]);
  try destruct H; cbn [broadcast any_isna]; try reflexivity;
  induction n; cbn; auto.
Qed.

End WithNumeric.

(** All seven columns are there, and the six numeric ones hold numbers
    only: int64 or float64 entries, none of them missing. *)
Definition fully_populated (data : DataFrame) : bool :=
  has_column data "Waste_Type"
  && forallb (fun col => match dict_get (columns data) col with
                         | Some s => negb (is_object s) && negb (any_isna s)
                         | None => false
                         end) numeric_columns.

End NormalizeFacts.

Module IdentityFacts.
Import Pandas App NormalizeFacts.

Lemma fully_populated_numeric data col :
  fully_populated data = true -> In col numeric_columns ->
  exists s, dict_get (columns data) col = Some s
            /\ is_object s = false /\ any_isna s = false.
Proof.
  unfold fully_populated. intros [_ H]%andb_prop Hin.
  rewrite forallb_forall in H. specialize (H col Hin).
  destruct (dict_get (columns data) col) as [s|]; [|discriminate].
  apply andb_prop in H as [H1 H2]. exists s.
  split; [reflexivity|]. split; now apply negb_true_iff.
Qed.

Lemma fully_populated_has data col d :
  fully_populated data = true -> In (col, d) DEFAULT_VALUES ->
  has_column data col = true.
Proof.
  intros Hf Hin. unfold DEFAULT_VALUES in Hin. cbn [In] in Hin.
  destruct Hin as [Hin|Hin].
  { injection Hin as <- <-. now apply andb_prop in Hf as [Hf _]. }
  assert (In col numeric_columns) as Hc.
  { unfold numeric_columns. cbn [In].
    repeat (destruct Hin as [Hin|Hin]; [injection Hin as <- <-; tauto|]).
    destruct Hin. }
  destruct (fully_populated_numeric _ _ Hf Hc) as (s & Hs & _).
  unfold has_column, dict_mem. now rewrite Hs.
Qed.

Lemma convert_fixed data :
  fully_populated data = true -> convert_categorical_to_numeric data = data.
Proof.
  intros Hf. apply AppFacts.fold_left_fixed. intros [c m] Hin.
  assert (In c numeric_columns) as Hc.
  { unfold CATEGORICAL_MAPPINGS in Hin. unfold numeric_columns. cbn [In] in *.
    repeat (destruct Hin as [Hin|Hin]; [injection Hin as <- <-; tauto|]).
    destruct Hin. }
  destruct (fully_populated_numeric _ _ Hf Hc) as (s & Hs & Ho & _).
  unfold convert_step. rewrite Hs. destruct s; [discriminate|reflexivity..].
Qed.

Lemma handle_missing_fixed {num : Numeric} data :
  fully_populated data = true -> handle_missing_data data = data.
Proof.
  intros Hf. unfold handle_missing_data. cbn zeta.
  rewrite (AppFacts.fold_left_fixed add_missing_column DEFAULT_VALUES data).
  - apply AppFacts.fold_left_fixed. intros c Hc.
    destruct (fully_populated_numeric _ _ Hf Hc) as (s & Hs & Ho & Hn).
    unfold coerce_step, has_column, dict_mem, coerce_column, get_column.
    rewrite Hs. cbn [py_bind]. rewrite to_numeric_ok. cbn [py_bind].
    assert (numeric_of s = s) as -> by (destruct s; [discriminate|reflexivity..]).
    rewrite Hn. now apply AppFacts.set_column_same.
  - intros [c d] Hin. unfold add_missing_column.
    now rewrite (fully_populated_has _ _ _ Hf Hin).
Qed.

End IdentityFacts.

(** C7, as stated, does not hold: in a table without [Moisture_Content],
    the present column [pH_Level] with a missing entry does not keep its
    values; the missing entry is replaced by the mean of the others. *)
Lemma C7_missing_columns_defaulted_counterexample :
  let data := Pandas.mkDataFrame 3
                [("pH_Level", Pandas.SFloat64 [6.0%float; F64.nan; 8.0%float])] in
  Pandas.has_column data "Moisture_Content" = false
  /\ dict_get (Pandas.columns (@App.handle_missing_data Pandas.reference_numeric data))
       "pH_Level"
     = Some (Pandas.SFloat64 [6.0; 7.0; 8.0]%float)
  /\ dict_get (Pandas.columns (@App.handle_missing_data Pandas.reference_numeric data))
       "Moisture_Content"
     = Some (Pandas.SFloat64 [50.0; 50.0; 50.0]%float).
Proof. vm_compute. repeat split. Qed.

(** C7, amended.  [handle_missing_data] keeps the number of rows and adds
    each of the seven columns that is absent, with its default in every row
    ([Moisture_Content]: 50.0).  A column that was present and is not one of
    the six numeric columns is unchanged.  A present numeric column becomes
    its numeric reading with the missing entries replaced by the mean; it is
    unchanged when it already held numbers only, none of them missing. *)
Theorem C7_missing_columns_defaulted :
  forall (num : Pandas.Numeric) (data : Pandas.DataFrame),
    let out := App.handle_missing_data data in
    Pandas.nrows out = Pandas.nrows data
    /\ (Pandas.has_column data "Moisture_Content" = false ->
        dict_get (Pandas.columns out) "Moisture_Content"
        = Some (Pandas.SFloat64 (repeat 50.0%float (Pandas.nrows data))))
    /\ (forall col d,
          In (col, d) App.DEFAULT_VALUES ->
          Pandas.has_column data col = false ->
          dict_get (Pandas.columns out) col
          = Some (Pandas.broadcast (Pandas.nrows data) d))
    /\ (forall col s,
          ~ In col App.numeric_columns ->
          dict_get (Pandas.columns data) col = Some s ->
          dict_get (Pandas.columns out) col = Some s)
    /\ (forall col s,
          In col App.numeric_columns ->
          dict_get (Pandas.columns data) col = Some s ->
          dict_get (Pandas.columns out) col = Some (NormalizeFacts.coerced s)
          /\ (Pandas.is_object s = false -> Pandas.any_isna s = false ->
              dict_get (Pandas.columns out) col = Some s)).
Proof.
  intros num data out. subst out.
  assert (Hdef : forall col d,
            In (col, d) App.DEFAULT_VALUES ->
            Pandas.has_column data col = false ->
            dict_get (Pandas.columns (App.handle_missing_data data)) col
            = Some (Pandas.broadcast (Pandas.nrows data) d)).
  { intros col d Hin Hno. rewrite NormalizeFacts.handle_missing_get. cbn zeta.
    rewrite (NormalizeFacts.defaults_get _ _ Hin).
    unfold Pandas.has_column, dict_mem in Hno.
    destruct (dict_get (Pandas.columns data) col); [discriminate|].
    cbn [NormalizeFacts.filled].
    destruct (existsb (String.eqb col) App.numeric_columns) eqn:E; [|reflexivity].
    cbn [option_map]. now rewrite (NormalizeFacts.coerced_default _ _ _ Hin E). }
  assert (Hnum : forall col s,
            In col App.numeric_columns ->
            dict_get (Pandas.columns data) col = Some s ->
            dict_get (Pandas.columns (App.handle_missing_data data)) col
            = Some (NormalizeFacts.coerced s)).
  { intros col s Hin Hs. rewrite NormalizeFacts.handle_missing_get. cbn zeta.
    rewrite Hs.
    assert (existsb (String.eqb col) App.numeric_columns = true) as ->.
    { apply existsb_exists. exists col. split; [exact Hin|apply String.eqb_refl]. }
    now destruct (dict_get App.DEFAULT_VALUES col). }
  split; [apply NormalizeFacts.handle_missing_nrows|].
  split; [intros Hno; apply (Hdef "Moisture_Content" (Pandas.OFloat 50.0)); [cbn; tauto|exact Hno]|].
  split; [exact Hdef|]. split.
  - intros col s Hn Hs. rewrite NormalizeFacts.handle_missing_get. cbn zeta.
    rewrite Hs.
    assert (existsb (String.eqb col) App.numeric_columns = false) as ->.
    { destruct (existsb _ _) eqn:E; [|reflexivity].
      apply existsb_exists in E as (c & Hc & Heq). apply String.eqb_eq in Heq.
      subst c. contradiction. }
    now destruct (dict_get App.DEFAULT_VALUES col).
  - intros col s Hin Hs. split; [now apply Hnum|].
    intros Ho Hn. rewrite (Hnum _ _ Hin Hs).
    now rewrite NormalizeFacts.coerced_numeric.
Qed.

Lemma C7_missing_columns_defaulted_witness :
  let data := Pandas.mkDataFrame 2
                [("Waste_Type", Pandas.SObject [Pandas.OStr "Food"; Pandas.OStr "Garden"]);
                 ("Age_Days", Pandas.SInt64 [12; 40])] in
  dict_get (Pandas.columns (@App.handle_missing_data Pandas.reference_numeric data))
    "Moisture_Content"
  = Some (Pandas.SFloat64 (repeat 50.0%float 2)).
Proof.
  intros data.
  refine (proj1 (proj2 (C7_missing_columns_defaulted Pandas.reference_numeric data)) _).
  reflexivity.
Defined.

(** C8.  On a table that has all seven columns, with numbers only and none
    missing in the six numeric ones, the categorical conversion followed by
    the handling of missing data returns the table itself. *)
Theorem C8_normalize_identity :
  forall (num : Pandas.Numeric) (data : Pandas.DataFrame),
    NormalizeFacts.fully_populated data = true ->
    App.normalize data = data.
Proof.
  intros num data Hf. unfold App.normalize.
  rewrite (IdentityFacts.convert_fixed _ Hf).
  now apply IdentityFacts.handle_missing_fixed.
Qed.

Lemma C8_normalize_identity_witness :
  let data := Pandas.mkDataFrame 2
                [("Waste_Type", Pandas.SObject [Pandas.OStr "Food"; Pandas.OStr "Paper"]);
                 ("Moisture_Content", Pandas.SFloat64 [61.5; 48.0]%float);
                 ("pH_Level", Pandas.SFloat64 [6.8; 7.4]%float);
                 ("Carbon_Content", Pandas.SInt64 [38; 42]);
                 ("Particle_Size_mm", Pandas.SFloat64 [4.0; 12.5]%float);
                 ("Age_Days", Pandas.SInt64 [21; 45]);
                 ("Degradation_Rate", Pandas.SFloat64 [1.2; 0.7]%float);
                 ("Nitrogen_pct", Pandas.SFloat64 [2.1; F64.nan]%float)] in
  @App.normalize Pandas.reference_numeric data = data.
Proof.
  intros data.
  apply (C8_normalize_identity Pandas.reference_numeric data).
  vm_compute. reflexivity.
Defined.

(** ** Synthetic targets *)
Module SyntheticFacts.
Import Pandas Utils App.

(** A number within [lower, upper]. *)
Definition within (lower upper v : float) : bool :=
  (lower <=? v)%float && (v <=? upper)%float.

Lemma clip_nan (lower upper x : float) :
  F64.is_nan x = true -> clip lower upper x = x.
Proof. intros H. unfold clip. now rewrite H. Qed.

Lemma clip_within (lower upper x : float) :
  (lower <=? upper)%float = true -> F64.is_nan x = false ->
  within lower upper (clip lower upper x) = true.
Proof.
  intros Hle Hx. destruct (FloatOrder.leb_not_nan _ _ Hle) as [Hl Hu].
  unfold clip, within. rewrite Hx. cbn [orb].
  destruct (lower <=? x)%float eqn:E1; destruct (x <=? upper)%float eqn:E2.
  - now rewrite E1, E2.
  - now rewrite Hle, (FloatOrder.leb_refl _ Hu).
  - now rewrite (FloatOrder.leb_refl _ Hl), Hle.
  - pose proof (FloatOrder.leb_false_ltb _ _ Hl Hx E1) as C1.
    pose proof (FloatOrder.leb_false_ltb _ _ Hx Hu E2) as C2.
    pose proof (FloatOrder.ltb_leb_trans _ _ _ C1 Hle) as C3.
    pose proof (FloatOrder.ltb_asym _ _ C3). congruence.
Qed.

(** A clipped entry is NaN exactly when the entry is. *)
Lemma clip_is_nan (lower upper x : float) :
  (lower <=? upper)%float = true ->
  F64.is_nan (clip lower upper x) = F64.is_nan x.
Proof.
  intros Hle. destruct (F64.is_nan x) eqn:Hx.
  - now rewrite clip_nan.
  - pose proof (clip_within _ _ _ Hle Hx) as H.
    apply andb_prop in H as [H _]. now apply FloatOrder.leb_not_nan in H as [_ H].
Qed.

Lemma get_column_set_ne data col col' s :
  col <> col' -> get_column (set_column data col s) col' = get_column data col'.
Proof.
  intros N. unfold get_column, set_column. cbn [columns].
  now rewrite dict_get_set_ne.
Qed.

(** The generator with its three frames folded into one expression. *)
Lemma generate_closed_form draws data :
  generate_synthetic_targets draws data
  = (waste <-? get_column data "Waste_Type" ;;
     moisture <-? (m <-? get_column data "Moisture_Content" ;; as_floats m) ;;
     ph <-? (c <-? get_column data "pH_Level" ;; as_floats c) ;;
     carbon <-? (c <-? get_column data "Carbon_Content" ;; as_floats c) ;;
     Ok (set_column
           (set_column
              (set_column data "Nitrogen_pct"
                 (SFloat64 (nitrogen_column draws waste moisture ph)))
              "Phosphorus_pct" (SFloat64 (phosphorus_column draws waste carbon)))
           "Potassium_pct" (SFloat64 (potassium_column draws waste moisture)))).
Proof.
  unfold generate_synthetic_targets.
  destruct (get_column data "Waste_Type") as [waste|e] eqn:Ew; [|reflexivity].
  cbn [py_bind].
  destruct (get_column data "Moisture_Content") as [m|e] eqn:Em; [|reflexivity].
  cbn [py_bind]. destruct (as_floats m) as [moisture|e] eqn:Eam; [|reflexivity].
  cbn [py_bind].
  destruct (get_column data "pH_Level") as [p|e] eqn:Ep; [|reflexivity].
  cbn [py_bind]. destruct (as_floats p) as [ph|e] eqn:Eap; [|reflexivity].
  cbn [py_bind].
  rewrite !get_column_set_ne by discriminate. rewrite Ew. cbn [py_bind].
  destruct (get_column data "Carbon_Content") as [c|e] eqn:Ec; [|reflexivity].
  cbn [py_bind]. destruct (as_floats c) as [carbon|e] eqn:Eac; [|reflexivity].
  cbn [py_bind].
  rewrite !get_column_set_ne by discriminate. rewrite Ew, Em. cbn [py_bind].
  rewrite Eam. reflexivity.
Qed.

(** The columns the generator reads are there and hold numbers. *)
Definition features_numeric (data : DataFrame) : bool :=
  has_column data "Waste_Type"
  && forallb (fun col => match dict_get (columns data) col with
                         | Some s => negb (is_object s)
                         | None => false
                         end)
       ["Moisture_Content"; "pH_Level"; "Carbon_Content"].

Lemma as_floats_numeric (s : Series) :
  is_object s = false -> exists vs, as_floats s = Ok vs.
Proof. destruct s; [discriminate|eauto..]. Qed.

(** What the generator returns: the three target columns are the
    synthesized ones, whatever was there, and nothing else changes. *)
Lemma generate_result draws data data' :
  generate_synthetic_targets draws data = Ok data' ->
  exists waste moisture ph carbon,
    dict_get (columns data') "Nitrogen_pct"
    = Some (SFloat64 (nitrogen_column draws waste moisture ph))
    /\ dict_get (columns data') "Phosphorus_pct"
       = Some (SFloat64 (phosphorus_column draws waste carbon))
    /\ dict_get (columns data') "Potassium_pct"
       = Some (SFloat64 (potassium_column draws waste moisture))
    /\ nrows data' = nrows data
    /\ forall col, ~ In col target_variables ->
         dict_get (columns data') col = dict_get (columns data) col.
Proof.
  rewrite generate_closed_form.
  destruct (get_column data "Waste_Type") as [waste|e]; [|discriminate].
  cbn [py_bind].
  destruct (get_column data "Moisture_Content") as [m|e]; [|discriminate].
  cbn [py_bind]. destruct (as_floats m) as [moisture|e]; [|discriminate].
  cbn [py_bind].
  destruct (get_column data "pH_Level") as [p|e]; [|discriminate].
  cbn [py_bind]. destruct (as_floats p) as [ph|e]; [|discriminate].
  cbn [py_bind].
  destruct (get_column data "Carbon_Content") as [c|e]; [|discriminate].
  cbn [py_bind]. destruct (as_floats c) as [carbon|e]; [|discriminate].
  cbn [py_bind]. intros [= <-].
  exists waste, moisture, ph, carbon. cbn [set_column columns nrows].
  repeat split.
  - rewrite !dict_get_set_ne by discriminate. apply dict_get_set_eq.
  - rewrite dict_get_set_ne by discriminate. apply dict_get_set_eq.
  - apply dict_get_set_eq.
  - intros col Hn. unfold target_variables in Hn. cbn [In] in Hn.
    rewrite !dict_get_set_ne; [reflexivity|intros <-; tauto..].
Qed.

Lemma generate_returns draws data :
  features_numeric data = true ->
  exists data', generate_synthetic_targets draws data = Ok data'.
Proof.
  unfold features_numeric, has_column, dict_mem. cbn [forallb].
  intros H. apply andb_prop in H as [Hw H].
  apply andb_prop in H as [Hm H]. apply andb_prop in H as [Hp H].
  apply andb_prop in H as [Hc _].
  rewrite generate_closed_form. unfold get_column.
  destruct (dict_get (columns data) "Waste_Type") as [w|]; [|discriminate].
  destruct (dict_get (columns data) "Moisture_Content") as [m|]; [|discriminate].
  destruct (dict_get (columns data) "pH_Level") as [p|]; [|discriminate].
  destruct (dict_get (columns data) "Carbon_Content") as [c|]; [|discriminate].
  apply negb_true_iff in Hm, Hp, Hc.
  destruct (as_floats_numeric _ Hm) as [mv Em].
  destruct (as_floats_numeric _ Hp) as [pv Ep].
  destruct (as_floats_numeric _ Hc) as [cv Ec].
  cbn [py_bind]. rewrite Em. cbn [py_bind]. rewrite Ep. cbn [py_bind].
  rewrite Ec. cbn [py_bind]. eauto.
Qed.

(** The frame the generator returns, from the four columns of the table it
    read. *)
Lemma generate_reads draws data data' :
  generate_synthetic_targets draws data = Ok data' ->
  exists waste m p c moisture ph carbon,
    get_column data "Waste_Type" = Ok waste
    /\ get_column data "Moisture_Content" = Ok m /\ as_floats m = Ok moisture
    /\ get_column data "pH_Level" = Ok p /\ as_floats p = Ok ph
    /\ get_column data "Carbon_Content" = Ok c /\ as_floats c = Ok carbon
    /\ data' = set_column
                 (set_column
                    (set_column data "Nitrogen_pct"
                       (SFloat64 (nitrogen_column draws waste moisture ph)))
                    "Phosphorus_pct" (SFloat64 (phosphorus_column draws waste carbon)))
                 "Potassium_pct" (SFloat64 (potassium_column draws waste moisture)).
Proof.
  rewrite generate_closed_form.
  destruct (get_column data "Waste_Type") as [waste|e]; [|discriminate].
  cbn [py_bind].
  destruct (get_column data "Moisture_Content") as [m|e]; [|discriminate].
  cbn [py_bind]. destruct (as_floats m) as [moisture|e] eqn:Em; [|discriminate].
  cbn [py_bind].
  destruct (get_column data "pH_Level") as [p|e]; [|discriminate].
  cbn [py_bind]. destruct (as_floats p) as [ph|e] eqn:Ep; [|discriminate].
  cbn [py_bind].
  destruct (get_column data "Carbon_Content") as [c|e]; [|discriminate].
  cbn [py_bind]. destruct (as_floats c) as [carbon|e] eqn:Ec; [|discriminate].
  cbn [py_bind]. intros [= <-].
  exists waste, m, p, c, moisture, ph, carbon. repeat split; assumption.
Qed.

(** The three columns of the frame the generator returns, the rows and the
    other columns. *)
Lemma synthesized_frame data nitrogen phosphorus potassium :
  let data' := set_column
                 (set_column (set_column data "Nitrogen_pct" nitrogen)
                    "Phosphorus_pct" phosphorus)
                 "Potassium_pct" potassium in
  dict_get (columns data') "Nitrogen_pct" = Some nitrogen
  /\ dict_get (columns data') "Phosphorus_pct" = Some phosphorus
  /\ dict_get (columns data') "Potassium_pct" = Some potassium
  /\ nrows data' = nrows data
  /\ forall col, ~ In col target_variables ->
       dict_get (columns data') col = dict_get (columns data) col.
Proof.
  cbn [set_column columns nrows]. repeat split.
  - rewrite !dict_get_set_ne by discriminate. apply dict_get_set_eq.
  - rewrite dict_get_set_ne by discriminate. apply dict_get_set_eq.
  - apply dict_get_set_eq.
  - intros col Hn. unfold target_variables in Hn. cbn [In] in Hn.
    rewrite !dict_get_set_ne; [reflexivity|intros <-; tauto..].
Qed.

End SyntheticFacts.

(** C9, at a table the page hands to the generator.  A [Moisture_Content]
    column of texts that are no labels and no numbers is all NaN after
    normalisation: its mean is NaN, so filling the missing entries with the
    mean leaves them missing.  The nitrogen and the potassium synthesized
    from it are NaN, and NaN lies in no range: clipping leaves it as it is.
    The phosphorus, which does not read the moisture, is within its range. *)
Theorem C9_missing_moisture_escapes_clipping :
  let raw := Pandas.mkDataFrame 2
               [("Waste_Type", Pandas.SObject [Pandas.OStr "Food"; Pandas.OStr "Garden"]);
                ("Moisture_Content", Pandas.SObject [Pandas.OStr "wet"; Pandas.OStr "dry"])] in
  let data := @App.normalize Pandas.reference_numeric raw in
  let draws := Utils.mkDraws [2.0; 3.0]%float [1.0; 1.5]%float
                             [0.5; 0.9]%float [1.5; 2.0]%float in
  dict_get (Pandas.columns data) "Moisture_Content"
  = Some (Pandas.SFloat64 [F64.nan; F64.nan])
  /\ (data' <-? Utils.generate_synthetic_targets draws data ;;
      Pandas.get_column data' "Nitrogen_pct")
     = Ok (Pandas.SFloat64 [F64.nan; F64.nan])
  /\ (data' <-? Utils.generate_synthetic_targets draws data ;;
      Pandas.get_column data' "Potassium_pct")
     = Ok (Pandas.SFloat64 [F64.nan; F64.nan])
  /\ (data' <-? Utils.generate_synthetic_targets draws data ;;
      phosphorus <-? Pandas.get_column data' "Phosphorus_pct" ;;
      values <-? Pandas.as_floats phosphorus ;;
      Ok (length values, forallb (SyntheticFacts.within 0.01 2.0) values))
     = Ok (2%nat, true)
  /\ SyntheticFacts.within 0.05 5.0 F64.nan = false
  /\ SyntheticFacts.within 0.05 3.0 F64.nan = false.
Proof. vm_compute. repeat split. Qed.

(** ** Training *)
Module TrainFacts.
Import Pandas Utils App.

Lemma has_all_targets_false data :
  has_all_targets data = false
  <-> exists target, In target target_variables /\ has_column data target = false.
Proof.
  unfold has_all_targets, target_variables. cbn [forallb In]. split.
  - destruct (has_column data "Nitrogen_pct") eqn:En; [|eauto 6].
    destruct (has_column data "Phosphorus_pct") eqn:Ep; [|eauto 6].
    destruct (has_column data "Potassium_pct") eqn:Ek; [discriminate|eauto 6].
  - intros (t & [<-|[<-|[<-|[]]]] & ->); cbn [andb];
      rewrite ?andb_false_r; reflexivity.
Qed.

Lemma train_models_targets {sk : Sklearn} draws data test_size data' models :
  train_models draws data test_size = Ok (data', models) ->
  ensure_targets draws data = Ok data'.
Proof.
  unfold train_models.
  destruct (select_columns data (map fst DEFAULT_VALUES)) as [X|e]; [|discriminate].
  cbn [py_bind]. destruct (ensure_targets draws data) as [d|e]; [|discriminate].
  cbn [py_bind]. destruct (py_for _ _ _) as [ms|e]; [|discriminate].
  cbn [py_bind]. now intros [= -> _].
Qed.

End TrainFacts.

(** C5, as stated, does not hold: with [Nitrogen_pct] in the table and
    the two other targets absent, the generator runs and replaces the
    nitrogen values that were there. *)
Lemma C5_synthetic_targets_when_missing_counterexample :
  let data := Pandas.mkDataFrame 2
                [("Waste_Type", Pandas.SObject [Pandas.OStr "Food"; Pandas.OStr "Garden"]);
                 ("Moisture_Content", Pandas.SFloat64 [60.0; 40.0]%float);
                 ("pH_Level", Pandas.SFloat64 [6.5; 6.5]%float);
                 ("Carbon_Content", Pandas.SFloat64 [35.0; 35.0]%float);
                 ("Nitrogen_pct", Pandas.SFloat64 [0.7; 0.9]%float)] in
  let draws := Utils.mkDraws [2.0; 3.0]%float [1.0; 1.5]%float
                             [0.5; 0.9]%float [1.5; 2.0]%float in
  Pandas.get_column data "Nitrogen_pct" = Ok (Pandas.SFloat64 [0.7; 0.9]%float)
  /\ (data' <-? App.ensure_targets draws data ;; Pandas.get_column data' "Nitrogen_pct")
     = Ok (Pandas.SFloat64 [1.9500000000000002; 1.25]%float).
Proof. vm_compute. repeat split. Qed.

(** C5, amended.  The generator runs exactly when one of the three target
    columns is absent.  When all three are present the table is left as it
    is.  When one is absent and the feature columns hold numbers, the step
    returns; and whenever it returns, the table is the given one with the
    three target columns assigned in turn, each computed from the [Waste_Type],
    [Moisture_Content], [pH_Level] and [Carbon_Content] columns of the given
    table and from the draws: a target that was present is assigned as the
    absent ones are, its values gone; every other column and the number of
    rows are as they were.  The table the training step goes on with is the
    one this step returns. *)
Theorem C5_synthetic_targets_when_missing :
  forall (draws : Utils.Draws) (data : Pandas.DataFrame),
    (App.has_all_targets data = false
     <-> exists target, In target App.target_variables
                        /\ Pandas.has_column data target = false)
    /\ (App.has_all_targets data = true -> App.ensure_targets draws data = Ok data)
    /\ (App.has_all_targets data = false ->
        SyntheticFacts.features_numeric data = true ->
        exists data', App.ensure_targets draws data = Ok data')
    /\ (forall data',
          App.has_all_targets data = false ->
          App.ensure_targets draws data = Ok data' ->
          exists waste m p c moisture ph carbon,
            Pandas.get_column data "Waste_Type" = Ok waste
            /\ Pandas.get_column data "Moisture_Content" = Ok m
            /\ Pandas.as_floats m = Ok moisture
            /\ Pandas.get_column data "pH_Level" = Ok p
            /\ Pandas.as_floats p = Ok ph
            /\ Pandas.get_column data "Carbon_Content" = Ok c
            /\ Pandas.as_floats c = Ok carbon
            /\ data'
               = Pandas.set_column
                   (Pandas.set_column
                      (Pandas.set_column data "Nitrogen_pct"
                         (Pandas.SFloat64
                            (Utils.nitrogen_column draws waste moisture ph)))
                      "Phosphorus_pct"
                      (Pandas.SFloat64 (Utils.phosphorus_column draws waste carbon)))
                   "Potassium_pct"
                   (Pandas.SFloat64 (Utils.potassium_column draws waste moisture))
            /\ dict_get (Pandas.columns data') "Nitrogen_pct"
               = Some (Pandas.SFloat64 (Utils.nitrogen_column draws waste moisture ph))
            /\ dict_get (Pandas.columns data') "Phosphorus_pct"
               = Some (Pandas.SFloat64 (Utils.phosphorus_column draws waste carbon))
            /\ dict_get (Pandas.columns data') "Potassium_pct"
               = Some (Pandas.SFloat64 (Utils.potassium_column draws waste moisture))
            /\ Pandas.nrows data' = Pandas.nrows data
            /\ forall col, ~ In col App.target_variables ->
                 dict_get (Pandas.columns data') col = dict_get (Pandas.columns data) col)
    /\ (forall (sk : App.Sklearn) test_size data' models,
          App.train_models draws data test_size = Ok (data', models) ->
          App.ensure_targets draws data = Ok data').
Proof.
  intros draws data.
  split; [apply TrainFacts.has_all_targets_false|].
  unfold App.ensure_targets.
  split; [now intros ->|]. split; [|split].
  - intros -> Hf. cbn [negb]. now apply SyntheticFacts.generate_returns.
  - intros data' ->. cbn [negb]. intros Hgen.
    destruct (SyntheticFacts.generate_reads _ _ _ Hgen)
      as (waste & m & p & c & moisture & ph & carbon
          & Hw & Hm & Em & Hp & Ep & Hc & Ec & Hd).
    exists waste, m, p, c, moisture, ph, carbon.
    repeat (split; [assumption|]).
    rewrite Hd. apply SyntheticFacts.synthesized_frame.
  - intros sk test_size data' models H.
    exact (TrainFacts.train_models_targets _ _ _ _ _ H).
Qed.

(** The nitrogen column of the table is not among the absent ones, and its
    two values are replaced by the synthesized ones. *)
Lemma C5_synthetic_targets_when_missing_witness :
  let data := Pandas.mkDataFrame 2
                [("Waste_Type", Pandas.SObject [Pandas.OStr "Food"; Pandas.OStr "Garden"]);
                 ("Moisture_Content", Pandas.SFloat64 [60.0; 40.0]%float);
                 ("pH_Level", Pandas.SFloat64 [6.5; 6.5]%float);
                 ("Carbon_Content", Pandas.SFloat64 [35.0; 35.0]%float);
                 ("Nitrogen_pct", Pandas.SFloat64 [0.7; 0.9]%float)] in
  let draws := Utils.mkDraws [2.0; 3.0]%float [1.0; 1.5]%float
                             [0.5; 0.9]%float [1.5; 2.0]%float in
  App.has_all_targets data = false
  /\ dict_get (Pandas.columns data) "Nitrogen_pct"
     = Some (Pandas.SFloat64 [0.7; 0.9]%float)
  /\ exists data',
       App.ensure_targets draws data = Ok data'
       /\ dict_get (Pandas.columns data') "Nitrogen_pct"
          = Some (Pandas.SFloat64 [1.9500000000000002; 1.25]%float)
       /\ Pandas.nrows data' = 2%nat
       /\ dict_get (Pandas.columns data') "Carbon_Content"
          = Some (Pandas.SFloat64 [35.0; 35.0]%float).
Proof.
  intros data draws.
  assert (App.has_all_targets data = false) as Hmissing by (vm_compute; reflexivity).
  split; [exact Hmissing|]. split; [vm_compute; reflexivity|].
  destruct (C5_synthetic_targets_when_missing draws data)
    as (_ & _ & Hreturns & Hframe & _).
  destruct (Hreturns Hmissing) as [data' Hrun]; [vm_compute; reflexivity|].
  exists data'. split; [exact Hrun|].
  destruct (Hframe data' Hmissing Hrun)
    as (waste & m & p & c & moisture & ph & carbon
        & Hw & Hm & Em & Hp & Ep & _ & _ & _ & Hn & _ & _ & Hrows & Hrest).
  vm_compute in Hw. injection Hw as <-.
  vm_compute in Hm. injection Hm as <-.
  vm_compute in Em. injection Em as <-.
  vm_compute in Hp. injection Hp as <-.
  vm_compute in Ep. injection Ep as <-.
  split; [rewrite Hn; vm_compute; reflexivity|].
  split; [rewrite Hrows; reflexivity|].
  rewrite Hrest; [vm_compute; reflexivity|].
  cbn [App.target_variables In]. intros [H|[H|[H|[]]]]; discriminate H.
Defined.

(** *** The fit *)
Module FitFacts.
Import Pandas Utils App.

Lemma py_for_raise {A S : Type} (body : S -> A -> PyResult S) (l : list A) (s : S) e :
  py_for body l s = Raise e ->
  exists x s', In x l /\ body s' x = Raise e.
Proof.
  revert s. induction l as [|x l IH]; intros s; cbn [py_for]; [discriminate|].
  destruct (body s x) as [s1|e1] eqn:E; cbn [py_bind].
  - intros H. destruct (IH _ H) as (y & s' & Hy & Hb). exists y, s'.
    split; [now right | exact Hb].
  - intros [= ->]. exists x, s. split; [now left | exact E].
Qed.

(** A failure of the loop over the targets is a failure of the split or of
    the fit. *)
Lemma train_target_raise {sk : Sklearn} X data test_size models target e :
  has_column data target = true ->
  train_target X data test_size models target = Raise e ->
  exists y, get_column data target = Ok y
    /\ (train_test_split X y test_size = Raise e
        \/ exists X_train X_test y_train y_test,
             train_test_split X y test_size = Ok (X_train, X_test, y_train, y_test)
             /\ fit X_train y_train = Raise e).
Proof.
  unfold train_target, has_column, dict_mem, get_column.
  destruct (dict_get (columns data) target) as [y|]; [|discriminate].
  intros _. cbn [py_bind]. exists y. split; [reflexivity|].
  destruct (train_test_split X y test_size) as [[[[X_train X_test] y_train] y_test]|e1];
    cbn [py_bind] in *.
  - right. exists X_train, X_test, y_train, y_test. split; [reflexivity|].
    destruct (fit X_train y_train); [discriminate|]. cbn [py_bind] in H. congruence.
  - left. congruence.
Qed.

(** [needle in text] *)
Definition contains (needle text : string) : bool :=
  match String.index 0 needle text with
  | Some _ => true
  | None => false
  end.

(** Two libraries to run the handler with.  Both split by handing the whole
    table to either part.  The first fit refuses a target with a missing
    entry, with the message scikit-learn gives for it; the second accepts
    whatever it is given. *)
Definition strict_library : Sklearn :=
  {| Model := unit;
     train_test_split := fun X y _ => Ok (X, X, y, y);
     fit := fun _ y => if any_isna y
                       then Raise (ValueError "Input y contains NaN.")
                       else Ok tt |}.

Definition lenient_library : Sklearn :=
  {| Model := unit;
     train_test_split := fun X y _ => Ok (X, X, y, y);
     fit := fun _ _ => Ok tt |}.

(** A table with its seven feature columns and its three targets, the
    nitrogen column holding missing entries only. *)
Definition degenerate_table : DataFrame :=
  mkDataFrame 2
    [("Waste_Type", SObject [OStr "Food"; OStr "Garden"]);
     ("Moisture_Content", SFloat64 [60.0; 40.0]%float);
     ("pH_Level", SFloat64 [6.5; 7.0]%float);
     ("Carbon_Content", SFloat64 [35.0; 30.0]%float);
     ("Particle_Size_mm", SFloat64 [10.0; 5.0]%float);
     ("Age_Days", SInt64 [30; 12]);
     ("Degradation_Rate", SFloat64 [1.0; 0.5]%float);
     ("Nitrogen_pct", SFloat64 [F64.nan; F64.nan]);
     ("Phosphorus_pct", SFloat64 [0.4; 0.6]%float);
     ("Potassium_pct", SFloat64 [1.6; 1.1]%float)].

Definition no_draws : Draws := mkDraws [] [] [] [].

(** The feature columns and the nitrogen column of [degenerate_table]: two
    of the three targets are absent. *)
Definition partial_table : DataFrame :=
  mkDataFrame 2 (firstn 8 (columns degenerate_table)).

Definition two_draws : Draws :=
  mkDraws [2.0; 3.0]%float [1.0; 1.5]%float [0.5; 0.9]%float [1.5; 2.0]%float.

(** *** A target with no number in it *)

(** The entries of a column, whatever its dtype. *)
Definition entries (y : Series) : list Obj :=
  match y with
  | SObject vs => vs
  | SInt64 vs => map OInt vs
  | SFloat64 vs => map OFloat vs
  end.

Section WithNumeric.
Context {num : Numeric}.

(** A missing entry, or a text that does not read as a number. *)
Definition missing_or_text (v : Obj) : bool :=
  match v with
  | OStr s => match str_to_number s with Some _ => false | None => true end
  | OInt _ => false
  | OFloat f => F64.is_nan f
  end.

(** A column that contains only missing or non-numeric values. *)
Definition degenerate (y : Series) : bool := forallb missing_or_text (entries y).

(** What scikit-learn does with such a column: the training part of a split
    is made of rows of the column, and the fit refuses a target that has no
    number in it. *)
Definition split_keeps_degenerate (sk : Sklearn) : Prop :=
  forall X y test_size X_train X_test y_train y_test,
    degenerate y = true ->
    train_test_split X y test_size = Ok (X_train, X_test, y_train, y_test) ->
    degenerate y_train = true.

Definition fit_rejects_degenerate (sk : Sklearn) : Prop :=
  forall X y, degenerate y = true -> exists e, fit X y = Raise e.

(** A library to run the handler with.  The split is the one of
    [strict_library].  The fit refuses a target with no row, a target with
    a missing entry (with the message scikit-learn gives for it) and a
    target with a text that is no number. *)
Definition checking_library : Sklearn :=
  {| Model := unit;
     train_test_split := fun X y _ => Ok (X, X, y, y);
     fit := fun _ y =>
              if Nat.eqb (series_len y) 0
              then Raise (ValueError "Found array with 0 sample(s)")
              else if any_isna y
              then Raise (ValueError "Input y contains NaN.")
              else if existsb missing_or_text (entries y)
              then Raise (ValueError "could not convert string to float")
              else Ok tt |}.

Lemma entries_length (y : Series) : length (entries y) = series_len y.
Proof. destruct y; cbn [entries series_len]; now rewrite ?length_map. Qed.

Lemma forallb_existsb {A : Type} (f : A -> bool) (l : list A) :
  l <> [] -> forallb f l = true -> existsb f l = true.
Proof.
  destruct l as [|x l]; [congruence|]. intros _. cbn [forallb existsb].
  intros H. apply andb_prop in H as [-> _]. reflexivity.
Qed.

Lemma checking_library_split : split_keeps_degenerate checking_library.
Proof.
  intros X y test_size X_train X_test y_train y_test Hy.
  cbn [train_test_split checking_library]. now intros [= _ _ <- _].
Qed.

Lemma checking_library_fit : fit_rejects_degenerate checking_library.
Proof.
  intros X y Hy. cbn [fit checking_library].
  destruct (Nat.eqb (series_len y) 0) eqn:El; [eauto|].
  destruct (any_isna y); [eauto|].
  rewrite forallb_existsb; [eauto| |exact Hy].
  intros E. apply Nat.eqb_neq in El. apply El.
  now rewrite <- entries_length, E.
Qed.

Section WithSklearn.
Context {sk : Sklearn}.
Hypothesis split_rows : split_keeps_degenerate sk.
Hypothesis fit_rejects : fit_rejects_degenerate sk.

(** The iteration for a degenerate target raises. *)
Lemma train_target_degenerate X data test_size models target y :
  get_column data target = Ok y -> degenerate y = true ->
  exists e, train_target X data test_size models target = Raise e.
Proof.
  intros Hy Hd. unfold train_target. rewrite Hy. cbn [py_bind].
  destruct (train_test_split X y test_size)
    as [[[[X_train X_test] y_train] y_test]|e] eqn:Es; cbn [py_bind]; [|eauto].
  pose proof (split_rows _ _ _ _ _ _ _ Hd Es) as Hd'.
  destruct (fit_rejects X_train y_train Hd') as [e He].
  rewrite He. cbn [py_bind]. eauto.
Qed.

(** So does a loop that has the target on its list: at this target, or at
    one before it. *)
Lemma loop_degenerate X data test_size target y targets :
  get_column data target = Ok y -> degenerate y = true ->
  In target targets ->
  forall models, exists e,
    py_for (train_target X data test_size) targets models = Raise e.
Proof.
  intros Hy Hd. induction targets as [|t targets IH]; intros Hin models; [destruct Hin|].
  cbn [py_for].
  destruct (train_target X data test_size models t) as [models'|e] eqn:Et;
    cbn [py_bind]; [|eauto].
  destruct Hin as [->|Hin]; [|now apply IH].
  destruct (train_target_degenerate X data test_size models target y Hy Hd) as [e He].
  congruence.
Qed.

End WithSklearn.
End WithNumeric.

(** With the three targets in the table, the training goes on with the
    table as it is. *)
Lemma train_models_all_targets {sk : Sklearn} draws data X test_size :
  has_all_targets data = true ->
  select_columns data (map fst DEFAULT_VALUES) = Ok X ->
  train_models draws data test_size
  = (models <-? py_for (train_target X data test_size) target_variables [] ;;
     Ok (data, models)).
Proof.
  intros Ht HX. unfold train_models, ensure_targets. rewrite HX, Ht. reflexivity.
Qed.

Lemma train_handler_all_targets {sk : Sklearn} draws data X test_size :
  has_all_targets data = true ->
  select_columns data (map fst DEFAULT_VALUES) = Ok X ->
  train_handler draws data test_size
  = match py_for (train_target X data test_size) target_variables [] with
    | Ok models => ([Success "Models trained successfully!"], Some models)
    | Raise e => ([Error ("Error processing the file: " +:+ str e)], None)
    end.
Proof.
  intros Ht HX. unfold train_handler.
  rewrite (train_models_all_targets draws data X test_size Ht HX), HX, Ht.
  cbn [negb app]. now destruct (py_for _ _ _).
Qed.

End FitFacts.

(** C6, as stated, does not hold.  The handler has no check of its own on
    a target column.  With a fit that refuses the all-missing nitrogen
    column, the notice is the library's message behind a fixed prefix, and
    the name of the target is not in it.  And with the same column in a table
    that lacks the two other targets, all three targets are synthesized
    before the loop, and the training succeeds. *)
Lemma C6_degenerate_target_counterexample :
  @App.train_handler FitFacts.strict_library FitFacts.no_draws
     FitFacts.degenerate_table 0.2
  = ([App.Error "Error processing the file: Input y contains NaN."], None)
  /\ FitFacts.contains "Nitrogen_pct"
       "Error processing the file: Input y contains NaN." = false
  /\ Pandas.get_column FitFacts.partial_table "Nitrogen_pct"
     = Ok (Pandas.SFloat64 [F64.nan; F64.nan])
  /\ @App.train_handler FitFacts.strict_library FitFacts.two_draws
       FitFacts.partial_table 0.2
     = ([App.Warning "Target variables not found in dataset. Creating synthetic targets for demonstration.";
         App.Success "Models trained successfully!"],
        Some [("Nitrogen_pct", tt); ("Phosphorus_pct", tt); ("Potassium_pct", tt)]).
Proof. vm_compute. repeat split. Qed.

(** C6, amended.  Take a library whose split hands the fit rows of the
    target column and whose fit refuses a target that contains only missing
    or non-numeric values, as scikit-learn does.  On a table that has its
    three targets, one of which contains only missing or non-numeric values,
    the training fails: the handler shows one notice, the error
    "Error processing the file: " followed by the message of the exception,
    shows no success and leaves no models.  When the feature columns are
    there, the exception is one the split or the fit raised for a target;
    the handler adds nothing about the target to its message. *)
Theorem C6_degenerate_target :
  forall (num : Pandas.Numeric) (sk : App.Sklearn) (draws : Utils.Draws)
         (data : Pandas.DataFrame) (test_size : float)
         (target : string) (y : Pandas.Series),
    FitFacts.split_keeps_degenerate sk ->
    FitFacts.fit_rejects_degenerate sk ->
    App.has_all_targets data = true ->
    In target App.target_variables ->
    Pandas.get_column data target = Ok y ->
    FitFacts.degenerate y = true ->
    exists e,
      App.train_handler draws data test_size
      = ([App.Error ("Error processing the file: " +:+ App.str e)], None)
      /\ forall X,
           App.select_columns data (map fst App.DEFAULT_VALUES) = Ok X ->
           py_for (App.train_target X data test_size) App.target_variables [] = Raise e
           /\ exists target' y',
                In target' App.target_variables
                /\ Pandas.get_column data target' = Ok y'
                /\ (App.train_test_split X y' test_size = Raise e
                    \/ exists X_train X_test y_train y_test,
                         App.train_test_split X y' test_size
                         = Ok (X_train, X_test, y_train, y_test)
                         /\ App.fit X_train y_train = Raise e).
Proof.
  intros num sk draws data test_size target y Hsplit Hfit Ht Hin Hy Hd.
  destruct (App.select_columns data (map fst App.DEFAULT_VALUES)) as [X|e0] eqn:HX.
  - destruct (FitFacts.loop_degenerate Hsplit Hfit X data test_size target y
                App.target_variables Hy Hd Hin []) as [e He].
    exists e. split.
    + rewrite (FitFacts.train_handler_all_targets draws data X test_size Ht HX).
      now rewrite He.
    + intros X' [= <-]. split; [exact He|].
      destruct (FitFacts.py_for_raise _ _ _ _ He) as (target' & models & Hin' & Hb).
      assert (Pandas.has_column data target' = true) as Hc.
      { unfold App.has_all_targets in Ht. rewrite forallb_forall in Ht. now apply Ht. }
      destruct (FitFacts.train_target_raise _ _ _ _ _ _ Hc Hb) as (y' & Hy' & Hlib).
      exists target', y'. auto.
  - exists e0. split.
    + unfold App.train_handler. now rewrite HX.
    + intros X' HX'. discriminate HX'.
Qed.

Lemma C6_degenerate_target_witness :
  exists e,
    @App.train_handler (@FitFacts.checking_library Pandas.reference_numeric)
       FitFacts.no_draws FitFacts.degenerate_table 0.25
    = ([App.Error ("Error processing the file: " +:+ App.str e)], None)
    /\ forall X,
         App.select_columns FitFacts.degenerate_table (map fst App.DEFAULT_VALUES) = Ok X ->
         py_for (@App.train_target (@FitFacts.checking_library Pandas.reference_numeric)
                   X FitFacts.degenerate_table 0.25)
           App.target_variables [] = Raise e
         /\ exists target' y',
              In target' App.target_variables
              /\ Pandas.get_column FitFacts.degenerate_table target' = Ok y'
              /\ (@App.train_test_split (@FitFacts.checking_library Pandas.reference_numeric)
                    X y' 0.25 = Raise e
                  \/ exists X_train X_test y_train y_test,
                       @App.train_test_split
                         (@FitFacts.checking_library Pandas.reference_numeric) X y' 0.25
                       = Ok (X_train, X_test, y_train, y_test)
                       /\ @App.fit (@FitFacts.checking_library Pandas.reference_numeric)
                            X_train y_train = Raise e).
Proof.
  apply (C6_degenerate_target Pandas.reference_numeric
           (@FitFacts.checking_library Pandas.reference_numeric)
           FitFacts.no_draws FitFacts.degenerate_table 0.25%float
           "Nitrogen_pct" (Pandas.SFloat64 [F64.nan; F64.nan])).
  - apply FitFacts.checking_library_split.
  - apply FitFacts.checking_library_fit.
  - vm_compute. reflexivity.
  - left. reflexivity.
  - vm_compute. reflexivity.
  - vm_compute. reflexivity.
Defined.

(** * Further properties *)

(** ** The analyzer: errors, inputs it reads, shape of the result *)
Module AnalyzerFacts.
Import Pandas PlantDatabase Utils UtilsFacts.

(** The nutrients the prediction has a key for, in the order of the loop. *)
Definition predicted (predictions : gmap string float) : list string :=
  List.filter (fun n => match predictions !! pct n with
                        | Some _ => true
                        | None => false
                        end) NUTRIENTS.

Ltac run_steps :=
  repeat (first
    [ erewrite analyze_step_present by eassumption
    | rewrite analyze_step_absent by assumption
    | erewrite analyze_step_keyerror by eassumption ]; cbn [py_bind]).

Ltac split_lookups predictions plant_info :=
  destruct (predictions !! pct "Nitrogen") as [vn|] eqn:Pn;
  destruct (predictions !! pct "Phosphorus") as [vp|] eqn:Pp;
  destruct (predictions !! pct "Potassium") as [vk|] eqn:Pk;
  destruct (nutrients plant_info !! "Nitrogen") as [rn|] eqn:Rn;
  destruct (nutrients plant_info !! "Phosphorus") as [rp|] eqn:Rp;
  destruct (nutrients plant_info !! "Potassium") as [rk|] eqn:Rk.

Ltac covered := first [left; assumption | right; congruence].

(** When a predicted nutrient has no triple, the loop stops at the first
    such nutrient with its [KeyError]. *)
Lemma analyze_uncovered predictions plant_info :
  covers plant_info predictions = false ->
  exists pre n post,
    NUTRIENTS = pre ++ n :: post
    /\ predictions !! pct n <> None
    /\ nutrients plant_info !! n = None
    /\ Forall (fun m => predictions !! pct m = None
                        \/ nutrients plant_info !! m <> None) pre
    /\ analyze_nutrient_suitability predictions plant_info = Raise (KeyError n).
Proof.
  unfold covers, analyze_nutrient_suitability, NUTRIENTS. cbn [forallb py_for].
  split_lookups predictions plant_info; cbn [andb]; try discriminate; intros _;
    run_steps;
    first
      [ exists [], "Nitrogen", ["Phosphorus"; "Potassium"];
        split; [reflexivity|]; split; [congruence|]; split; [assumption|];
        split; [constructor | reflexivity]
      | exists ["Nitrogen"], "Phosphorus", ["Potassium"];
        split; [reflexivity|]; split; [congruence|]; split; [assumption|];
        split; [apply List.Forall_cons; [covered | apply List.Forall_nil] | reflexivity]
      | exists ["Nitrogen"; "Phosphorus"], "Potassium", [];
        split; [reflexivity|]; split; [congruence|]; split; [assumption|];
        split; [apply List.Forall_cons; [covered | apply List.Forall_cons;
                                              [covered | apply List.Forall_nil]]
               | reflexivity] ].
Qed.

Lemma analyze_ok_covers predictions plant_info r :
  analyze_nutrient_suitability predictions plant_info = Ok r ->
  covers plant_info predictions = true.
Proof.
  intros H. destruct (covers plant_info predictions) eqn:E; [reflexivity|].
  destruct (analyze_uncovered _ _ E) as (pre & n & post & _ & _ & _ & _ & C).
  congruence.
Qed.

Lemma py_for_ext {A S : Type} (f g : S -> A -> PyResult S) (l : list A) (s : S) :
  (forall s' x, In x l -> f s' x = g s' x) -> py_for f l s = py_for g l s.
Proof.
  revert s. induction l as [|x l IH]; intros s H; [reflexivity|].
  cbn [py_for]. rewrite (H s x) by now left.
  destruct (g s x); cbn [py_bind]; [|reflexivity].
  apply IH. intros; apply H; now right.
Qed.

(** The keys of the result, in order. *)
Lemma entries_keys predictions plant_info :
  covers plant_info predictions = true ->
  map fst (entry predictions plant_info "Nitrogen"
           ++ entry predictions plant_info "Phosphorus"
           ++ entry predictions plant_info "Potassium")
  = predicted predictions.
Proof.
  unfold covers, predicted, NUTRIENTS, entry. cbn [forallb List.filter].
  split_lookups predictions plant_info; cbn [andb]; try discriminate; reflexivity.
Qed.

Lemma predicted_length predictions : (length (predicted predictions) <= 3)%nat.
Proof.
  unfold predicted, NUTRIENTS. cbn [List.filter].
  repeat match goal with
  | |- context [match ?m !! ?k with _ => _ end] => destruct (m !! k)
  end; cbn [length]; lia.
Qed.

Lemma filter_length_le {A : Type} (f : A -> bool) (l : list A) :
  (length (List.filter f l) <= length l)%nat.
Proof.
  induction l as [|a l IH]; cbn [List.filter length]; [lia|].
  destruct (f a); cbn [length]; lia.
Qed.

(** A NaN is below nothing and above nothing. *)
Lemma classify_nan nutrient value req :
  F64.is_nan value = true ->
  classify nutrient value req = (Optimal, "Maintain levels").
Proof.
  intros Hn. unfold classify.
  destruct (value <? req_min req)%float eqn:E1.
  { apply FloatOrder.ltb_not_nan in E1 as [C _]. congruence. }
  destruct (req_max req <? value)%float eqn:E2; [|reflexivity].
  apply FloatOrder.ltb_not_nan in E2 as [_ C]. congruence.
Qed.

End AnalyzerFacts.

(** X1.  The analyzer returns exactly when the plant entry has a triple for
    every nutrient the prediction has a key for.  Otherwise it raises
    [KeyError] for the first predicted nutrient, in the order Nitrogen,
    Phosphorus, Potassium, that the plant entry lacks. *)
Theorem X1_analyzer_key_error :
  forall (predictions : gmap string float) (plant_info : PlantDatabase.PlantInfo),
    (UtilsFacts.covers plant_info predictions = true
     <-> exists result, Utils.analyze_nutrient_suitability predictions plant_info = Ok result)
    /\ (UtilsFacts.covers plant_info predictions = false ->
        exists pre nutrient post,
          Utils.NUTRIENTS = pre ++ nutrient :: post
          /\ predictions !! Utils.pct nutrient <> None
          /\ PlantDatabase.nutrients plant_info !! nutrient = None
          /\ Forall (fun m => predictions !! Utils.pct m = None
                              \/ PlantDatabase.nutrients plant_info !! m <> None) pre
          /\ Utils.analyze_nutrient_suitability predictions plant_info
             = Raise (KeyError nutrient)).
Proof.
  intros predictions plant_info. split; [split|].
  - intros H. eexists. now apply UtilsFacts.analyze_closed_form.
  - intros [r H]. exact (AnalyzerFacts.analyze_ok_covers _ _ _ H).
  - apply AnalyzerFacts.analyze_uncovered.
Qed.

Lemma X1_analyzer_key_error_witness :
  exists pre nutrient post,
    Utils.NUTRIENTS = pre ++ nutrient :: post
    /\ Utils.analyze_nutrient_suitability (Utils.prediction 2.0 0.4 1.5)
         (PlantDatabase.mkPlantInfo
            {[ "Nitrogen" := PlantDatabase.mkReq 1.0 2.0 1.5 ]} "no phosphorus")
       = Raise (KeyError nutrient).
Proof.
  destruct (proj2 (X1_analyzer_key_error (Utils.prediction 2.0 0.4 1.5)
              (PlantDatabase.mkPlantInfo
                 {[ "Nitrogen" := PlantDatabase.mkReq 1.0 2.0 1.5 ]} "no phosphorus")))
    as (pre & n & post & Hs & _ & _ & _ & Hr).
  - vm_compute. reflexivity.
  - exists pre, n, post. split; [exact Hs | exact Hr].
Defined.

(** X2.  The analyzer reads nothing but the three [_pct] keys of the
    prediction and the three nutrient triples of the plant entry: two calls
    that agree on these return the same result, whatever other keys the
    prediction has and whatever the description says. *)
Theorem X2_analyzer_reads_three_keys :
  forall (predictions predictions' : gmap string float)
         (plant_info plant_info' : PlantDatabase.PlantInfo),
    (forall nutrient, In nutrient Utils.NUTRIENTS ->
       predictions !! Utils.pct nutrient = predictions' !! Utils.pct nutrient) ->
    (forall nutrient, In nutrient Utils.NUTRIENTS ->
       PlantDatabase.nutrients plant_info !! nutrient
       = PlantDatabase.nutrients plant_info' !! nutrient) ->
    Utils.analyze_nutrient_suitability predictions plant_info
    = Utils.analyze_nutrient_suitability predictions' plant_info'.
Proof.
  intros predictions predictions' plant_info plant_info' Hp Hr.
  unfold Utils.analyze_nutrient_suitability.
  apply AnalyzerFacts.py_for_ext. intros [suit recs] n Hn.
  unfold Utils.analyze_step. now rewrite (Hp n Hn), (Hr n Hn).
Qed.

Lemma X2_analyzer_reads_three_keys_witness :
  Utils.analyze_nutrient_suitability (Utils.prediction 1.0 0.5 1.8) PlantDatabase.Tomatoes
  = Utils.analyze_nutrient_suitability
      (<["Carbon_pct" := 40%float]> (Utils.prediction 1.0 0.5 1.8))
      (PlantDatabase.mkPlantInfo (PlantDatabase.nutrients PlantDatabase.Tomatoes) "").
Proof.
  apply X2_analyzer_reads_three_keys.
  - intros n [<-|[<-|[<-|[]]]]; vm_compute; reflexivity.
  - intros n _. reflexivity.
Defined.

(** X3.  Whenever the analyzer returns, the keys of [suitability] are the
    predicted nutrients in the order Nitrogen, Phosphorus, Potassium, each
    once; there are at most three of them (the page shows them in three
    columns by position), and there are no more recommendations than
    verdicts. *)
Theorem X3_analyzer_result_shape :
  forall (predictions : gmap string float) (plant_info : PlantDatabase.PlantInfo)
         (suitability : list (string * Utils.Verdict)) (recommendations : list string),
    Utils.analyze_nutrient_suitability predictions plant_info
    = Ok (suitability, recommendations) ->
    map fst suitability = AnalyzerFacts.predicted predictions
    /\ (length suitability <= 3)%nat
    /\ (length recommendations <= length suitability)%nat.
Proof.
  intros predictions plant_info suit recs H.
  pose proof (AnalyzerFacts.analyze_ok_covers _ _ _ H) as Hc.
  rewrite (UtilsFacts.analyze_closed_form _ _ Hc) in H. cbn zeta in H.
  injection H as <- <-.
  pose proof (AnalyzerFacts.entries_keys _ _ Hc) as Hk.
  split; [exact Hk|]. split.
  - rewrite <- (length_map fst), Hk. apply AnalyzerFacts.predicted_length.
  - rewrite UtilsFacts.advice_length. apply AnalyzerFacts.filter_length_le.
Qed.

Lemma X3_analyzer_result_shape_witness :
  map fst [ ("Phosphorus", Utils.mkVerdict Utils.High 0.9 0.5 "Reduce Phosphorus") ]
  = AnalyzerFacts.predicted {[ "Phosphorus_pct" := 0.9%float ]}.
Proof.
  refine (proj1 (X3_analyzer_result_shape {[ "Phosphorus_pct" := 0.9%float ]}
                   PlantDatabase.Tomatoes _
                   [ "- Phosphorus is high. Consider mixing with lower Phosphorus materials." ]
                   _)).
  vm_compute. reflexivity.
Defined.

(** X4.  A predicted value that is NaN is neither below the minimum nor
    above the maximum: its verdict is Optimal with the action to maintain,
    whatever the triple, and it adds no recommendation. *)
Theorem X4_nan_prediction_is_optimal :
  forall (predictions : gmap string float) (plant_info : PlantDatabase.PlantInfo)
         (nutrient : string) (value : float),
    UtilsFacts.covers plant_info predictions = true ->
    In nutrient Utils.NUTRIENTS ->
    predictions !! Utils.pct nutrient = Some value ->
    F64.is_nan value = true ->
    exists suitability recommendations v,
      Utils.analyze_nutrient_suitability predictions plant_info
      = Ok (suitability, recommendations)
      /\ dict_get suitability nutrient = Some v
      /\ Utils.status v = Utils.Optimal
      /\ Utils.action v = "Maintain levels"
      /\ UtilsFacts.advice (nutrient, v) = [].
Proof.
  intros predictions plant_info n value Hc Hn Hp Hnan.
  assert (exists req, PlantDatabase.nutrients plant_info !! n = Some req) as [req Hr].
  { unfold UtilsFacts.covers in Hc. rewrite forallb_forall in Hc.
    specialize (Hc n Hn). rewrite Hp in Hc.
    destruct (PlantDatabase.nutrients plant_info !! n); [eauto|discriminate]. }
  eexists _, _, (UtilsFacts.verdict_of n value req).
  split; [now apply UtilsFacts.analyze_closed_form|].
  split; [now apply UtilsFacts.suit_lookup|].
  unfold UtilsFacts.verdict_of, UtilsFacts.advice.
  rewrite (AnalyzerFacts.classify_nan _ _ _ Hnan). repeat split.
Qed.

Lemma X4_nan_prediction_is_optimal_witness :
  exists suitability recommendations v,
    Utils.analyze_nutrient_suitability (Utils.prediction F64.nan 0.5 1.8)
      PlantDatabase.Tomatoes
    = Ok (suitability, recommendations)
    /\ dict_get suitability "Nitrogen" = Some v
    /\ Utils.status v = Utils.Optimal.
Proof.
  destruct (X4_nan_prediction_is_optimal (Utils.prediction F64.nan 0.5 1.8)
              PlantDatabase.Tomatoes "Nitrogen" F64.nan)
    as (suit & recs & v & Hrun & Hget & Hst & _).
  - vm_compute. reflexivity.
  - cbn. tauto.
  - vm_compute. reflexivity.
  - vm_compute. reflexivity.
  - exists suit, recs, v. repeat split; assumption.
Defined.

(** ** The recommendations for every plant type (app.py, lines 258-260) *)
Module Page.
Import Pandas PlantDatabase Utils.

(** One iteration of [for plant_type, plant_info in plant_requirements.items()]:
    the analysis of the prediction for this plant type. *)
Definition plant_report (predictions : gmap string float)
    (reports : list (string * AnalysisState)) (item : string * PlantInfo)
  : PyResult (list (string * AnalysisState)) :=
  let '(plant_type, plant_info) := item in
  r <-? analyze_nutrient_suitability predictions plant_info ;;
  Ok (reports ++ [(plant_type, r)]).

Definition plant_recommendations (predictions : gmap string float)
  : PyResult (list (string * AnalysisState)) :=
  py_for (plant_report predictions) plant_requirements [].

(** A triple in order: [min <= optimal <= max]. *)
Definition req_ordered (r : Req) : bool :=
  (req_min r <=? req_optimal r)%float && (req_optimal r <=? req_max r)%float.

(** The three triples of a plant entry are there and in order. *)
Definition plant_ordered (plant_info : PlantInfo) : bool :=
  forallb (fun n => match nutrients plant_info !! n with
                    | Some r => req_ordered r
                    | None => false
                    end) NUTRIENTS.

End Page.

Module PageFacts.
Import Pandas PlantDatabase Utils UtilsFacts Page.

(** What the analyzer returns for a plant entry that has its triples. *)
Definition analysis (predictions : gmap string float) (plant_info : PlantInfo)
  : AnalysisState :=
  let suit := entry predictions plant_info "Nitrogen"
              ++ entry predictions plant_info "Phosphorus"
              ++ entry predictions plant_info "Potassium" in
  (suit, flat_map advice suit).

Lemma plant_ordered_ok plant_info :
  plant_ordered plant_info = true -> plant_info_ok plant_info = true.
Proof.
  unfold plant_ordered, plant_info_ok. rewrite !forallb_forall.
  intros H n Hn. specialize (H n Hn).
  destruct (nutrients plant_info !! n) as [r|]; [|discriminate].
  apply andb_prop in H as [H1 H2]. exact (FloatOrder.leb_trans _ _ _ H1 H2).
Qed.

Lemma reports_of_table predictions (table : list (string * PlantInfo)) reports :
  Forall (fun item => plant_info_ok (snd item) = true) table ->
  py_for (plant_report predictions) table reports
  = Ok (reports ++ map (fun item => (fst item, analysis predictions (snd item))) table).
Proof.
  revert reports. induction table as [|[name info] table IH]; intros reports Hok.
  - cbn. now rewrite app_nil_r.
  - apply Forall_cons in Hok as [Hinfo Hok]. cbn [snd] in Hinfo.
    cbn [py_for plant_report].
    rewrite (analyze_closed_form predictions info (plant_info_ok_covers _ _ Hinfo)).
    cbn [py_bind]. rewrite (IH _ Hok). cbn [map fst snd].
    now rewrite <- app_assoc.
Qed.

Lemma table_ordered :
  forallb (fun item => plant_ordered (snd item)) plant_requirements = true.
Proof. vm_compute. reflexivity. Qed.

End PageFacts.

(** X5.  Every entry of [plant_requirements] has its three triples, each
    with [min <= optimal <= max]; so for every prediction, whichever keys it
    has, the loop over the plant types raises nothing and gives one analysis
    for each of the five plant types, in the order of the table. *)
Theorem X5_every_plant_is_analyzed :
  Forall (fun item => Page.plant_ordered (snd item) = true
                      /\ Utils.plant_info_ok (snd item) = true)
    PlantDatabase.plant_requirements
  /\ forall predictions : gmap string float,
       exists reports,
         Page.plant_recommendations predictions = Ok reports
         /\ map fst reports
            = ["Tomatoes"; "Leafy Greens"; "Root Vegetables"; "Fruit Trees"; "Grains"]
         /\ Forall2 (fun report item =>
                       Utils.analyze_nutrient_suitability predictions (snd item)
                       = Ok (snd report))
              reports PlantDatabase.plant_requirements.
Proof.
  assert (Hord : Forall (fun item => Page.plant_ordered (snd item) = true)
                   PlantDatabase.plant_requirements).
  { apply Forall_forall. intros item Hin.
    pose proof PageFacts.table_ordered as H. rewrite forallb_forall in H.
    apply H. now apply list_elem_of_In. }
  assert (Hok : Forall (fun item => Utils.plant_info_ok (snd item) = true)
                  PlantDatabase.plant_requirements).
  { eapply Forall_impl; [exact Hord|]. intros item. apply PageFacts.plant_ordered_ok. }
  split.
  - apply Forall_forall. intros item Hin. rewrite Forall_forall in Hord, Hok. auto.
  - intros predictions. eexists. split; [|split].
    + unfold Page.plant_recommendations. apply (PageFacts.reports_of_table _ _ [] Hok).
    + reflexivity.
    + cbn [app]. clear Hord.
      induction Hok as [|item table Hitem _ IH]; cbn [map]; constructor.
      * cbn [snd]. apply UtilsFacts.analyze_closed_form.
        now apply UtilsFacts.plant_info_ok_covers.
      * exact IH.
Qed.

(** ** The generator of synthetic targets: errors, repetition, shape *)
Module GeneratorFacts.
Import Pandas Utils App SyntheticFacts.

(** Every column has one entry for each row. *)
Definition well_formed (data : DataFrame) : Prop :=
  Forall (fun c => series_len (snd c) = nrows data) (columns data).

(** Each array of draws has one entry for each row. *)
Definition draws_for (draws : Draws) (n : nat) : Prop :=
  length (nitrogen_food draws) = n /\ length (nitrogen_garden draws) = n
  /\ length (phosphorus_food draws) = n /\ length (potassium_food draws) = n.

Lemma dict_get_elem {V : Type} (d : list (string * V)) (k : string) (v : V) :
  dict_get d k = Some v -> In (k, v) d.
Proof.
  induction d as [|[k' v'] d IH]; cbn [dict_get]; [discriminate|].
  destruct (String.eqb_spec k' k) as [->|N].
  - intros [= ->]. now left.
  - intros H. right. now apply IH.
Qed.

Lemma dict_set_Forall {V : Type} (P : string * V -> Prop) d k v :
  Forall P d -> P (k, v) -> Forall P (dict_set d k v).
Proof.
  intros Hd Hv. induction Hd as [|[k' v'] d Hx Hd IH]; cbn [dict_set].
  - now repeat constructor.
  - destruct (String.eqb k' k); constructor; assumption.
Qed.

Lemma set_column_well_formed data col s :
  well_formed data -> series_len s = nrows data ->
  well_formed (set_column data col s).
Proof.
  intros Hd Hs. unfold well_formed, set_column. cbn [columns nrows].
  now apply dict_set_Forall.
Qed.

Lemma get_column_len data col s :
  well_formed data -> get_column data col = Ok s -> series_len s = nrows data.
Proof.
  unfold well_formed, get_column. intros Hd H.
  destruct (dict_get (columns data) col) as [s'|] eqn:E; [|discriminate].
  injection H as ->. apply dict_get_elem in E.
  rewrite Forall_forall in Hd. apply list_elem_of_In in E. exact (Hd _ E).
Qed.

Lemma obj_floats_length vs fs : obj_floats vs = Ok fs -> length fs = length vs.
Proof.
  revert fs. induction vs as [|v vs IH]; intros fs; cbn [obj_floats].
  - now intros [= <-].
  - destruct v as [s|z|f]; [discriminate| |];
      (destruct (obj_floats vs) as [r|e]; cbn [py_bind]; [|discriminate];
       intros [= <-]; cbn [length]; now rewrite (IH r)).
Qed.

Lemma as_floats_length s fs : as_floats s = Ok fs -> length fs = series_len s.
Proof.
  destruct s as [vs|vs|vs]; cbn [as_floats series_len].
  - apply obj_floats_length.
  - intros [= <-]. apply length_map.
  - now intros [= <-].
Qed.

Lemma eq_label_length s label : length (eq_label s label) = series_len s.
Proof. destruct s; cbn [eq_label series_len]; apply length_map. Qed.

Lemma times_array_length bs us n :
  length bs = n -> length us = n -> length (times_array bs us) = n.
Proof. intros Hb Hu. unfold times_array. rewrite length_zip_with. lia. Qed.

Lemma plus_length xs ys n :
  length xs = n -> length ys = n -> length (plus xs ys) = n.
Proof. intros Hb Hu. unfold plus. rewrite length_zip_with. lia. Qed.

Lemma minus_length xs ys n :
  length xs = n -> length ys = n -> length (minus xs ys) = n.
Proof. intros Hb Hu. unfold minus. rewrite length_zip_with. lia. Qed.

Lemma scaled_length xs c : length (scaled xs c) = length xs.
Proof. apply length_map. Qed.

(** The frame the generator leaves, from the four columns it read. *)
Lemma generate_inversion draws data data' :
  generate_synthetic_targets draws data = Ok data' ->
  exists waste m p c moisture ph carbon,
    get_column data "Waste_Type" = Ok waste
    /\ get_column data "Moisture_Content" = Ok m /\ as_floats m = Ok moisture
    /\ get_column data "pH_Level" = Ok p /\ as_floats p = Ok ph
    /\ get_column data "Carbon_Content" = Ok c /\ as_floats c = Ok carbon
    /\ data' = set_column
                 (set_column
                    (set_column data "Nitrogen_pct"
                       (SFloat64 (nitrogen_column draws waste moisture ph)))
                    "Phosphorus_pct" (SFloat64 (phosphorus_column draws waste carbon)))
                 "Potassium_pct" (SFloat64 (potassium_column draws waste moisture)).
Proof. apply generate_reads. Qed.

End GeneratorFacts.

Module GeneratorErrors.
Import Pandas Utils App SyntheticFacts.

(** A column arithmetic can be done on: no entry of it is a string. *)
Definition arithmetic (s : Series) : bool :=
  match s with
  | SObject vs => forallb (fun v => match v with OStr _ => false | _ => true end) vs
  | _ => true
  end.

(** [col] is in the table and arithmetic can be done on it. *)
Definition usable (data : DataFrame) (col : string) : bool :=
  match dict_get (columns data) col with
  | Some s => arithmetic s
  | None => false
  end.

Lemma obj_floats_ok vs :
  forallb (fun v => match v with OStr _ => false | _ => true end) vs = true
  <-> exists fs, obj_floats vs = Ok fs.
Proof.
  induction vs as [|v vs IH]; cbn [forallb obj_floats].
  - split; eauto.
  - destruct v as [s|z|f]; cbn [andb].
    + split; [discriminate|]. intros [fs H]. discriminate.
    + rewrite IH. split; intros [fs H].
      * rewrite H. cbn [py_bind]. eauto.
      * destruct (obj_floats vs); [eauto|discriminate].
    + rewrite IH. split; intros [fs H].
      * rewrite H. cbn [py_bind]. eauto.
      * destruct (obj_floats vs); [eauto|discriminate].
Qed.

Lemma arithmetic_ok s : arithmetic s = true <-> exists fs, as_floats s = Ok fs.
Proof.
  destruct s as [vs|vs|vs]; cbn [arithmetic as_floats].
  - apply obj_floats_ok.
  - split; eauto.
  - split; eauto.
Qed.

Lemma usable_floats data col :
  usable data col = true ->
  exists s fs, get_column data col = Ok s /\ as_floats s = Ok fs.
Proof.
  unfold usable, get_column.
  destruct (dict_get (columns data) col) as [s|]; [|discriminate].
  intros [fs H]%arithmetic_ok. eauto.
Qed.

Lemma absent_keyerror data col :
  has_column data col = false -> get_column data col = Raise (KeyError col).
Proof.
  unfold has_column, dict_mem, get_column.
  now destruct (dict_get (columns data) col).
Qed.

Lemma present_column data col :
  has_column data col = true -> exists s, get_column data col = Ok s.
Proof.
  unfold has_column, dict_mem, get_column.
  destruct (dict_get (columns data) col); [eauto|discriminate].
Qed.

End GeneratorErrors.

(** X6.  The generator returns exactly when the table has [Waste_Type] and
    has [Moisture_Content], [pH_Level] and [Carbon_Content] without string
    entries.  A missing column is reported by a [KeyError] with its name,
    for the first one missing in the order in which the columns are read:
    [Waste_Type], [Moisture_Content], [pH_Level], [Carbon_Content]. *)
Theorem X6_generator_errors :
  forall (draws : Utils.Draws) (data : Pandas.DataFrame),
    ((exists data', Utils.generate_synthetic_targets draws data = Ok data')
     <-> Pandas.has_column data "Waste_Type" = true
         /\ GeneratorErrors.usable data "Moisture_Content" = true
         /\ GeneratorErrors.usable data "pH_Level" = true
         /\ GeneratorErrors.usable data "Carbon_Content" = true)
    /\ (Pandas.has_column data "Waste_Type" = false ->
        Utils.generate_synthetic_targets draws data = Raise (KeyError "Waste_Type"))
    /\ (Pandas.has_column data "Waste_Type" = true ->
        Pandas.has_column data "Moisture_Content" = false ->
        Utils.generate_synthetic_targets draws data
        = Raise (KeyError "Moisture_Content"))
    /\ (Pandas.has_column data "Waste_Type" = true ->
        GeneratorErrors.usable data "Moisture_Content" = true ->
        Pandas.has_column data "pH_Level" = false ->
        Utils.generate_synthetic_targets draws data = Raise (KeyError "pH_Level"))
    /\ (Pandas.has_column data "Waste_Type" = true ->
        GeneratorErrors.usable data "Moisture_Content" = true ->
        GeneratorErrors.usable data "pH_Level" = true ->
        Pandas.has_column data "Carbon_Content" = false ->
        Utils.generate_synthetic_targets draws data = Raise (KeyError "Carbon_Content")).
Proof.
  intros draws data. rewrite SyntheticFacts.generate_closed_form.
  split; [split|].
  - intros [data' H].
    destruct (Pandas.get_column data "Waste_Type") as [w|e] eqn:Ew; [|discriminate].
    cbn [py_bind] in H.
    unfold GeneratorErrors.usable, Pandas.has_column, dict_mem.
    unfold Pandas.get_column in *.
    destruct (dict_get (Pandas.columns data) "Waste_Type"); [|discriminate].
    destruct (dict_get (Pandas.columns data) "Moisture_Content") as [m|]; [|discriminate].
    cbn [py_bind] in H.
    destruct (Pandas.as_floats m) as [mv|e] eqn:Em; [|discriminate]. cbn [py_bind] in H.
    destruct (dict_get (Pandas.columns data) "pH_Level") as [p|]; [|discriminate].
    cbn [py_bind] in H.
    destruct (Pandas.as_floats p) as [pv|e] eqn:Ep; [|discriminate]. cbn [py_bind] in H.
    destruct (dict_get (Pandas.columns data) "Carbon_Content") as [c|]; [|discriminate].
    cbn [py_bind] in H.
    destruct (Pandas.as_floats c) as [cv|e] eqn:Ec; [|discriminate].
    repeat split; apply GeneratorErrors.arithmetic_ok; eauto.
  - intros (Hw & Hm & Hp & Hc).
    destruct (GeneratorErrors.present_column _ _ Hw) as [w ->].
    destruct (GeneratorErrors.usable_floats _ _ Hm) as (m & mv & -> & Em).
    destruct (GeneratorErrors.usable_floats _ _ Hp) as (p & pv & -> & Ep).
    destruct (GeneratorErrors.usable_floats _ _ Hc) as (c & cv & -> & Ec).
    cbn [py_bind]. rewrite Em. cbn [py_bind]. rewrite Ep. cbn [py_bind].
    rewrite Ec. cbn [py_bind]. eauto.
  - split; [|split; [|split]].
    + intros Hw. now rewrite (GeneratorErrors.absent_keyerror _ _ Hw).
    + intros Hw Hm. destruct (GeneratorErrors.present_column _ _ Hw) as [w ->].
      cbn [py_bind]. now rewrite (GeneratorErrors.absent_keyerror _ _ Hm).
    + intros Hw Hm Hp. destruct (GeneratorErrors.present_column _ _ Hw) as [w ->].
      destruct (GeneratorErrors.usable_floats _ _ Hm) as (m & mv & -> & Em).
      cbn [py_bind]. rewrite Em. cbn [py_bind].
      now rewrite (GeneratorErrors.absent_keyerror _ _ Hp).
    + intros Hw Hm Hp Hc. destruct (GeneratorErrors.present_column _ _ Hw) as [w ->].
      destruct (GeneratorErrors.usable_floats _ _ Hm) as (m & mv & -> & Em).
      destruct (GeneratorErrors.usable_floats _ _ Hp) as (p & pv & -> & Ep).
      cbn [py_bind]. rewrite Em. cbn [py_bind]. rewrite Ep. cbn [py_bind].
      now rewrite (GeneratorErrors.absent_keyerror _ _ Hc).
Qed.

Lemma X6_generator_errors_witness :
  Utils.generate_synthetic_targets (Utils.mkDraws [2.0%float] [1.0%float] [0.5%float] [1.5%float])
    (Pandas.mkDataFrame 1
       [("Waste_Type", Pandas.SObject [Pandas.OStr "Food"]);
        ("Moisture_Content", Pandas.SFloat64 [55.0%float])])
  = Raise (KeyError "pH_Level").
Proof.
  refine (proj1 (proj2 (proj2 (proj2 (X6_generator_errors _ _)))) _ _ _);
    vm_compute; reflexivity.
Defined.

(** X7.  Running the generator again on the table it returned, with the
    same draws, returns that table unchanged: the synthesized columns are
    computed from the feature columns only and are written back in place. *)
Theorem X7_generator_repeatable :
  forall (draws : Utils.Draws) (data data' : Pandas.DataFrame),
    Utils.generate_synthetic_targets draws data = Ok data' ->
    Utils.generate_synthetic_targets draws data' = Ok data'.
Proof.
  intros draws data data' H.
  destruct (GeneratorFacts.generate_inversion _ _ _ H)
    as (waste & m & p & c & moisture & ph & carbon
        & Hw & Hm & Em & Hp & Ep & Hc & Ec & Hd).
  destruct (SyntheticFacts.generate_result _ _ _ H)
    as (waste' & moisture' & ph' & carbon' & Hn' & Hp' & Hk' & _ & _).
  assert (Hsame : forall col, ~ In col App.target_variables ->
            Pandas.get_column data' col = Pandas.get_column data col).
  { intros col Hcol. rewrite Hd.
    unfold App.target_variables in Hcol. cbn [In] in Hcol.
    rewrite !SyntheticFacts.get_column_set_ne; [reflexivity|intros <-; tauto..]. }
  assert (Hnot : forall col, In col ["Waste_Type"; "Moisture_Content"; "pH_Level"; "Carbon_Content"] ->
            ~ In col App.target_variables).
  { intros col Hin Ht. unfold App.target_variables in Ht. cbn [In] in Hin, Ht.
    repeat (destruct Hin as [<-|Hin]; [repeat (destruct Ht as [Ht|Ht]; [discriminate|]); exact Ht|]).
    exact Hin. }
  rewrite SyntheticFacts.generate_closed_form.
  rewrite !Hsame by (apply Hnot; cbn; tauto).
  rewrite Hw, Hm. cbn [py_bind]. rewrite Em. cbn [py_bind].
  rewrite Hp. cbn [py_bind]. rewrite Ep. cbn [py_bind].
  rewrite Hc. cbn [py_bind]. rewrite Ec. cbn [py_bind]. f_equal.
  assert (Hget : forall col s, dict_get (Pandas.columns data') col = Some s ->
            Pandas.set_column data' col s = data').
  { intros col s. apply AppFacts.set_column_same. }
  assert (En : dict_get (Pandas.columns data') "Nitrogen_pct"
               = Some (Pandas.SFloat64 (Utils.nitrogen_column draws waste moisture ph))).
  { rewrite Hd. cbn [Pandas.set_column Pandas.columns].
    rewrite !dict_get_set_ne by discriminate. apply dict_get_set_eq. }
  assert (Eph : dict_get (Pandas.columns data') "Phosphorus_pct"
               = Some (Pandas.SFloat64 (Utils.phosphorus_column draws waste carbon))).
  { rewrite Hd. cbn [Pandas.set_column Pandas.columns].
    rewrite dict_get_set_ne by discriminate. apply dict_get_set_eq. }
  assert (Ek : dict_get (Pandas.columns data') "Potassium_pct"
               = Some (Pandas.SFloat64 (Utils.potassium_column draws waste moisture))).
  { rewrite Hd. cbn [Pandas.set_column Pandas.columns]. apply dict_get_set_eq. }
  rewrite (Hget _ _ En), (Hget _ _ Eph). exact (Hget _ _ Ek).
Qed.

Lemma X7_generator_repeatable_witness :
  let draws := Utils.mkDraws [2.0; 3.0]%float [1.0; 1.5]%float
                             [0.5; 0.9]%float [1.5; 2.0]%float in
  let data := Pandas.mkDataFrame 2
                [("Waste_Type", Pandas.SObject [Pandas.OStr "Food"; Pandas.OStr "Garden"]);
                 ("Moisture_Content", Pandas.SFloat64 [60.0; 40.0]%float);
                 ("pH_Level", Pandas.SFloat64 [6.5; 6.5]%float);
                 ("Carbon_Content", Pandas.SInt64 [35; 30])] in
  exists data', Utils.generate_synthetic_targets draws data' = Ok data'.
Proof.
  intros draws data.
  destruct (SyntheticFacts.generate_returns draws data) as [data' H].
  - vm_compute. reflexivity.
  - exists data'. exact (X7_generator_repeatable draws data data' H).
Defined.

(** X8.  On a table in which every column has one entry for each row, and
    with draws of one entry for each row, the table the generator returns
    again has one entry for each row in every column, the three synthesized
    ones included, and the same number of rows. *)
Theorem X8_generator_keeps_shape :
  forall (draws : Utils.Draws) (data data' : Pandas.DataFrame),
    GeneratorFacts.well_formed data ->
    GeneratorFacts.draws_for draws (Pandas.nrows data) ->
    Utils.generate_synthetic_targets draws data = Ok data' ->
    Pandas.nrows data' = Pandas.nrows data
    /\ GeneratorFacts.well_formed data'
    /\ forall target s,
         In target App.target_variables ->
         dict_get (Pandas.columns data') target = Some s ->
         Pandas.series_len s = Pandas.nrows data.
Proof.
  intros draws data data' Hwf (Hd1 & Hd2 & Hd3 & Hd4) H.
  destruct (GeneratorFacts.generate_inversion _ _ _ H)
    as (waste & m & p & c & moisture & ph & carbon
        & Hw & Hm & Em & Hp & Ep & Hc & Ec & Hd).
  pose proof (GeneratorFacts.get_column_len _ _ _ Hwf Hw) as Lw.
  pose proof (GeneratorFacts.get_column_len _ _ _ Hwf Hm) as Lm.
  pose proof (GeneratorFacts.get_column_len _ _ _ Hwf Hp) as Lp.
  pose proof (GeneratorFacts.get_column_len _ _ _ Hwf Hc) as Lc.
  apply GeneratorFacts.as_floats_length in Em, Ep, Ec.
  assert (Ln : length (Utils.nitrogen_column draws waste moisture ph) = Pandas.nrows data).
  { unfold Utils.nitrogen_column. rewrite length_map.
    apply GeneratorFacts.minus_length; [|rewrite GeneratorFacts.scaled_length; congruence].
    apply GeneratorFacts.plus_length; [|rewrite GeneratorFacts.scaled_length; congruence].
    apply GeneratorFacts.plus_length; apply GeneratorFacts.times_array_length;
      rewrite ?GeneratorFacts.eq_label_length; assumption. }
  assert (Lph : length (Utils.phosphorus_column draws waste carbon) = Pandas.nrows data).
  { unfold Utils.phosphorus_column. rewrite length_map.
    apply GeneratorFacts.plus_length; [|rewrite GeneratorFacts.scaled_length; congruence].
    apply GeneratorFacts.times_array_length;
      rewrite ?GeneratorFacts.eq_label_length; assumption. }
  assert (Lk : length (Utils.potassium_column draws waste moisture) = Pandas.nrows data).
  { unfold Utils.potassium_column. rewrite length_map.
    apply GeneratorFacts.plus_length; [|rewrite GeneratorFacts.scaled_length; congruence].
    apply GeneratorFacts.times_array_length;
      rewrite ?GeneratorFacts.eq_label_length; assumption. }
  assert (Hwf' : GeneratorFacts.well_formed data').
  { rewrite Hd. repeat apply GeneratorFacts.set_column_well_formed;
      try assumption; cbn [Pandas.series_len Pandas.set_column Pandas.nrows]; assumption. }
  assert (Hn : Pandas.nrows data' = Pandas.nrows data) by (rewrite Hd; reflexivity).
  split; [exact Hn|]. split; [exact Hwf'|].
  intros target s _ Hs. rewrite <- Hn.
  apply (GeneratorFacts.get_column_len data' target s Hwf').
  unfold Pandas.get_column. now rewrite Hs.
Qed.

Lemma X8_generator_keeps_shape_witness :
  let draws := Utils.mkDraws [2.0; 3.0]%float [1.0; 1.5]%float
                             [0.5; 0.9]%float [1.5; 2.0]%float in
  let data := Pandas.mkDataFrame 2
                [("Waste_Type", Pandas.SObject [Pandas.OStr "Paper"; Pandas.OStr "Food"]);
                 ("Moisture_Content", Pandas.SFloat64 [20.0; 70.0]%float);
                 ("pH_Level", Pandas.SFloat64 [7.5; 5.5]%float);
                 ("Carbon_Content", Pandas.SFloat64 [45.0; 30.0]%float)] in
  exists data', Utils.generate_synthetic_targets draws data = Ok data'
                /\ Pandas.nrows data' = 2%nat.
Proof.
  intros draws data.
  destruct (SyntheticFacts.generate_returns draws data) as [data' H].
  - vm_compute. reflexivity.
  - exists data'. split; [exact H|].
    refine (proj1 (X8_generator_keeps_shape draws data data' _ _ H)).
    + repeat constructor.
    + repeat split.
Defined.

(** ** The categorical conversion: repetition, shape, fully labelled columns *)
Module ConvertFacts.
Import Pandas App AppFacts.

Lemma dict_set_names {V : Type} (d : list (string * V)) (k : string) (v : V) :
  map fst (dict_set d k v)
  = if dict_mem d k then map fst d else map fst d ++ [k].
Proof.
  unfold dict_mem. induction d as [|[k' v'] d IH]; cbn [dict_set dict_get map fst app].
  - reflexivity.
  - destruct (String.eqb_spec k' k) as [->|N]; cbn [map fst]; [reflexivity|].
    rewrite IH. now destruct (dict_get d k).
Qed.

Lemma series_map_len mapping vs : series_len (series_map mapping vs) = length vs.
Proof.
  destruct mapping as [d|d]; cbn [series_map series_len].
  - apply length_map.
  - destruct (forallb _ _); cbn [series_len]; now rewrite !length_map.
Qed.

Lemma series_map_numeric mapping vs : is_object (series_map mapping vs) = false.
Proof.
  destruct mapping as [d|d]; cbn [series_map]; [reflexivity|].
  now destruct (forallb _ _).
Qed.

Lemma convert_step_names data entry :
  map fst (columns (convert_step data entry)) = map fst (columns data).
Proof.
  destruct entry as [c m]. unfold convert_step.
  destruct (dict_get (columns data) c) as [[vs|vs|vs]|] eqn:E; try reflexivity.
  destruct (existsb (isin_keys m) vs); [|reflexivity].
  cbn [set_column columns]. rewrite dict_set_names. unfold dict_mem. now rewrite E.
Qed.

Lemma convert_step_well_formed data entry :
  GeneratorFacts.well_formed data -> GeneratorFacts.well_formed (convert_step data entry).
Proof.
  intros Hwf. destruct entry as [c m]. unfold convert_step.
  destruct (dict_get (columns data) c) as [[vs|vs|vs]|] eqn:E; try exact Hwf.
  destruct (existsb (isin_keys m) vs); [|exact Hwf].
  apply GeneratorFacts.set_column_well_formed; [exact Hwf|].
  rewrite series_map_len.
  apply (GeneratorFacts.get_column_len data c (SObject vs) Hwf).
  unfold get_column. now rewrite E.
Qed.

Lemma fold_invariant {A S : Type} (P : S -> Prop) (step : S -> A -> S) (l : list A) (s : S) :
  (forall s' a, P s' -> P (step s' a)) -> P s -> P (fold_left step l s).
Proof.
  intros Hstep. revert s. induction l as [|a l IH]; intros s Hs; [exact Hs|].
  cbn [fold_left]. apply IH. now apply Hstep.
Qed.

(** A converted column is left alone by a second conversion. *)
Lemma converted_stable data c m :
  In (c, m) CATEGORICAL_MAPPINGS ->
  convert_step (convert_categorical_to_numeric data) (c, m)
  = convert_categorical_to_numeric data.
Proof.
  intros Hin. unfold convert_step at 1.
  rewrite (convert_get _ _ data Hin). unfold converted.
  destruct (dict_get (columns data) c) as [[vs|vs|vs]|]; try reflexivity.
  destruct (existsb (isin_keys m) vs) eqn:E.
  - pose proof (series_map_numeric m vs) as Hn.
    destruct (series_map m vs); [discriminate|reflexivity..].
  - now rewrite E.
Qed.

(** No value of the label dictionaries is NaN. *)
Definition values_are_numbers (m : Mapping) : bool :=
  match m with
  | MFloat d => forallb (fun e => negb (F64.is_nan (snd e))) d
  | MInt _ => true
  end.

Lemma mappings_values :
  forallb (fun e => values_are_numbers (snd e)) CATEGORICAL_MAPPINGS = true.
Proof. vm_compute. reflexivity. Qed.

Lemma dict_get_value {V : Type} (P : V -> bool) (d : list (string * V)) k v :
  forallb (fun e => P (snd e)) d = true -> dict_get d k = Some v -> P v = true.
Proof.
  intros Hall Hget. apply GeneratorFacts.dict_get_elem in Hget.
  rewrite forallb_forall in Hall. exact (Hall _ Hget).
Qed.

Lemma labelled_no_nan m vs :
  values_are_numbers m = true ->
  forallb (isin_keys m) vs = true ->
  any_isna (series_map m vs) = false.
Proof.
  intros Hv Hall. destruct m as [d|d]; cbn [series_map].
  - cbn [any_isna]. apply not_true_is_false. intros C.
    apply existsb_exists in C as (x & Hx & Hnan).
    apply in_map_iff in Hx as (v & <- & Hin).
    rewrite forallb_forall in Hall. specialize (Hall v Hin).
    destruct v as [s|z|f]; try discriminate.
    unfold isin_keys, mapping_has, dict_mem in Hall. cbn [lookup_label] in Hnan.
    destruct (dict_get d s) as [x|] eqn:E; [|discriminate Hall]. cbn [default] in Hnan.
    pose proof (dict_get_value (fun x => negb (F64.is_nan x)) d s x Hv E) as Hx.
    unfold id in Hnan. cbn beta in Hx. rewrite Hnan in Hx. discriminate.
  - assert (forallb (fun o : option Z => match o with Some _ => true | None => false end)
              (map (lookup_label d) vs) = true) as ->; [|reflexivity].
    apply forallb_forall. intros o (v & <- & Hin)%in_map_iff.
    rewrite forallb_forall in Hall. specialize (Hall v Hin).
    destruct v as [s|z|f]; try discriminate.
    unfold isin_keys, mapping_has, dict_mem in Hall. cbn [lookup_label].
    now destruct (dict_get d s).
Qed.

End ConvertFacts.

(** X9.  Converting twice is converting once: after a conversion every
    column of the mapping table is numeric or has no label of its mapping,
    so a second conversion changes nothing. *)
Theorem X9_conversion_idempotent :
  forall data : Pandas.DataFrame,
    App.convert_categorical_to_numeric (App.convert_categorical_to_numeric data)
    = App.convert_categorical_to_numeric data.
Proof.
  intros data.
  apply (AppFacts.fold_left_fixed App.convert_step App.CATEGORICAL_MAPPINGS).
  intros [c m] Hin. now apply ConvertFacts.converted_stable.
Qed.

(** X10.  The conversion neither adds, removes nor reorders columns and
    keeps the number of rows; on a table with one entry for each row in
    every column, the result is again such a table. *)
Theorem X10_conversion_keeps_shape :
  forall data : Pandas.DataFrame,
    map fst (Pandas.columns (App.convert_categorical_to_numeric data))
    = map fst (Pandas.columns data)
    /\ Pandas.nrows (App.convert_categorical_to_numeric data) = Pandas.nrows data
    /\ (GeneratorFacts.well_formed data ->
        GeneratorFacts.well_formed (App.convert_categorical_to_numeric data)).
Proof.
  intros data. unfold App.convert_categorical_to_numeric. split; [|split].
  - apply (ConvertFacts.fold_invariant
             (fun d => map fst (Pandas.columns d) = map fst (Pandas.columns data))).
    + intros d e Hd. now rewrite ConvertFacts.convert_step_names.
    + reflexivity.
  - apply (AppFacts.loop_nrows App.convert_step AppFacts.convert_step_nrows).
  - intros Hwf. apply (ConvertFacts.fold_invariant GeneratorFacts.well_formed).
    + intros d e. apply ConvertFacts.convert_step_well_formed.
    + exact Hwf.
Qed.

Lemma X10_conversion_keeps_shape_witness :
  let data := Pandas.mkDataFrame 2
                [("pH_Level", Pandas.SObject [Pandas.OStr "High"; Pandas.OStr "Low"]);
                 ("Notes", Pandas.SObject [Pandas.OStr "a"; Pandas.OStr "b"])] in
  GeneratorFacts.well_formed (App.convert_categorical_to_numeric data).
Proof.
  intros data.
  refine (proj2 (proj2 (X10_conversion_keeps_shape data)) _).
  repeat constructor.
Defined.

(** X11.  A column of the mapping table in which every entry is a label of
    its mapping (and there is at least one entry) comes out as a numeric
    column of the same length with no missing entry. *)
Theorem X11_labelled_column_fully_converted :
  forall (data : Pandas.DataFrame) (col : string) (mapping : Pandas.Mapping)
         (vs : list Pandas.Obj),
    In (col, mapping) App.CATEGORICAL_MAPPINGS ->
    dict_get (Pandas.columns data) col = Some (Pandas.SObject vs) ->
    vs <> [] ->
    forallb (Pandas.isin_keys mapping) vs = true ->
    exists s,
      dict_get (Pandas.columns (App.convert_categorical_to_numeric data)) col = Some s
      /\ Pandas.is_object s = false
      /\ Pandas.any_isna s = false
      /\ Pandas.series_len s = length vs.
Proof.
  intros data col mapping vs Hin Hget Hne Hall.
  exists (Pandas.series_map mapping vs).
  assert (existsb (Pandas.isin_keys mapping) vs = true) as Hex.
  { destruct vs as [|v vs]; [contradiction|]. cbn [forallb existsb] in *.
    apply andb_prop in Hall as [-> _]. reflexivity. }
  split.
  { rewrite (AppFacts.convert_get _ _ _ Hin), Hget. cbn [AppFacts.converted].
    now rewrite Hex. }
  split; [apply ConvertFacts.series_map_numeric|].
  split; [|apply ConvertFacts.series_map_len].
  apply ConvertFacts.labelled_no_nan; [|exact Hall].
  pose proof ConvertFacts.mappings_values as Hv. rewrite forallb_forall in Hv.
  exact (Hv (col, mapping) Hin).
Qed.

Lemma X11_labelled_column_fully_converted_witness :
  let data := Pandas.mkDataFrame 2
                [("Degradation_Rate", Pandas.SObject [Pandas.OStr "Fast"; Pandas.OStr "Slow"])] in
  exists s,
    dict_get (Pandas.columns (App.convert_categorical_to_numeric data)) "Degradation_Rate"
    = Some s
    /\ Pandas.is_object s = false
    /\ Pandas.any_isna s = false
    /\ Pandas.series_len s = 2%nat.
Proof.
  intros data.
  apply (X11_labelled_column_fully_converted data "Degradation_Rate"
           (Pandas.MFloat [("Slow", 0.5); ("Medium", 1.0); ("Fast", 2.0)]%float)
           [Pandas.OStr "Fast"; Pandas.OStr "Slow"]).
  - cbn. tauto.
  - reflexivity.
  - discriminate.
  - reflexivity.
Defined.

(** ** Missing data: what the table is like afterwards *)
Module HandledFacts.
Import Pandas App AppFacts NormalizeFacts.

(** There is one NaN. *)
Lemma nan_unique (x : float) : F64.is_nan x = true -> x = F64.nan.
Proof.
  intros H. apply FloatOrder.is_nan_spec in H.
  rewrite <- (SF2Prim_Prim2SF x), H. reflexivity.
Qed.

Lemma fillna_nan (s : Series) (m : float) :
  is_object s = false -> F64.is_nan m = true -> fillna s m = s.
Proof.
  intros Ho Hm. destruct s as [vs|vs|vs]; [discriminate|reflexivity|].
  cbn [fillna]. f_equal. rewrite <- (map_id vs) at 2. apply map_ext. intros v.
  destruct (F64.is_nan v) eqn:E; [|reflexivity].
  now rewrite (nan_unique _ E), (nan_unique _ Hm).
Qed.

Lemma fillna_number (s : Series) (m : float) :
  is_object s = false -> F64.is_nan m = false -> any_isna (fillna s m) = false.
Proof.
  intros Ho Hm. destruct s as [vs|vs|vs]; [discriminate|reflexivity|].
  cbn [fillna any_isna]. apply not_true_is_false. intros C.
  apply existsb_exists in C as (x & Hx & Hnan).
  apply in_map_iff in Hx as (v & <- & _).
  destruct (F64.is_nan v) eqn:E; congruence.
Qed.

Lemma fillna_len (s : Series) (m : float) : series_len (fillna s m) = series_len s.
Proof. destruct s; cbn [fillna series_len]; now rewrite ?length_map. Qed.

Lemma fillna_numeric (s : Series) (m : float) : is_object (fillna s m) = is_object s.
Proof. now destruct s. Qed.

Lemma broadcast_len n d : series_len (broadcast n d) = n.
Proof. destruct d; cbn [broadcast series_len]; apply repeat_length. Qed.

Section WithNumeric.
Context {num : Numeric}.

Lemma numeric_of_numeric (s : Series) : is_object (numeric_of s) = false.
Proof.
  destruct s as [vs|vs|vs]; cbn [numeric_of]; try reflexivity.
  now destruct (forallb is_int (map coerce vs)).
Qed.

Lemma numeric_of_len (s : Series) : series_len (numeric_of s) = series_len s.
Proof.
  destruct s as [vs|vs|vs]; cbn [numeric_of]; try reflexivity.
  destruct (forallb is_int (map coerce vs)); cbn [series_len]; now rewrite !length_map.
Qed.

Lemma numeric_of_fixed (s : Series) : is_object s = false -> numeric_of s = s.
Proof. destruct s; [discriminate|reflexivity..]. Qed.

Lemma coerced_is_numeric (s : Series) : is_object (coerced s) = false.
Proof.
  unfold coerced. destruct (any_isna (numeric_of s)).
  - rewrite fillna_numeric. apply numeric_of_numeric.
  - apply numeric_of_numeric.
Qed.

Lemma coerced_len (s : Series) : series_len (coerced s) = series_len s.
Proof.
  unfold coerced. destruct (any_isna (numeric_of s)).
  - rewrite fillna_len. apply numeric_of_len.
  - apply numeric_of_len.
Qed.

(** A missing entry stays only where the mean is no number. *)
Lemma coerced_missing (s : Series) :
  any_isna (coerced s) = true ->
  any_isna (numeric_of s) = true /\ F64.is_nan (mean (numeric_of s)) = true.
Proof.
  unfold coerced. destruct (any_isna (numeric_of s)) eqn:E; [|congruence].
  intros H. split; [reflexivity|].
  destruct (F64.is_nan (mean (numeric_of s))) eqn:Em; [reflexivity|].
  rewrite (fillna_number _ _ (numeric_of_numeric s) Em) in H. discriminate.
Qed.

(** The filling of a coerced column changes nothing any more. *)
Lemma coerced_filled (s : Series) :
  any_isna (coerced s) = true -> fillna (coerced s) (mean (coerced s)) = coerced s.
Proof.
  intros H. destruct (coerced_missing _ H) as [Hna Hm].
  assert (coerced s = numeric_of s) as E.
  { unfold coerced. rewrite Hna. apply fillna_nan; [apply numeric_of_numeric|exact Hm]. }
  rewrite E. apply fillna_nan; [apply numeric_of_numeric|exact Hm].
Qed.

(** The column of an expected name after [handle_missing_data]. *)
Lemma handled_default data col d :
  In (col, d) DEFAULT_VALUES ->
  exists s, dict_get (columns (handle_missing_data data)) col = Some s
            /\ series_len s = match dict_get (columns data) col with
                              | Some s0 => series_len s0
                              | None => nrows data
                              end.
Proof.
  intros Hin. rewrite handle_missing_get. cbn zeta.
  rewrite (defaults_get _ _ Hin). unfold filled.
  destruct (dict_get (columns data) col) as [s0|];
    destruct (existsb (String.eqb col) numeric_columns); cbn [option_map];
    eexists; split; try reflexivity; rewrite ?coerced_len, ?broadcast_len; reflexivity.
Qed.

Lemma numeric_is_default col :
  In col numeric_columns -> exists d, In (col, d) DEFAULT_VALUES.
Proof.
  unfold numeric_columns, DEFAULT_VALUES. cbn [In].
  intros H. repeat (destruct H as [<-|H]; [eexists; tauto|]). destruct H.
Qed.

Lemma handled_numeric data col :
  In col numeric_columns ->
  exists s0, dict_get (columns (handle_missing_data data)) col = Some (coerced s0).
Proof.
  intros Hin. destruct (numeric_is_default _ Hin) as [d Hd].
  rewrite handle_missing_get. cbn zeta. rewrite (defaults_get _ _ Hd).
  assert (existsb (String.eqb col) numeric_columns = true) as ->.
  { apply existsb_exists. exists col. split; [exact Hin|apply String.eqb_refl]. }
  unfold filled. destruct (dict_get (columns data) col); cbn [option_map]; eauto.
Qed.

Lemma handled_present data col s0 :
  In col numeric_columns ->
  dict_get (columns data) col = Some s0 ->
  dict_get (columns (handle_missing_data data)) col = Some (coerced s0).
Proof.
  intros Hin Hs. rewrite handle_missing_get. cbn zeta. rewrite Hs.
  assert (existsb (String.eqb col) numeric_columns = true) as ->.
  { apply existsb_exists. exists col. split; [exact Hin|apply String.eqb_refl]. }
  now destruct (dict_get DEFAULT_VALUES col).
Qed.

Lemma handled_has data col d :
  In (col, d) DEFAULT_VALUES -> has_column (handle_missing_data data) col = true.
Proof.
  intros Hin. destruct (handled_default data col d Hin) as (s & Hs & _).
  unfold has_column, dict_mem. now rewrite Hs.
Qed.

(** A second pass over a handled table changes nothing. *)
Lemma handled_fixed data :
  handle_missing_data (handle_missing_data data) = handle_missing_data data.
Proof.
  set (out := handle_missing_data data).
  unfold handle_missing_data at 1. cbn zeta.
  rewrite (fold_left_fixed add_missing_column DEFAULT_VALUES out).
  - apply fold_left_fixed. intros c Hc.
    destruct (handled_numeric data c Hc) as [s0 Hs]. fold out in Hs.
    unfold coerce_step, has_column, dict_mem, coerce_column, get_column.
    rewrite Hs. cbn [py_bind]. rewrite to_numeric_ok. cbn [py_bind].
    rewrite (numeric_of_fixed _ (coerced_is_numeric s0)).
    rewrite (set_column_same _ _ _ Hs).
    destruct (any_isna (coerced s0)) eqn:E; [|reflexivity].
    rewrite (coerced_filled _ E). now rewrite (set_column_same _ _ _ Hs).
  - intros [c d] Hin. unfold add_missing_column. subst out.
    now rewrite (handled_has data c d Hin).
Qed.

Lemma convert_handled data :
  convert_categorical_to_numeric (handle_missing_data data) = handle_missing_data data.
Proof.
  apply fold_left_fixed. intros [c m] Hin.
  assert (In c numeric_columns) as Hc.
  { unfold CATEGORICAL_MAPPINGS in Hin. unfold numeric_columns. cbn [In] in *.
    repeat (destruct Hin as [Hin|Hin]; [injection Hin as <- <-; tauto|]).
    destruct Hin. }
  destruct (handled_numeric data c Hc) as [s0 Hs].
  unfold convert_step. rewrite Hs.
  pose proof (coerced_is_numeric s0) as Hn.
  destruct (coerced s0); [discriminate|reflexivity..].
Qed.

End WithNumeric.

End HandledFacts.

(** X12.  After [handle_missing_data], whatever the table was: the seven
    expected columns are all there, and each of the six numeric columns is a
    numeric column (int64 or float64, not [object]). *)
Theorem X12_handled_table_has_features :
  forall (num : Pandas.Numeric) (data : Pandas.DataFrame),
    Forall (fun col => Pandas.has_column (App.handle_missing_data data) col = true)
      (map fst App.DEFAULT_VALUES)
    /\ Forall (fun col => exists s,
                 dict_get (Pandas.columns (App.handle_missing_data data)) col = Some s
                 /\ Pandas.is_object s = false)
         App.numeric_columns.
Proof.
  intros num data. split.
  - apply Forall_forall. intros col Hin%list_elem_of_In.
    apply in_map_iff in Hin as ([c d] & <- & Hin).
    exact (HandledFacts.handled_has data c d Hin).
  - apply Forall_forall. intros col Hin%list_elem_of_In.
    destruct (HandledFacts.handled_numeric data col Hin) as [s0 Hs].
    exists (NormalizeFacts.coerced s0). split; [exact Hs|].
    apply HandledFacts.coerced_is_numeric.
Qed.

(** X13.  Handling missing data twice is handling it once, and so is the
    whole normalisation (conversion, then handling): a table that went
    through it is returned unchanged by a second pass, for any reading of
    numbers and any mean. *)
Theorem X13_normalisation_idempotent :
  forall (num : Pandas.Numeric) (data : Pandas.DataFrame),
    App.handle_missing_data (App.handle_missing_data data) = App.handle_missing_data data
    /\ App.normalize (App.normalize data) = App.normalize data.
Proof.
  intros num data. split; [apply HandledFacts.handled_fixed|].
  unfold App.normalize.
  rewrite HandledFacts.convert_handled. apply HandledFacts.handled_fixed.
Qed.

(** X14.  In a numeric column that was present, a missing entry is still
    there after [handle_missing_data] only when the mean of the column is
    itself no number (no entry could be read as a number): when the mean is
    a number, the column comes out without any missing entry. *)
Theorem X14_missing_entries_filled :
  forall (num : Pandas.Numeric) (data : Pandas.DataFrame) (col : string)
         (s0 : Pandas.Series),
    In col App.numeric_columns ->
    dict_get (Pandas.columns data) col = Some s0 ->
    exists s,
      dict_get (Pandas.columns (App.handle_missing_data data)) col = Some s
      /\ Pandas.series_len s = Pandas.series_len s0
      /\ (Pandas.any_isna s = true ->
          F64.is_nan (Pandas.mean (NormalizeFacts.numeric_of s0)) = true)
      /\ (F64.is_nan (Pandas.mean (NormalizeFacts.numeric_of s0)) = false ->
          Pandas.any_isna s = false).
Proof.
  intros num data col s0 Hin Hs.
  exists (NormalizeFacts.coerced s0).
  split; [now apply HandledFacts.handled_present|].
  split; [apply HandledFacts.coerced_len|]. split.
  - intros H. now apply HandledFacts.coerced_missing.
  - intros Hm. destruct (Pandas.any_isna (NormalizeFacts.coerced s0)) eqn:E; [|reflexivity].
    apply HandledFacts.coerced_missing in E as [_ E]. congruence.
Qed.

Lemma X14_missing_entries_filled_witness :
  let data := Pandas.mkDataFrame 3
                [("Carbon_Content",
                  Pandas.SObject [Pandas.OStr "30"; Pandas.OStr "n/a"; Pandas.OStr "40"])] in
  exists s,
    dict_get (Pandas.columns (@App.handle_missing_data Pandas.reference_numeric data))
      "Carbon_Content" = Some s
    /\ Pandas.any_isna s = false.
Proof.
  intros data.
  destruct (X14_missing_entries_filled Pandas.reference_numeric data "Carbon_Content"
              (Pandas.SObject [Pandas.OStr "30"; Pandas.OStr "n/a"; Pandas.OStr "40"]))
    as (s & Hs & _ & _ & Hfill).
  - cbn. tauto.
  - reflexivity.
  - exists s. split; [exact Hs|]. apply Hfill. vm_compute. reflexivity.
Defined.

(** ** Missing data: the shape of the table *)
Module ShapeFacts.
Import Pandas App AppFacts NormalizeFacts HandledFacts GeneratorFacts.

(** The expected columns a table lacks, in the order of the default table. *)
Definition absent (data : DataFrame) (entries : list (string * Obj)) : list string :=
  List.filter (fun col => negb (has_column data col)) (map fst entries).

Lemma add_missing_names data entry :
  map fst (columns (add_missing_column data entry))
  = map fst (columns data)
    ++ (if has_column data (fst entry) then [] else [fst entry]).
Proof.
  destruct entry as [c d]. unfold add_missing_column. cbn [fst].
  destruct (has_column data c) eqn:E; [now rewrite app_nil_r|].
  cbn [set_column columns]. rewrite ConvertFacts.dict_set_names.
  unfold has_column in E. now rewrite E.
Qed.

Lemma add_missing_has data entry col :
  fst entry <> col ->
  has_column (add_missing_column data entry) col = has_column data col.
Proof.
  intros N. unfold has_column, dict_mem. rewrite add_missing_get.
  destruct (String.eqb_spec (fst entry) col); [contradiction|reflexivity].
Qed.

Lemma first_loop_names (entries : list (string * Obj)) data :
  List.NoDup (map fst entries) ->
  map fst (columns (fold_left add_missing_column entries data))
  = map fst (columns data) ++ absent data entries.
Proof.
  revert data. induction entries as [|[c d] entries IH]; intros data Hnd.
  - cbn. now rewrite app_nil_r.
  - cbn [map fst] in Hnd. apply List.NoDup_cons_iff in Hnd as [Hc Hnd].
    cbn [fold_left]. rewrite (IH _ Hnd), add_missing_names. cbn [fst].
    rewrite <- app_assoc. f_equal. unfold absent. cbn [map fst List.filter].
    assert (List.filter (fun col => negb (has_column (add_missing_column data (c, d)) col))
              (map fst entries)
            = List.filter (fun col => negb (has_column data col)) (map fst entries)) as ->.
    { apply List.filter_ext_in. intros col Hin.
      rewrite add_missing_has; [reflexivity|]. cbn [fst]. intros ->. contradiction. }
    now destruct (has_column data c).
Qed.

Lemma dict_set_twice {V : Type} (d : list (string * V)) (k : string) (v1 v2 : V) :
  dict_set (dict_set d k v1) k v2 = dict_set d k v2.
Proof.
  induction d as [|[k' v'] d IH]; cbn [dict_set].
  - now rewrite String.eqb_refl.
  - destruct (String.eqb k' k) eqn:Ek; cbn [dict_set].
    + now rewrite String.eqb_refl.
    + now rewrite Ek, IH.
Qed.

Lemma add_missing_well_formed data entry :
  well_formed data -> well_formed (add_missing_column data entry).
Proof.
  intros Hwf. destruct entry as [c d]. unfold add_missing_column.
  destruct (has_column data c); [exact Hwf|].
  apply set_column_well_formed; [exact Hwf|apply broadcast_len].
Qed.

Section WithNumeric.
Context {num : Numeric}.

(** What one iteration of the second loop does to a table. *)
Lemma coerce_step_cases data c :
  coerce_step data c = data
  \/ exists s0, dict_get (columns data) c = Some s0
                /\ coerce_step data c = set_column data c (coerced s0).
Proof.
  unfold coerce_step, has_column, dict_mem, coerce_column, get_column.
  destruct (dict_get (columns data) c) as [s0|] eqn:E; [|now left].
  right. exists s0. split; [reflexivity|].
  cbn [py_bind]. rewrite to_numeric_ok. cbn [py_bind]. unfold coerced.
  destruct (any_isna (numeric_of s0)); [|reflexivity].
  unfold set_column. cbn [columns nrows]. f_equal. apply dict_set_twice.
Qed.

Lemma coerce_step_names data c :
  map fst (columns (coerce_step data c)) = map fst (columns data).
Proof.
  destruct (coerce_step_cases data c) as [->|(s0 & Hs & ->)]; [reflexivity|].
  cbn [set_column columns]. rewrite ConvertFacts.dict_set_names.
  unfold dict_mem. now rewrite Hs.
Qed.

Lemma coerce_step_well_formed data c :
  well_formed data -> well_formed (coerce_step data c).
Proof.
  intros Hwf. destruct (coerce_step_cases data c) as [->|(s0 & Hs & ->)]; [exact Hwf|].
  apply set_column_well_formed; [exact Hwf|]. rewrite coerced_len.
  apply (get_column_len data c s0 Hwf). unfold get_column. now rewrite Hs.
Qed.

End WithNumeric.

End ShapeFacts.

(** X15.  [handle_missing_data] keeps the columns of the table in their
    order and adds the expected columns that are absent after them, in the
    order of the default table; the number of rows is kept, and when every
    column of the table has one entry for each row, so has every column of
    the result, and of the whole normalisation. *)
Theorem X15_handled_table_shape :
  forall (num : Pandas.Numeric) (data : Pandas.DataFrame),
    map fst (Pandas.columns (App.handle_missing_data data))
    = map fst (Pandas.columns data) ++ ShapeFacts.absent data App.DEFAULT_VALUES
    /\ Pandas.nrows (App.handle_missing_data data) = Pandas.nrows data
    /\ (GeneratorFacts.well_formed data ->
        GeneratorFacts.well_formed (App.handle_missing_data data)
        /\ GeneratorFacts.well_formed (App.normalize data)).
Proof.
  intros num data. split; [|split].
  - unfold App.handle_missing_data. cbn zeta.
    rewrite <- (ShapeFacts.first_loop_names _ _ NormalizeFacts.defaults_nodup).
    apply (ConvertFacts.fold_invariant
             (fun d => map fst (Pandas.columns d)
                       = map fst (Pandas.columns
                                    (fold_left App.add_missing_column App.DEFAULT_VALUES data)))).
    + intros d c Hd. now rewrite ShapeFacts.coerce_step_names.
    + reflexivity.
  - apply NormalizeFacts.handle_missing_nrows.
  - assert (Hh : forall d, GeneratorFacts.well_formed d ->
                   GeneratorFacts.well_formed (App.handle_missing_data d)).
    { intros d Hd. unfold App.handle_missing_data. cbn zeta.
      apply (ConvertFacts.fold_invariant GeneratorFacts.well_formed).
      - intros d' c. apply ShapeFacts.coerce_step_well_formed.
      - apply (ConvertFacts.fold_invariant GeneratorFacts.well_formed).
        + intros d' e. apply ShapeFacts.add_missing_well_formed.
        + exact Hd. }
    intros Hwf. split; [now apply Hh|].
    unfold App.normalize. apply Hh.
    unfold App.convert_categorical_to_numeric.
    apply (ConvertFacts.fold_invariant GeneratorFacts.well_formed).
    + intros d e. apply ConvertFacts.convert_step_well_formed.
    + exact Hwf.
Qed.

Lemma X15_handled_table_shape_witness :
  let data := Pandas.mkDataFrame 2
                [("Age_Days", Pandas.SObject [Pandas.OStr "Old"; Pandas.OStr "9"]);
                 ("Site", Pandas.SObject [Pandas.OStr "north"; Pandas.OStr "south"])] in
  GeneratorFacts.well_formed (@App.normalize Pandas.reference_numeric data).
Proof.
  intros data.
  refine (proj2 (proj2 (proj2 (X15_handled_table_shape Pandas.reference_numeric data)) _)).
  repeat constructor.
Defined.

(** ** Training on a normalised table *)
Module TrainingFacts.
Import Pandas Utils App NormalizeFacts HandledFacts SyntheticFacts.

Lemma select_from data cols acc :
  Forall (fun col => has_column data col = true) cols ->
  exists cs,
    py_for (fun acc col => s <-? get_column data col ;; Ok (acc ++ [(col, s)])) cols acc
    = Ok cs
    /\ map fst cs = map fst acc ++ cols.
Proof.
  revert acc. induction cols as [|col cols IH]; intros acc Hall.
  - exists acc. cbn. now rewrite app_nil_r.
  - apply Forall_cons in Hall as [Hc Hall].
    destruct (GeneratorErrors.present_column _ _ Hc) as [s Hs].
    cbn [py_for]. rewrite Hs. cbn [py_bind].
    destruct (IH (acc ++ [(col, s)]) Hall) as (cs & Hrun & Hk).
    exists cs. split; [exact Hrun|].
    rewrite Hk, map_app. cbn [map fst]. now rewrite <- app_assoc.
Qed.

Lemma select_columns_ok data cols :
  Forall (fun col => has_column data col = true) cols ->
  exists X, select_columns data cols = Ok X
            /\ map fst (columns X) = cols /\ nrows X = nrows data.
Proof.
  intros Hall. unfold select_columns.
  destruct (select_from data cols [] Hall) as (cs & -> & Hk).
  cbn [py_bind]. eexists. split; [reflexivity|]. split; [exact Hk|reflexivity].
Qed.

Lemma has_all_targets_after draws data data' :
  ensure_targets draws data = Ok data' -> has_all_targets data' = true.
Proof.
  unfold ensure_targets. destruct (has_all_targets data) eqn:E; cbn [negb].
  - now intros [= <-].
  - intros H. destruct (generate_result _ _ _ H)
      as (w & m & p & c & Hn & Hp & Hk & _).
    unfold has_all_targets, target_variables, has_column, dict_mem. cbn [forallb].
    now rewrite Hn, Hp, Hk.
Qed.

Section WithNumeric.
Context {num : Numeric}.

Lemma handled_features data :
  features_numeric (handle_missing_data data) = true.
Proof.
  unfold features_numeric. cbn [forallb].
  rewrite (handled_has data "Waste_Type" (OStr "Mixed")) by (cbn; tauto).
  destruct (handled_numeric data "Moisture_Content") as [s1 ->]; [cbn; tauto|].
  destruct (handled_numeric data "pH_Level") as [s2 ->]; [cbn; tauto|].
  destruct (handled_numeric data "Carbon_Content") as [s3 ->]; [cbn; tauto|].
  now rewrite !coerced_is_numeric.
Qed.

Lemma handled_selects data :
  exists X, select_columns (handle_missing_data data) (map fst DEFAULT_VALUES) = Ok X
            /\ map fst (columns X) = map fst DEFAULT_VALUES
            /\ nrows X = nrows data.
Proof.
  destruct (select_columns_ok (handle_missing_data data) (map fst DEFAULT_VALUES))
    as (X & HX & Hk & Hn).
  - apply Forall_forall. intros col Hin%list_elem_of_In.
    apply in_map_iff in Hin as ([c d] & <- & Hin). exact (handled_has data c d Hin).
  - exists X. split; [exact HX|]. split; [exact Hk|].
    now rewrite Hn, handle_missing_nrows.
Qed.

Lemma handled_targets draws data :
  exists data', ensure_targets draws (handle_missing_data data) = Ok data'.
Proof.
  unfold ensure_targets.
  destruct (has_all_targets (handle_missing_data data)); cbn [negb]; [eauto|].
  apply generate_returns. apply handled_features.
Qed.

End WithNumeric.

Lemma py_bind_ok {A B : Type} (m : PyResult A) (k : A -> PyResult B) (r : B) :
  py_bind m k = Ok r -> exists a, m = Ok a /\ k a = Ok r.
Proof. destruct m as [a|e]; cbn [py_bind]; [eauto|discriminate]. Qed.

Lemma train_target_ok {sk : Sklearn} X data test_size models target models' :
  train_target X data test_size models target = Ok models' ->
  exists model, models' = dict_set models target model.
Proof.
  unfold train_target. intros H.
  apply py_bind_ok in H as (y & _ & H).
  apply py_bind_ok in H as ([[[a b] c] d] & _ & H).
  apply py_bind_ok in H as (model & _ & H).
  injection H as <-. eauto.
Qed.

(** The keys of the models after the loop over three targets. *)
Lemma trained_keys {sk : Sklearn} X data test_size models :
  py_for (train_target X data test_size) target_variables [] = Ok models ->
  map fst models = target_variables.
Proof.
  unfold target_variables. cbn [py_for]. intros H.
  apply py_bind_ok in H as (s1 & H1 & H).
  apply py_bind_ok in H as (s2 & H2 & H).
  apply py_bind_ok in H as (s3 & H3 & H).
  injection H as <-.
  apply train_target_ok in H1 as [m1 ->].
  apply train_target_ok in H2 as [m2 ->].
  apply train_target_ok in H3 as [m3 ->].
  reflexivity.
Qed.

Lemma train_models_raise {sk : Sklearn} draws table test_size X data' e :
  select_columns table (map fst DEFAULT_VALUES) = Ok X ->
  ensure_targets draws table = Ok data' ->
  train_models draws table test_size = Raise e ->
  py_for (train_target X data' test_size) target_variables [] = Raise e.
Proof.
  intros HX Hd He. unfold train_models in He. rewrite HX, Hd in He.
  cbn [py_bind] in He.
  destruct (py_for (train_target X data' test_size) target_variables [])
    as [models|e']; [discriminate|].
  cbn [py_bind] in He. congruence.
Qed.

End TrainingFacts.

(** X16.  On a table that went through [handle_missing_data], the training
    step raises nothing of its own: the seven feature columns are selected,
    in the order of the default table; the targets are there or are
    synthesized; and if training raises, the exception is one that the split
    or the fit of the library raised for one of the three targets. *)
Theorem X16_training_on_handled_table :
  forall (num : Pandas.Numeric) (sk : App.Sklearn) (draws : Utils.Draws)
         (data : Pandas.DataFrame) (test_size : float),
    let table := App.handle_missing_data data in
    exists X data',
      App.select_columns table (map fst App.DEFAULT_VALUES) = Ok X
      /\ map fst (Pandas.columns X) = map fst App.DEFAULT_VALUES
      /\ App.ensure_targets draws table = Ok data'
      /\ App.has_all_targets data' = true
      /\ forall e,
           App.train_models draws table test_size = Raise e ->
           exists target y,
             In target App.target_variables
             /\ Pandas.get_column data' target = Ok y
             /\ (App.train_test_split X y test_size = Raise e
                 \/ exists X_train X_test y_train y_test,
                      App.train_test_split X y test_size
                      = Ok (X_train, X_test, y_train, y_test)
                      /\ App.fit X_train y_train = Raise e).
Proof.
  intros num sk draws data test_size table.
  destruct (TrainingFacts.handled_selects data) as (X & HX & Hk & _).
  destruct (TrainingFacts.handled_targets draws data) as [data' Hd].
  pose proof (TrainingFacts.has_all_targets_after _ _ _ Hd) as Ht.
  exists X, data'. split; [exact HX|]. split; [exact Hk|]. split; [exact Hd|].
  split; [exact Ht|].
  intros e He.
  pose proof (TrainingFacts.train_models_raise _ _ _ _ _ _ HX Hd He) as Ef.
  destruct (FitFacts.py_for_raise _ _ _ _ Ef) as (target & models & Hin & Hb).
  assert (Pandas.has_column data' target = true) as Hc.
  { unfold App.has_all_targets in Ht. rewrite forallb_forall in Ht. now apply Ht. }
  destruct (FitFacts.train_target_raise _ _ _ _ _ _ Hc Hb) as (y & Hy & Hlib).
  exists target, y. auto.
Qed.

Lemma X16_training_on_handled_table_witness :
  exists X data',
    App.select_columns
      (@App.handle_missing_data Pandas.reference_numeric
         (Pandas.mkDataFrame 1 [("Waste_Type", Pandas.SObject [Pandas.OStr "Food"])]))
      (map fst App.DEFAULT_VALUES) = Ok X
    /\ App.ensure_targets (Utils.mkDraws [2.0%float] [1.0%float] [0.5%float] [1.5%float])
         (@App.handle_missing_data Pandas.reference_numeric
            (Pandas.mkDataFrame 1 [("Waste_Type", Pandas.SObject [Pandas.OStr "Food"])]))
       = Ok data'.
Proof.
  destruct (X16_training_on_handled_table Pandas.reference_numeric FitFacts.strict_library
              (Utils.mkDraws [2.0%float] [1.0%float] [0.5%float] [1.5%float])
              (Pandas.mkDataFrame 1 [("Waste_Type", Pandas.SObject [Pandas.OStr "Food"])])
              0.2%float)
    as (X & data' & HX & _ & Hd & _).
  exists X, data'. split; [exact HX | exact Hd].
Defined.

(** X17.  When training succeeds, the session holds exactly three models,
    one for each target, under the keys [Nitrogen_pct], [Phosphorus_pct] and
    [Potassium_pct] in this order, and success is the notice shown last. *)
Theorem X17_three_models_after_training :
  forall (sk : App.Sklearn) (draws : Utils.Draws) (data data' : Pandas.DataFrame)
         (test_size : float) (models : list (string * App.Model)),
    App.train_models draws data test_size = Ok (data', models) ->
    map fst models = App.target_variables
    /\ exists notices,
         App.train_handler draws data test_size
         = (notices ++ [App.Success "Models trained successfully!"], Some models).
Proof.
  intros sk draws data data' test_size models H. split.
  - unfold App.train_models in H.
    destruct (App.select_columns data (map fst App.DEFAULT_VALUES)) as [X|]; [|discriminate].
    cbn [py_bind] in H. destruct (App.ensure_targets draws data) as [d|]; [|discriminate].
    cbn [py_bind] in H.
    destruct (py_for (App.train_target X d test_size) App.target_variables [])
      as [ms|] eqn:E; [|discriminate].
    cbn [py_bind] in H. injection H as <- <-.
    exact (TrainingFacts.trained_keys _ _ _ _ E).
  - unfold App.train_handler. rewrite H.
    destruct (App.select_columns data (map fst App.DEFAULT_VALUES)) eqn:E.
    + eauto.
    + unfold App.train_models in H. rewrite E in H. discriminate.
Qed.

Lemma X17_three_models_after_training_witness :
  exists data' models,
    @App.train_models FitFacts.lenient_library FitFacts.no_draws
      FitFacts.degenerate_table 0.2 = Ok (data', models)
    /\ map fst models = App.target_variables.
Proof.
  eexists _, _. split.
  - vm_compute. reflexivity.
  - refine (proj1 (X17_three_models_after_training FitFacts.lenient_library
                     FitFacts.no_draws FitFacts.degenerate_table _ 0.2%float _ _)).
    vm_compute. reflexivity.
Defined.

(** ** Prediction and analysis (app.py, lines 213-296) *)
Module Prediction.
Import Pandas PlantDatabase Utils App Page.

(** What the page takes from a fitted pipeline:
    [model.predict(input_data)[0]], which may raise. *)
Class Predictor (sk : Sklearn) : Type := {
  predict_first : Model -> DataFrame -> PyResult float
}.

(** The one-row table built from the seven inputs of the form. *)
Definition input_data (waste_type : string) (moisture_content ph_level carbon_content
    particle_size : float) (age_days : Z) (degradation_rate : float) : DataFrame :=
  mkDataFrame 1
    [ ("Waste_Type", SObject [OStr waste_type]);
      ("Moisture_Content", SFloat64 [moisture_content]);
      ("pH_Level", SFloat64 [ph_level]);
      ("Carbon_Content", SFloat64 [carbon_content]);
      ("Particle_Size_mm", SFloat64 [particle_size]);
      ("Age_Days", SInt64 [age_days]);
      ("Degradation_Rate", SFloat64 [degradation_rate]) ].

Section WithPredictor.
Context {sk : Sklearn} {pr : Predictor sk}.

(** One iteration of [for target, model in st.session_state.models.items()]. *)
Definition predict_step (row : DataFrame) (predictions : gmap string float)
    (item : string * Model) : PyResult (gmap string float) :=
  let '(target, model) := item in
  value <-? predict_first model row ;;
  Ok (<[target := value]> predictions).

Definition predict_all (models : list (string * Model)) (row : DataFrame)
  : PyResult (gmap string float) :=
  py_for (predict_step row) models ∅.

(** The body of [if st.button("Predict and Analyze")]: the predictions, the
    analysis for every plant type and the carbon to nitrogen notice. *)
Definition predict_and_analyze (models : list (string * Model)) (row : DataFrame)
    (carbon_content : float)
  : PyResult (gmap string float * list (string * AnalysisState) * CNVerdict) :=
  predictions <-? predict_all models row ;;
  reports <-? plant_recommendations predictions ;;
  verdict <-? general_recommendations carbon_content predictions ;;
  Ok (predictions, reports, verdict).

End WithPredictor.

End Prediction.

Module PredictionFacts.
Import Pandas PlantDatabase Utils App Page Prediction UtilsFacts.

(** The prediction of three models, one for each target. *)
Lemma three_predictions {sk : Sklearn} {pr : Predictor sk}
    (models : list (string * Model)) row predictions :
  map fst models = target_variables ->
  predict_all models row = Ok predictions ->
  exists n p k, predictions = prediction n p k.
Proof.
  unfold target_variables. intros Hk.
  destruct models as [|[t1 m1] [|[t2 m2] [|[t3 m3] [|? ?]]]]; try discriminate.
  injection Hk as -> -> ->.
  unfold predict_all. cbn [py_for predict_step]. intros H.
  apply TrainingFacts.py_bind_ok in H as (s1 & H1 & H).
  apply TrainingFacts.py_bind_ok in H as (s2 & H2 & H).
  apply TrainingFacts.py_bind_ok in H as (s3 & H3 & H).
  injection H as <-.
  apply TrainingFacts.py_bind_ok in H1 as (n & _ & [= <-]).
  apply TrainingFacts.py_bind_ok in H2 as (p & _ & [= <-]).
  apply TrainingFacts.py_bind_ok in H3 as (k & _ & [= <-]).
  exists n, p, k. unfold prediction.
  apply map_eq. intros key.
  destruct (decide (key = "Potassium_pct")) as [->|Nk].
  { rewrite lookup_insert_eq. rewrite !lookup_insert_ne by discriminate.
    now rewrite lookup_insert_eq. }
  rewrite (lookup_insert_ne _ "Potassium_pct") by congruence.
  destruct (decide (key = "Phosphorus_pct")) as [->|Np].
  { rewrite lookup_insert_eq. rewrite lookup_insert_ne by discriminate.
    now rewrite lookup_insert_eq. }
  rewrite (lookup_insert_ne _ "Phosphorus_pct") by congruence.
  destruct (decide (key = "Nitrogen_pct")) as [->|Nn].
  { now rewrite !lookup_insert_eq. }
  rewrite !lookup_insert_ne by congruence. reflexivity.
Qed.

Lemma full_prediction_keys n p k : AnalyzerFacts.predicted (prediction n p k) = NUTRIENTS.
Proof. reflexivity. Qed.

End PredictionFacts.

Module AnalysisFacts.
Import Pandas PlantDatabase Utils App Page Prediction UtilsFacts.

Lemma table_ok :
  Forall (fun item => plant_info_ok (snd item) = true) plant_requirements.
Proof.
  apply Forall_forall. intros item Hin%list_elem_of_In.
  apply PageFacts.plant_ordered_ok.
  pose proof PageFacts.table_ordered as H. rewrite forallb_forall in H. now apply H.
Qed.

Lemma recommendations_run predictions :
  plant_recommendations predictions
  = Ok (map (fun item => (fst item, PageFacts.analysis predictions (snd item)))
          plant_requirements).
Proof.
  unfold plant_recommendations.
  now rewrite (PageFacts.reports_of_table predictions plant_requirements [] table_ok).
Qed.

(** A NaN divisor or dividend gives a NaN quotient. *)
Lemma div_nan_r (x y : float) : F64.is_nan y = true -> (x / y)%float = F64.nan.
Proof.
  intros H. apply FloatOrder.is_nan_spec in H.
  apply Prim2SF_inj. rewrite div_spec, H.
  replace (Prim2SF F64.nan) with S754_nan by (vm_compute; reflexivity).
  now destruct (Prim2SF x) as [[]|[]| |[] m e].
Qed.

Lemma div_nan_l (x y : float) : F64.is_nan x = true -> (x / y)%float = F64.nan.
Proof.
  intros H. apply FloatOrder.is_nan_spec in H.
  apply Prim2SF_inj. rewrite div_spec, H.
  replace (Prim2SF F64.nan) with S754_nan by (vm_compute; reflexivity).
  reflexivity.
Qed.

End AnalysisFacts.

(** X18.  The row a prediction is made for has the seven columns of the
    default table, in its order, with one entry each; these are the names
    and the order of the feature columns the models are trained on, for any
    table that went through [handle_missing_data]. *)
Theorem X18_prediction_row_matches_features :
  forall (num : Pandas.Numeric) (data X : Pandas.DataFrame)
         (waste_type : string) (moisture_content ph_level carbon_content
          particle_size : float) (age_days : Z) (degradation_rate : float),
    let row := Prediction.input_data waste_type moisture_content ph_level
                 carbon_content particle_size age_days degradation_rate in
    App.select_columns (App.handle_missing_data data) (map fst App.DEFAULT_VALUES) = Ok X ->
    map fst (Pandas.columns row) = map fst (Pandas.columns X)
    /\ GeneratorFacts.well_formed row
    /\ Forall (fun col => exists s, dict_get (Pandas.columns row) col = Some s
                                    /\ Pandas.is_object s = false)
         App.numeric_columns.
Proof.
  intros num data X waste_type moisture_content ph_level carbon_content
         particle_size age_days degradation_rate row HX.
  destruct (TrainingFacts.handled_selects data) as (X' & HX' & Hk & _).
  assert (X' = X) as -> by congruence.
  split; [now rewrite Hk|]. split; [repeat constructor|].
  repeat (apply List.Forall_cons; [eexists; split; reflexivity|]).
  apply List.Forall_nil.
Qed.

Lemma X18_prediction_row_matches_features_witness :
  exists X,
    map fst (Pandas.columns (Prediction.input_data "Food" 55.0 6.5 35.0 10.0 30 1.0))
    = map fst (Pandas.columns X).
Proof.
  destruct (TrainingFacts.handled_selects (num := Pandas.reference_numeric)
              (Pandas.mkDataFrame 1 [("Waste_Type", Pandas.SObject [Pandas.OStr "Paper"])]))
    as (X & HX & _).
  exists X.
  exact (proj1 (X18_prediction_row_matches_features Pandas.reference_numeric _ X
                  "Food" 55.0%float 6.5%float 35.0%float 10.0%float 30 1.0%float HX)).
Defined.

(** X19.  With the three models of a successful training, once the three
    predictions are made nothing else can raise: the prediction has the
    three keys the analyzer and the ratio look up, every plant type of the
    table gets a verdict for each of the three nutrients, in order, and the
    notice on the ratio is the one for carbon over the predicted nitrogen. *)
Theorem X19_predict_and_analyze :
  forall (sk : App.Sklearn) (pr : Prediction.Predictor sk)
         (models : list (string * App.Model)) (row : Pandas.DataFrame)
         (carbon_content : float) (predictions : gmap string float),
    map fst models = App.target_variables ->
    Prediction.predict_all models row = Ok predictions ->
    exists nitrogen phosphorus potassium reports,
      predictions = Utils.prediction nitrogen phosphorus potassium
      /\ Prediction.predict_and_analyze models row carbon_content
         = Ok (predictions, reports, App.c_n_verdict (carbon_content / nitrogen)%float)
      /\ map fst reports = map fst PlantDatabase.plant_requirements
      /\ Forall (fun report => map fst (fst (snd report)) = Utils.NUTRIENTS) reports.
Proof.
  intros sk pr models row carbon_content predictions Hk Hp.
  destruct (PredictionFacts.three_predictions _ _ _ Hk Hp) as (n & p & k & ->).
  exists n, p, k. eexists. split; [reflexivity|]. split; [|split].
  - unfold Prediction.predict_and_analyze. rewrite Hp. cbn [py_bind].
    rewrite AnalysisFacts.recommendations_run. cbn [py_bind]. reflexivity.
  - rewrite map_map. reflexivity.
  - apply Forall_map. apply Forall_forall. intros item Hin.
    unfold PageFacts.analysis. cbn [fst snd].
    rewrite AnalyzerFacts.entries_keys; [reflexivity|].
    apply UtilsFacts.plant_info_ok_covers.
    pose proof AnalysisFacts.table_ok as H. rewrite Forall_forall in H. now apply H.
Qed.

(** X20.  When the predicted nitrogen, or the carbon content, is NaN, the
    ratio is NaN, which is neither above 30 nor below 15: the notice shown is
    the one for an optimal ratio. *)
Theorem X20_nan_ratio_is_optimal :
  forall (carbon_content nitrogen : float) (predictions : gmap string float),
    predictions !! "Nitrogen_pct" = Some nitrogen ->
    F64.is_nan nitrogen = true \/ F64.is_nan carbon_content = true ->
    App.general_recommendations carbon_content predictions
    = Ok (App.CN_optimal F64.nan).
Proof.
  intros carbon_content nitrogen predictions Hn Hnan.
  unfold App.general_recommendations, App.c_n_ratio. rewrite Hn. cbn [py_bind].
  assert ((carbon_content / nitrogen)%float = F64.nan) as ->.
  { destruct Hnan as [H|H];
      [now apply AnalysisFacts.div_nan_r | now apply AnalysisFacts.div_nan_l]. }
  reflexivity.
Qed.

Lemma X20_nan_ratio_is_optimal_witness :
  App.general_recommendations 40 (Utils.prediction F64.nan 0.5 1.8)
  = Ok (App.CN_optimal F64.nan).
Proof.
  apply (X20_nan_ratio_is_optimal 40%float F64.nan).
  - vm_compute. reflexivity.
  - left. vm_compute. reflexivity.
Defined.

(** A session with three fitted models whose predictions are fixed numbers. *)
Definition fixed_predictor : Prediction.Predictor FitFacts.lenient_library :=
  {| Prediction.predict_first := fun _ _ => Ok 2.0%float |}.

Lemma X19_predict_and_analyze_witness :
  exists nitrogen phosphorus potassium reports,
    @Prediction.predict_and_analyze FitFacts.lenient_library fixed_predictor
      [("Nitrogen_pct", tt); ("Phosphorus_pct", tt); ("Potassium_pct", tt)]
      (Prediction.input_data "Food" 55.0 6.5 40.0 10.0 30 1.0) 40
    = Ok (Utils.prediction nitrogen phosphorus potassium, reports,
          App.c_n_verdict (40 / nitrogen)%float).
Proof.
  destruct (X19_predict_and_analyze FitFacts.lenient_library fixed_predictor
              [("Nitrogen_pct", tt); ("Phosphorus_pct", tt); ("Potassium_pct", tt)]
              (Prediction.input_data "Food" 55.0 6.5 40.0 10.0 30 1.0) 40%float
              (<["Potassium_pct" := 2.0%float]>
                 (<["Phosphorus_pct" := 2.0%float]> (<["Nitrogen_pct" := 2.0%float]> ∅))))
    as (n & p & k & reports & Hp & Hrun & _).
  - reflexivity.
  - reflexivity.
  - exists n, p, k, reports. rewrite <- Hp. exact Hrun.
Defined.

(** ** The data quality notice (app.py, lines 52-53, 58, 69 and 76) *)
Module Notice.
Import Pandas App.

(** [series.isna().sum()] *)
Definition count_isna (s : Series) : nat :=
  match s with
  | SObject vs =>
      length (List.filter (fun v => match v with OFloat f => F64.is_nan f | _ => false end) vs)
  | SInt64 _ => 0
  | SFloat64 vs => length (List.filter F64.is_nan vs)
  end.

(** The first loop of [handle_missing_data] with its list [missing_columns]. *)
Definition note_missing_column (st : DataFrame * list string) (entry : string * Obj)
  : DataFrame * list string :=
  let '(data, missing_columns) := st in
  let '(col, default_value) := entry in
  if has_column data col then st
  else (set_column data col (broadcast (nrows data) default_value),
        missing_columns ++ [col]).

Section WithNumeric.
Context {num : Numeric}.

(** The second loop with its dictionary [missing_values]: the count is
    taken on the column as read by [to_numeric], before it is filled. *)
Definition note_missing_values (st : DataFrame * list (string * nat)) (col : string)
  : DataFrame * list (string * nat) :=
  let '(data, missing_values) := st in
  if has_column data col then
    match (s <-? get_column data col ;; to_numeric s) with
    | Ok s' =>
        let data' := set_column data col s' in
        if any_isna s'
        then (set_column data' col (fillna s' (mean s')),
              dict_set missing_values col (count_isna s'))
        else (data', missing_values)
    | Raise _ =>
        (set_column data col (broadcast (nrows data) (default_value col)), missing_values)
    end
  else st.

(** [handle_missing_data] with what it notes on the way, and whether the
    notice is shown ([if missing_columns or missing_values]). *)
Definition handle_missing_data_noting (data : DataFrame)
  : DataFrame * list string * list (string * nat) * bool :=
  let '(data1, missing_columns) :=
    fold_left note_missing_column DEFAULT_VALUES (data, []) in
  let '(data2, missing_values) :=
    fold_left note_missing_values numeric_columns (data1, []) in
  (data2, missing_columns, missing_values,
   match missing_columns, missing_values with
   | [], [] => false
   | _, _ => true
   end).

End WithNumeric.

End Notice.

Module NoticeFacts.
Import Pandas App AppFacts NormalizeFacts HandledFacts ShapeFacts Notice.

Lemma flat_map_ext_in {A B : Type} (f g : A -> list B) (l : list A) :
  (forall a, In a l -> f a = g a) -> flat_map f l = flat_map g l.
Proof.
  induction l as [|a l IH]; intros H; [reflexivity|]. cbn [flat_map].
  rewrite (H a) by now left. f_equal. apply IH. intros; apply H; now right.
Qed.

Lemma absent_cons data c d entries :
  absent data ((c, d) :: entries)
  = (if has_column data c then [] else [c]) ++ absent data entries.
Proof.
  unfold absent. cbn [map fst List.filter]. now destruct (has_column data c).
Qed.

Lemma absent_ext data data' entries :
  (forall col, In col (map fst entries) -> has_column data' col = has_column data col) ->
  absent data' entries = absent data entries.
Proof.
  intros H. unfold absent. apply List.filter_ext_in. intros col Hin. now rewrite H.
Qed.

Lemma note_columns_fold (entries : list (string * Obj)) data acc :
  List.NoDup (map fst entries) ->
  fold_left note_missing_column entries (data, acc)
  = (fold_left add_missing_column entries data, acc ++ absent data entries).
Proof.
  revert data acc. induction entries as [|[c d] entries IH]; intros data acc Hnd.
  - cbn. now rewrite app_nil_r.
  - cbn [map fst] in Hnd. apply List.NoDup_cons_iff in Hnd as [Hc Hnd].
    rewrite absent_cons. cbn [fold_left]. unfold note_missing_column at 2.
    unfold add_missing_column at 2.
    destruct (has_column data c) eqn:E.
    + now rewrite (IH _ _ Hnd).
    + rewrite (IH _ _ Hnd), <- app_assoc. cbn [app]. f_equal. f_equal. f_equal.
      apply absent_ext. intros col Hin.
      pose proof (add_missing_has data (c, d) col) as H.
      unfold add_missing_column in H. rewrite E in H. apply H.
      cbn [fst]. intros ->. contradiction.
Qed.

Section WithNumeric.
Context {num : Numeric}.

(** What a numeric column adds to [missing_values]. *)
Definition noted (data : DataFrame) (col : string) : list (string * nat) :=
  match dict_get (columns data) col with
  | Some s0 =>
      if any_isna (numeric_of s0) then [(col, count_isna (numeric_of s0))] else []
  | None => []
  end.

Lemma note_values_step data mv col :
  dict_get mv col = None ->
  note_missing_values (data, mv) col = (coerce_step data col, mv ++ noted data col).
Proof.
  intros Hfresh.
  unfold note_missing_values, coerce_step, coerce_column, noted, has_column, dict_mem,
    get_column.
  destruct (dict_get (columns data) col) as [s0|]; [|now rewrite app_nil_r].
  cbn [py_bind]. rewrite to_numeric_ok. cbn [py_bind].
  destruct (any_isna (numeric_of s0)); [|now rewrite app_nil_r].
  f_equal. clear -Hfresh. induction mv as [|[k v] mv IH]; [reflexivity|].
  cbn [dict_get] in Hfresh. cbn [dict_set app].
  destruct (String.eqb k col); [discriminate|]. now rewrite IH.
Qed.

Lemma noted_keys data col c : dict_get (noted data col) c <> None -> c = col.
Proof.
  unfold noted. destruct (dict_get (columns data) col) as [s0|]; [|now cbn].
  destruct (any_isna (numeric_of s0)); [|now cbn].
  cbn [dict_get]. destruct (String.eqb_spec col c); [auto|tauto].
Qed.

Lemma dict_get_app_None {V : Type} (d1 d2 : list (string * V)) k :
  dict_get d1 k = None -> dict_get (d1 ++ d2) k = dict_get d2 k.
Proof.
  induction d1 as [|[k' v'] d1 IH]; [reflexivity|]. cbn [dict_get app].
  destruct (String.eqb k' k); [discriminate|exact IH].
Qed.

Lemma note_values_fold (cols : list string) data mv :
  List.NoDup cols ->
  (forall c, In c cols -> dict_get mv c = None) ->
  fold_left note_missing_values cols (data, mv)
  = (fold_left coerce_step cols data, mv ++ flat_map (noted data) cols).
Proof.
  revert data mv. induction cols as [|col cols IH]; intros data mv Hnd Hfresh.
  - cbn. now rewrite app_nil_r.
  - apply List.NoDup_cons_iff in Hnd as [Hc Hnd].
    cbn [fold_left flat_map].
    rewrite note_values_step by (apply Hfresh; now left).
    rewrite (IH _ _ Hnd).
    + rewrite <- app_assoc. f_equal. f_equal. f_equal.
      apply flat_map_ext_in. intros c Hin. unfold noted.
      rewrite coerce_step_get.
      destruct (String.eqb_spec col c) as [->|N]; [contradiction|reflexivity].
    + intros c Hin. rewrite dict_get_app_None by (apply Hfresh; now right).
      destruct (dict_get (noted data col) c) eqn:E; [|reflexivity].
      assert (c = col) as -> by (apply (noted_keys data); congruence).
      contradiction.
Qed.

Lemma existsb_repeat {A : Type} (f : A -> bool) (x : A) (n : nat) :
  f x = false -> existsb f (repeat x n) = false.
Proof.
  intros H. induction n; [reflexivity|]. cbn [repeat existsb]. now rewrite H, IHn.
Qed.

(** A numeric default laid out in every row has no missing entry. *)
Lemma default_not_noted n col d :
  In (col, d) DEFAULT_VALUES -> In col numeric_columns ->
  any_isna (numeric_of (broadcast n d)) = false.
Proof.
  unfold DEFAULT_VALUES, numeric_columns. cbn [In]. intros H Hn.
  destruct H as [H|H].
  { injection H as <- <-. exfalso.
    repeat (destruct Hn as [Hn|Hn]; [discriminate|]). exact Hn. }
  repeat (destruct H as [H|H];
    [injection H as <- <-; cbn [broadcast numeric_of any_isna];
     first [reflexivity | apply existsb_repeat; vm_compute; reflexivity]|]).
  destruct H.
Qed.

Lemma noted_after_defaults data col :
  In col numeric_columns ->
  noted (fold_left add_missing_column DEFAULT_VALUES data) col = noted data col.
Proof.
  intros Hin. destruct (numeric_is_default _ Hin) as [d Hd].
  unfold noted. rewrite first_loop_get, (defaults_get _ _ Hd). unfold filled.
  destruct (dict_get (columns data) col); [reflexivity|].
  now rewrite (default_not_noted _ _ _ Hd Hin).
Qed.

Lemma noting_run data :
  handle_missing_data_noting data
  = (handle_missing_data data, absent data DEFAULT_VALUES,
     flat_map (noted data) numeric_columns,
     match absent data DEFAULT_VALUES, flat_map (noted data) numeric_columns with
     | [], [] => false
     | _, _ => true
     end).
Proof.
  unfold handle_missing_data_noting, handle_missing_data.
  rewrite (note_columns_fold _ _ _ defaults_nodup). cbn [app].
  rewrite (note_values_fold _ _ _ numeric_columns_nodup) by reflexivity. cbn [app].
  assert (flat_map (noted (fold_left add_missing_column DEFAULT_VALUES data)) numeric_columns
          = flat_map (noted data) numeric_columns) as ->; [|reflexivity].
  apply flat_map_ext_in. intros c Hin. now apply noted_after_defaults.
Qed.

Lemma noted_positive s :
  any_isna s = true -> (0 < count_isna s)%nat.
Proof.
  destruct s as [vs|vs|vs]; cbn [any_isna count_isna]; [| discriminate |].
  - induction vs as [|v vs IH]; cbn [existsb List.filter]; [discriminate|].
    destruct (match v with OFloat f => F64.is_nan f | _ => false end);
      cbn [orb length]; [lia|exact IH].
  - induction vs as [|v vs IH]; cbn [existsb List.filter]; [discriminate|].
    destruct (F64.is_nan v); cbn [orb length]; [lia|exact IH].
Qed.

End WithNumeric.

End NoticeFacts.

(** X21.  What [handle_missing_data] notes does not change the table it
    returns.  [missing_columns] lists the expected columns the table lacks,
    in the order of the default table; [missing_values] has, for each
    present numeric column with an entry that is missing or cannot be read as
    a number, the count of such entries, which is positive.  The notice is
    shown exactly when one of the two is not empty, and never for a table
    that is fully populated with numbers. *)
Theorem X21_data_quality_notice :
  forall (num : Pandas.Numeric) (data : Pandas.DataFrame),
    exists missing_columns missing_values shown,
      Notice.handle_missing_data_noting data
      = (App.handle_missing_data data, missing_columns, missing_values, shown)
      /\ missing_columns = ShapeFacts.absent data App.DEFAULT_VALUES
      /\ missing_values = flat_map (NoticeFacts.noted data) App.numeric_columns
      /\ Forall (fun item => (0 < snd item)%nat) missing_values
      /\ (shown = false <-> missing_columns = [] /\ missing_values = [])
      /\ (NormalizeFacts.fully_populated data = true -> shown = false).
Proof.
  intros num data. eexists _, _, _. split; [apply NoticeFacts.noting_run|].
  split; [reflexivity|]. split; [reflexivity|]. split; [|split].
  - apply Forall_forall. intros [c n] Hin%list_elem_of_In.
    apply in_flat_map in Hin as (col & _ & Hin). unfold NoticeFacts.noted in Hin.
    destruct (dict_get (Pandas.columns data) col) as [s0|]; [|destruct Hin].
    destruct (Pandas.any_isna (NormalizeFacts.numeric_of s0)) eqn:E; [|destruct Hin].
    destruct Hin as [[= <- <-]|[]]. cbn [snd]. now apply NoticeFacts.noted_positive.
  - destruct (ShapeFacts.absent data App.DEFAULT_VALUES);
      destruct (flat_map (NoticeFacts.noted data) App.numeric_columns);
      split; try tauto; try discriminate; intros [? ?]; discriminate.
  - intros Hf.
    assert (ShapeFacts.absent data App.DEFAULT_VALUES = []) as ->.
    { unfold ShapeFacts.absent.
      assert (forall l, (forall c, In c l -> Pandas.has_column data c = true) ->
                List.filter (fun col => negb (Pandas.has_column data col)) l = []) as H.
      { induction l as [|c l IH]; intros Hl; [reflexivity|]. cbn [List.filter].
        rewrite (Hl c) by now left. cbn [negb]. apply IH. intros; apply Hl; now right. }
      apply H. intros c Hin. apply in_map_iff in Hin as ([c' d] & <- & Hin).
      exact (IdentityFacts.fully_populated_has _ _ _ Hf Hin). }
    assert (flat_map (NoticeFacts.noted data) App.numeric_columns = []) as ->; [|reflexivity].
    assert (forall l, (forall c, In c l -> NoticeFacts.noted data c = []) ->
              flat_map (NoticeFacts.noted data) l = []) as H.
    { induction l as [|c l IH]; intros Hl; [reflexivity|]. cbn [flat_map].
      rewrite (Hl c) by now left. apply IH. intros; apply Hl; now right. }
    apply H. intros c Hin.
    destruct (IdentityFacts.fully_populated_numeric _ _ Hf Hin) as (s & Hs & Ho & Hn).
    unfold NoticeFacts.noted. rewrite Hs.
    now rewrite (HandledFacts.numeric_of_fixed _ Ho), Hn.
Qed.

(** ** The draws only matter for food and garden waste *)
Module DrawFacts.
Import Pandas Utils App GeneratorFacts SyntheticFacts.

(** A draw of [np.random.uniform(low, high)]: [low <= u < high]. *)
Definition drawn (low high u : float) : bool :=
  (low <=? u)%float && (u <? high)%float.

(** Each array holds draws of its range. *)
Definition drawn_from_ranges (draws : Draws) : Prop :=
  Forall (fun u => drawn 1.5 4.0 u = true) (nitrogen_food draws)
  /\ Forall (fun u => drawn 0.5 2.0 u = true) (nitrogen_garden draws)
  /\ Forall (fun u => drawn 0.3 1.2 u = true) (phosphorus_food draws)
  /\ Forall (fun u => drawn 1.0 2.5 u = true) (potassium_food draws).

(** No entry of the column is [label]. *)
Definition without (s : Series) (label : string) : bool :=
  forallb negb (eq_label s label).

(** Zero times a positive finite number is zero. *)
Lemma zero_times (low high u : float) :
  (0 <? low)%float = true -> drawn low high u = true -> (0 * u)%float = 0%float.
Proof.
  intros Hlow [Hl Hh]%andb_prop.
  pose proof (FloatOrder.ltb_leb_trans _ _ _ Hlow Hl) as Hpos.
  rewrite ltb_spec in Hpos, Hh. rewrite CNFacts.Prim2SF_zero in Hpos.
  apply Prim2SF_inj. rewrite mul_spec, CNFacts.Prim2SF_zero.
  destruct (Prim2SF u) as [[]|[]| |[] m e]; try discriminate; try reflexivity.
  destruct (Prim2SF high) as [[]|[]| |[] m e]; discriminate.
Qed.

Lemma times_array_without (low high : float) (bs : list bool) (us : list float) :
  (0 <? low)%float = true ->
  forallb negb bs = true ->
  Forall (fun u => drawn low high u = true) us ->
  times_array bs us = repeat 0%float (Nat.min (length bs) (length us)).
Proof.
  intros Hlow. revert us. induction bs as [|b bs IH]; intros us Hb Hu; [reflexivity|].
  destruct us as [|u us]; [reflexivity|].
  cbn [forallb] in Hb. apply andb_prop in Hb as [Hb1 Hb].
  apply Forall_cons in Hu as [Hu1 Hu].
  unfold times_array in *. cbn [zip_with length Nat.min repeat]. f_equal.
  - destruct b; [discriminate|]. unfold indicator. exact (zero_times _ _ _ Hlow Hu1).
  - now apply IH.
Qed.

End DrawFacts.

(** X22.  On a table with no row of food or garden waste, the draws have no
    part in the result: with any two sets of draws of the four ranges, one
    entry for each row, the generator returns the same table. *)
Theorem X22_draws_matter_for_food_and_garden_only :
  forall (draws draws' : Utils.Draws) (data : Pandas.DataFrame) (waste : Pandas.Series),
    Pandas.get_column data "Waste_Type" = Ok waste ->
    Pandas.series_len waste = Pandas.nrows data ->
    DrawFacts.without waste "Food" = true ->
    DrawFacts.without waste "Garden" = true ->
    GeneratorFacts.draws_for draws (Pandas.nrows data) ->
    GeneratorFacts.draws_for draws' (Pandas.nrows data) ->
    DrawFacts.drawn_from_ranges draws ->
    DrawFacts.drawn_from_ranges draws' ->
    Utils.generate_synthetic_targets draws data
    = Utils.generate_synthetic_targets draws' data.
Proof.
  intros draws draws' data waste Hw Hlen Hf Hg (L1 & L2 & L3 & L4) (L1' & L2' & L3' & L4')
         (R1 & R2 & R3 & R4) (R1' & R2' & R3' & R4').
  rewrite !SyntheticFacts.generate_closed_form. rewrite Hw. cbn [py_bind].
  destruct (m <-? Pandas.get_column data "Moisture_Content";; Pandas.as_floats m)
    as [moisture|e]; [|reflexivity].
  cbn [py_bind].
  destruct (c <-? Pandas.get_column data "pH_Level";; Pandas.as_floats c)
    as [ph|e]; [|reflexivity].
  cbn [py_bind].
  destruct (c <-? Pandas.get_column data "Carbon_Content";; Pandas.as_floats c)
    as [carbon|e]; [|reflexivity].
  cbn [py_bind].
  unfold Utils.nitrogen_column, Utils.phosphorus_column, Utils.potassium_column.
  pose proof (GeneratorFacts.eq_label_length waste "Food") as Ef.
  pose proof (GeneratorFacts.eq_label_length waste "Garden") as Eg.
  rewrite (DrawFacts.times_array_without 1.5 4.0 _ (Utils.nitrogen_food draws))
    by (first [reflexivity | assumption]).
  rewrite (DrawFacts.times_array_without 1.5 4.0 _ (Utils.nitrogen_food draws'))
    by (first [reflexivity | assumption]).
  rewrite (DrawFacts.times_array_without 0.5 2.0 _ (Utils.nitrogen_garden draws))
    by (first [reflexivity | assumption]).
  rewrite (DrawFacts.times_array_without 0.5 2.0 _ (Utils.nitrogen_garden draws'))
    by (first [reflexivity | assumption]).
  rewrite (DrawFacts.times_array_without 0.3 1.2 _ (Utils.phosphorus_food draws))
    by (first [reflexivity | assumption]).
  rewrite (DrawFacts.times_array_without 0.3 1.2 _ (Utils.phosphorus_food draws'))
    by (first [reflexivity | assumption]).
  rewrite (DrawFacts.times_array_without 1.0 2.5 _ (Utils.potassium_food draws))
    by (first [reflexivity | assumption]).
  rewrite (DrawFacts.times_array_without 1.0 2.5 _ (Utils.potassium_food draws'))
    by (first [reflexivity | assumption]).
  rewrite Ef, Eg, L1, L2, L3, L4, L1', L2', L3', L4'. reflexivity.
Qed.

Lemma X22_draws_matter_for_food_and_garden_only_witness :
  let data := Pandas.mkDataFrame 2
                [("Waste_Type", Pandas.SObject [Pandas.OStr "Paper"; Pandas.OStr "Mixed"]);
                 ("Moisture_Content", Pandas.SFloat64 [20.0; 70.0]%float);
                 ("pH_Level", Pandas.SFloat64 [7.5; 5.5]%float);
                 ("Carbon_Content", Pandas.SFloat64 [45.0; 30.0]%float)] in
  Utils.generate_synthetic_targets
    (Utils.mkDraws [2.0; 3.0]%float [1.0; 1.5]%float [0.5; 0.9]%float [1.5; 2.0]%float) data
  = Utils.generate_synthetic_targets
      (Utils.mkDraws [3.5; 1.5]%float [0.5; 1.9]%float [1.1; 0.3]%float [1.0; 2.4]%float) data.
Proof.
  intros data.
  apply (X22_draws_matter_for_food_and_garden_only _ _ data
           (Pandas.SObject [Pandas.OStr "Paper"; Pandas.OStr "Mixed"])).
  - reflexivity.
  - reflexivity.
  - reflexivity.
  - reflexivity.
  - repeat split.
  - repeat split.
  - repeat split; repeat constructor.
  - repeat split; repeat constructor.
Defined.

(** ** The ratio for a negative predicted nitrogen *)
Module QuotientFacts.
Import App.

Lemma shr_1_nonneg (mrs : shr_record) : 0 <= shr_m mrs -> 0 <= shr_m (shr_1 mrs).
Proof.
  destruct mrs as [m r s]. cbn [shr_m shr_1].
  destruct m as [|p|p]; [cbn; lia| |lia].
  intros _. destruct p; cbn; lia.
Qed.

Lemma iter_shr_1_nonneg (p : positive) (mrs : shr_record) :
  0 <= shr_m mrs -> 0 <= shr_m (SpecFloat.iter_pos shr_1 p mrs).
Proof.
  revert mrs. induction p as [p IH|p IH|]; intros mrs H; cbn [SpecFloat.iter_pos].
  - apply IH, IH. now apply shr_1_nonneg.
  - now apply IH, IH.
  - now apply shr_1_nonneg.
Qed.

Lemma shr_fexp_nonneg (m e : Z) (l : location) :
  0 <= m -> 0 <= shr_m (fst (shr_fexp prec emax m e l)).
Proof.
  intros H. unfold shr_fexp, shr.
  assert (0 <= shr_m (shr_record_of_loc m l)) as H0.
  { destruct l as [|[]]; exact H. }
  destruct (fexp prec emax (Zdigits2 m + e) - e); cbn [fst]; try exact H0.
  now apply iter_shr_1_nonneg.
Qed.

Lemma round_nearest_even_nonneg (m : Z) (l : location) :
  0 <= m -> 0 <= round_nearest_even m l.
Proof.
  intros H. destruct l as [|[]]; cbn [round_nearest_even]; try lia.
  destruct (Z.even m); lia.
Qed.

(** Rounding a non-negative mantissa gives a zero, a finite number or an
    infinity of the given sign, never NaN. *)
Lemma binary_round_aux_sign (sx : bool) (mx ex : Z) (lx : location) :
  0 <= mx ->
  binary_round_aux prec emax sx mx ex lx = S754_zero sx
  \/ (exists m e, binary_round_aux prec emax sx mx ex lx = S754_finite sx m e)
  \/ binary_round_aux prec emax sx mx ex lx = S754_infinity sx.
Proof.
  intros H. unfold binary_round_aux.
  pose proof (shr_fexp_nonneg mx ex lx H) as H1.
  destruct (shr_fexp prec emax mx ex lx) as [mrs' e']. cbn [fst] in H1.
  pose proof (shr_fexp_nonneg _ e' loc_Exact
                (round_nearest_even_nonneg _ (loc_of_shr_record mrs') H1)) as H2.
  destruct (shr_fexp prec emax (round_nearest_even (shr_m mrs') (loc_of_shr_record mrs'))
              e' loc_Exact) as [mrs'' e'']. cbn [fst] in H2.
  destruct (shr_m mrs'') as [|m|m]; [now left| |lia].
  destruct (e'' <=? emax - prec); [right; left; eauto | now right; right].
Qed.

Lemma div_core_nonneg (m1 m2 : positive) (e1 e2 : Z) :
  0 <= fst (fst (SFdiv_core_binary prec emax (Zpos m1) e1 (Zpos m2) e2)).
Proof.
  unfold SFdiv_core_binary.
  set (s := (e1 - e2 - _)%Z).
  set (m' := match s with Z0 => Zpos m1 | Zpos _ => Z.shiftl (Zpos m1) s | Zneg _ => 0 end).
  assert (0 <= m') as Hm.
  { subst m'. destruct s; [lia| |lia]. apply Z.shiftl_nonneg. lia. }
  pose proof (Z.div_pos m' (Zpos m2) Hm ltac:(lia)) as Hq.
  unfold Z.div in Hq. destruct (Z.div_eucl m' (Zpos m2)) as [q r]. exact Hq.
Qed.

(** A positive finite number over a negative number is below fifteen. *)
Lemma negative_quotient (x y : float) :
  (0 <? x)%float = true -> (x <? infinity)%float = true -> (y <? 0)%float = true ->
  ((x / y) <? 15)%float = true.
Proof.
  intros Hx Hfin Hy. rewrite ltb_spec in *. rewrite CNFacts.Prim2SF_zero in Hx, Hy.
  rewrite CNFacts.Prim2SF_infinity in Hfin. rewrite div_spec.
  replace (Prim2SF 15) with (S754_finite false 8444249301319680 (-49))
    by (vm_compute; reflexivity).
  destruct (Prim2SF x) as [[]|[]| |[] mx ex]; try discriminate.
  destruct (Prim2SF y) as [[]|[]| |[] my ey]; try discriminate; [reflexivity|].
  unfold SF64div, SFdiv.
  pose proof (div_core_nonneg mx my ex ey) as Hq.
  destruct (SFdiv_core_binary prec emax (Zpos mx) ex (Zpos my) ey) as [[mz ez] lz].
  cbn [fst] in Hq. cbn [xorb].
  destruct (binary_round_aux_sign true mz ez lz Hq) as [->|[(m & e & ->)| ->]];
    reflexivity.
Qed.

End QuotientFacts.

(** X23.  A negative predicted nitrogen (a model fitted on targets with
    negative entries can give one) with a positive, finite carbon content
    gives a ratio that is not above 30 and is below 15: the notice shown is
    the one for a low ratio, which advises adding carbon. *)
Theorem X23_negative_nitrogen_is_low :
  forall (carbon_content nitrogen : float) (predictions : gmap string float),
    predictions !! "Nitrogen_pct" = Some nitrogen ->
    (0 <? carbon_content)%float = true ->
    (carbon_content <? infinity)%float = true ->
    (nitrogen <? 0)%float = true ->
    App.general_recommendations carbon_content predictions
    = Ok (App.CN_low (carbon_content / nitrogen)%float).
Proof.
  intros carbon_content nitrogen predictions Hn Hc Hfin Hneg.
  unfold App.general_recommendations, App.c_n_ratio. rewrite Hn. cbn [py_bind].
  pose proof (QuotientFacts.negative_quotient _ _ Hc Hfin Hneg) as Hlow.
  unfold App.c_n_verdict. rewrite Hlow.
  destruct (30 <? carbon_content / nitrogen)%float eqn:E; [|reflexivity].
  pose proof (FloatOrder.ltb_trans _ _ _ E Hlow) as C. vm_compute in C. discriminate.
Qed.

Lemma X23_negative_nitrogen_is_low_witness :
  App.general_recommendations 40 (Utils.prediction (-0.5) 0.5 1.8)
  = Ok (App.CN_low (40 / -0.5)%float).
Proof.
  apply (X23_negative_nitrogen_is_low 40%float (-0.5)%float); vm_compute; reflexivity.
Defined.

(** ** The ranges of the synthesized targets *)
Module RangeFacts.
Import Pandas Utils App SyntheticFacts.

(** The weighted combinations of [generate_synthetic_targets], before
    [.clip]. *)
Definition nitrogen_combination (draws : Draws) (waste : Series)
    (moisture ph : list float) : list float :=
  minus (plus (plus (times_array (eq_label waste "Food") (nitrogen_food draws))
                    (times_array (eq_label waste "Garden") (nitrogen_garden draws)))
              (scaled moisture 0.01))
        (scaled ph 0.1).

Definition phosphorus_combination (draws : Draws) (waste : Series)
    (carbon : list float) : list float :=
  plus (times_array (eq_label waste "Food") (phosphorus_food draws))
       (scaled carbon 0.005).

Definition potassium_combination (draws : Draws) (waste : Series)
    (moisture : list float) : list float :=
  plus (times_array (eq_label waste "Food") (potassium_food draws))
       (scaled moisture 0.008).

(** [v] is [x] clipped: it is missing exactly when [x] is, and otherwise
    within the range. *)
Definition clipped (lower upper x v : float) : Prop :=
  v = clip lower upper x
  /\ F64.is_nan v = F64.is_nan x
  /\ (F64.is_nan x = false -> within lower upper v = true).

Lemma clipped_entries (lower upper : float) (xs : list float) :
  (lower <=? upper)%float = true ->
  Forall2 (clipped lower upper) xs (map (clip lower upper) xs).
Proof.
  intros Hle. induction xs as [|x xs IH]; cbn [map]; constructor; [|exact IH].
  split; [reflexivity|]. split; [now apply clip_is_nan|].
  intros Hx. now apply clip_within.
Qed.

End RangeFacts.

(** X24.  Whenever the generator returns, each entry of a synthesized
    column is the clipped weighted combination of the entries of the table's
    own columns in its row and of the draws for the row: it is missing (NaN)
    exactly when the combination is, and otherwise lies in the range of its
    nutrient, [0.05, 5.0] for nitrogen, [0.01, 2.0] for phosphorus and
    [0.05, 3.0] for potassium. *)
Theorem X24_synthesized_entries_clipped :
  forall (draws : Utils.Draws) (data data' : Pandas.DataFrame),
    Utils.generate_synthetic_targets draws data = Ok data' ->
    exists waste m p c moisture ph carbon nitrogen phosphorus potassium,
      Pandas.get_column data "Waste_Type" = Ok waste
      /\ Pandas.get_column data "Moisture_Content" = Ok m
      /\ Pandas.as_floats m = Ok moisture
      /\ Pandas.get_column data "pH_Level" = Ok p
      /\ Pandas.as_floats p = Ok ph
      /\ Pandas.get_column data "Carbon_Content" = Ok c
      /\ Pandas.as_floats c = Ok carbon
      /\ dict_get (Pandas.columns data') "Nitrogen_pct" = Some (Pandas.SFloat64 nitrogen)
      /\ dict_get (Pandas.columns data') "Phosphorus_pct"
         = Some (Pandas.SFloat64 phosphorus)
      /\ dict_get (Pandas.columns data') "Potassium_pct"
         = Some (Pandas.SFloat64 potassium)
      /\ Forall2 (RangeFacts.clipped 0.05 5.0)
           (RangeFacts.nitrogen_combination draws waste moisture ph) nitrogen
      /\ Forall2 (RangeFacts.clipped 0.01 2.0)
           (RangeFacts.phosphorus_combination draws waste carbon) phosphorus
      /\ Forall2 (RangeFacts.clipped 0.05 3.0)
           (RangeFacts.potassium_combination draws waste moisture) potassium.
Proof.
  intros draws data data' Hgen.
  destruct (SyntheticFacts.generate_reads _ _ _ Hgen)
    as (waste & m & p & c & moisture & ph & carbon
        & Hw & Hm & Em & Hp & Ep & Hc & Ec & ->).
  destruct (SyntheticFacts.synthesized_frame data
              (Pandas.SFloat64 (Utils.nitrogen_column draws waste moisture ph))
              (Pandas.SFloat64 (Utils.phosphorus_column draws waste carbon))
              (Pandas.SFloat64 (Utils.potassium_column draws waste moisture)))
    as (Hn & Hph & Hk & _).
  exists waste, m, p, c, moisture, ph, carbon.
  eexists _, _, _.
  repeat (split; [eassumption|]).
  repeat split; apply RangeFacts.clipped_entries; vm_compute; reflexivity.
Qed.

Lemma X24_synthesized_entries_clipped_witness :
  let data := Pandas.mkDataFrame 1
                [("Waste_Type", Pandas.SObject [Pandas.OStr "Food"]);
                 ("Moisture_Content", Pandas.SFloat64 [900.0%float]);
                 ("pH_Level", Pandas.SFloat64 [6.5%float]);
                 ("Carbon_Content", Pandas.SInt64 [35])] in
  let draws := Utils.mkDraws [3.9%float] [0.6%float] [1.1%float] [2.4%float] in
  exists data' nitrogen,
    Utils.generate_synthetic_targets draws data = Ok data'
    /\ dict_get (Pandas.columns data') "Nitrogen_pct" = Some (Pandas.SFloat64 nitrogen)
    /\ Forall2 (RangeFacts.clipped 0.05 5.0) [12.25%float] nitrogen.
Proof.
  intros data draws.
  destruct (SyntheticFacts.generate_returns draws data) as [data' Hgen];
    [vm_compute; reflexivity|].
  destruct (X24_synthesized_entries_clipped draws data data' Hgen)
    as (waste & m & p & c & moisture & ph & carbon & nitrogen & phosphorus & potassium
        & Hw & Hm & Em & Hp & Ep & _ & _ & Hn & _ & _ & Fn & _).
  vm_compute in Hw. injection Hw as <-.
  vm_compute in Hm. injection Hm as <-.
  vm_compute in Em. injection Em as <-.
  vm_compute in Hp. injection Hp as <-.
  vm_compute in Ep. injection Ep as <-.
  exists data', nitrogen. split; [exact Hgen|]. split; [exact Hn|].
  exact Fn.
Defined.
